(** * medATM: the kiosk session lifecycle of the Express/Mongoose backend

    A shallow embedding of
      - backend/utils/predictionLogic.js   ([predictDisease]),
      - backend/models/Patient.js, backend/models/Diagnosis.js (schemas),
      - backend/routes/esp32.js            (data_upload, get_motor_command,
                                            command_executed),
      - the router mounted at /api/doctor  (patient/start, diagnosis/approve,
                                            history/:id delete),
    followed by the properties of the session state machine.

    Conventions.
      - A handler is a function from the request and the store to an HTTP
        response and the next store; [now] is the value [Date.now()] has
        during the call.
      - A collection is the list of its documents in insertion order.
      - A JavaScript number is [NaN], an infinity, or the rational that the
        finite double denotes; numeric literals of the source stand for the
        double they are read as.
      - Strings are byte strings holding UTF-8. *)

From Stdlib Require Import List String Ascii Bool Arith NArith ZArith QArith Lia.
From Stdlib Require Import Permutation Sorted.
Import ListNotations.
Open Scope string_scope.
Open Scope nat_scope.
Open Scope list_scope.

Set Implicit Arguments.

(* ================================================================== *)
(** ** JavaScript values and operators used by the handlers *)

Module JS.

Inductive number : Type :=
| NaN
| NegInf
| PosInf
| Fin (q : Q).

(** The values a numeric field of a parsed JSON body is modelled with:
    absent, [null], a boolean or a number.  String-valued sensor fields are
    outside the model. *)
Inductive value : Type :=
| undefined
| null
| boolean (b : bool)
| num (x : number).

Definition ToNumber (v : value) : number :=
  match v with
  | undefined => NaN
  | null => Fin 0
  | boolean true => Fin 1
  | boolean false => Fin 0
  | num x => x
  end.

(** The global [isNaN]: coerces, then tests. *)
Definition isNaN (v : value) : bool :=
  match ToNumber v with NaN => true | _ => false end.

(** [x < y] on numbers; [false] as soon as one side is NaN. *)
Definition num_lt (x y : number) : bool :=
  match x, y with
  | NaN, _ => false
  | _, NaN => false
  | NegInf, NegInf => false
  | NegInf, _ => true
  | _, NegInf => false
  | PosInf, _ => false
  | Fin _, PosInf => true
  | Fin a, Fin b => negb (Qle_bool b a)
  end.

Definition num_le (x y : number) : bool :=
  match x, y with
  | NaN, _ => false
  | _, NaN => false
  | NegInf, _ => true
  | _, PosInf => true
  | PosInf, _ => false
  | Fin _, NegInf => false
  | Fin a, Fin b => Qle_bool a b
  end.

(** The relational operators of the source, with a number literal on the
    right: the left operand is coerced with [ToNumber]. *)
Definition lt (v : value) (k : Q) : bool := num_lt (ToNumber v) (Fin k).
Definition gt (v : value) (k : Q) : bool := num_lt (Fin k) (ToNumber v).
Definition le (v : value) (k : Q) : bool := num_le (ToNumber v) (Fin k).
Definition ge (v : value) (k : Q) : bool := num_le (Fin k) (ToNumber v).

(** [v === 0]: no coercion, so only the number zero. *)
Definition strict_eq_0 (v : value) : bool :=
  match v with
  | num (Fin q) => Qeq_bool q 0
  | _ => false
  end.

(** [!v] on a modelled value. *)
Definition falsy (v : value) : bool :=
  match v with
  | undefined | null => true
  | boolean b => negb b
  | num NaN => true
  | num (Fin q) => Qeq_bool q 0
  | num _ => false
  end.

(** [!s] on a field that is a string when present. *)
Definition falsy_str (s : option string) : bool :=
  match s with
  | None => true
  | Some s => (s =? "")%string
  end.

(** *** White space, [String.prototype.trim] and the [\s] class

    The code points of WhiteSpace and LineTerminator, in UTF-8. *)
Definition bytes (l : list nat) : string :=
  string_of_list_ascii (map ascii_of_nat l).

Definition white_space : list string :=
  map bytes
    [ [9]; [10]; [11]; [12]; [13]; [32];
      [194; 160];                                   (* U+00A0 *)
      [225; 154; 128];                              (* U+1680 *)
      [226; 128; 128]; [226; 128; 129]; [226; 128; 130]; [226; 128; 131];
      [226; 128; 132]; [226; 128; 133]; [226; 128; 134]; [226; 128; 135];
      [226; 128; 136]; [226; 128; 137]; [226; 128; 138]; (* U+2000..200A *)
      [226; 128; 168]; [226; 128; 169];             (* U+2028, U+2029 *)
      [226; 128; 175];                              (* U+202F *)
      [226; 129; 159];                              (* U+205F *)
      [227; 128; 128];                              (* U+3000 *)
      [239; 187; 191] ].                            (* U+FEFF *)

Fixpoint drop_prefix (p s : string) : option string :=
  match p, s with
  | EmptyString, _ => Some s
  | String a p', String b s' =>
      if Ascii.eqb a b then drop_prefix p' s' else None
  | String _ _, EmptyString => None
  end.

Fixpoint first_some {A B} (f : A -> option B) (l : list A) : option B :=
  match l with
  | [] => None
  | a :: l' => match f a with Some b => Some b | None => first_some f l' end
  end.

(** One white-space character off the front of [s], if there is one. *)
Definition drop_space (s : string) : option string :=
  first_some (fun w => drop_prefix w s) white_space.

Fixpoint trimStart_fuel (fuel : nat) (s : string) : string :=
  match fuel with
  | O => s
  | S fuel' =>
      match drop_space s with
      | Some s' => trimStart_fuel fuel' s'
      | None => s
      end
  end.

Definition trimStart (s : string) : string :=
  trimStart_fuel (String.length s) s.

Definition rev_string (s : string) : string :=
  string_of_list_ascii (rev (list_ascii_of_string s)).

Definition drop_space_end (r : string) : option string :=
  first_some (fun w => drop_prefix (rev_string w) r) white_space.

Fixpoint trimEnd_fuel (fuel : nat) (r : string) : string :=
  match fuel with
  | O => r
  | S fuel' =>
      match drop_space_end r with
      | Some r' => trimEnd_fuel fuel' r'
      | None => r
      end
  end.

Definition trimEnd (s : string) : string :=
  rev_string (trimEnd_fuel (String.length s) (rev_string s)).

Definition trim (s : string) : string := trimEnd (trimStart s).

End JS.

(* ================================================================== *)
(** ** backend/utils/predictionLogic.js *)

(** The object [{ bpm, spo2, temperature }]. *)
Record SensorReading : Type := mkReading {
  bpm : JS.value;
  spo2 : JS.value;
  temperature : JS.value
}.

(** The double that the literal [37.8] is read as. *)
Definition lit_37_8 : Q := 2659938529915699 # 70368744177664.

Definition predictDisease (data : SensorReading) : string :=
  let bpm := bpm data in
  let spo2 := spo2 data in
  let temperature := temperature data in
  if JS.ge temperature 25 then "health is good"
  else if JS.isNaN bpm || JS.isNaN spo2 || JS.isNaN temperature
          || JS.strict_eq_0 bpm || JS.strict_eq_0 spo2
          || JS.strict_eq_0 temperature
  then "Undetermined"
  else if JS.ge temperature lit_37_8 && JS.lt spo2 95 && JS.gt bpm 90
  then "Disease A"
  else if JS.le temperature 36 && JS.ge spo2 96 && JS.lt bpm 70
  then "Disease B"
  else "Undetermined".

(* ================================================================== *)
(** ** The phone-number pattern of backend/models/Patient.js

    [/^\+?\d{1,3}?[-.\s]?\(?\d{3}\)?[-.\s]?\d{3}[-.\s]?\d{4}$/], as a
    backtracking matcher: a matcher maps the input to the list of the
    remainders it can leave. *)

Module Regex.

Definition matcher : Type := string -> list string.

Definition char (p : ascii -> bool) : matcher :=
  fun s => match s with
           | String c r => if p c then [r] else []
           | EmptyString => []
           end.

Definition alt (m1 m2 : matcher) : matcher := fun s => (m1 s ++ m2 s)%list.
Definition seq (m1 m2 : matcher) : matcher := fun s => flat_map m2 (m1 s).
Definition eps : matcher := fun s => [s].
Definition opt (m : matcher) : matcher := alt m eps.

Fixpoint times (n : nat) (m : matcher) : matcher :=
  match n with
  | O => eps
  | S n' => seq m (times n' m)
  end.

(** [m{lo,lo+extra}]; laziness changes the order of the attempts, not the
    set of matches. *)
Fixpoint upto (extra : nat) (m : matcher) : matcher :=
  match extra with
  | O => eps
  | S e => alt eps (seq m (upto e m))
  end.

Definition digit : matcher :=
  char (fun c => let n := nat_of_ascii c in (48 <=? n) && (n <=? 57)).
Definition lit (a : ascii) : matcher := char (Ascii.eqb a).
Definition space : matcher :=
  fun s => match JS.drop_space s with Some r => [r] | None => [] end.
(** [[-.\s]] *)
Definition separator : matcher := alt (lit "-") (alt (lit ".") space).

Definition at_end (l : list string) : bool :=
  existsb (fun r => (r =? "")%string) l.

Infix ">>" := seq (at level 61, right associativity).

Definition phoneNumber : matcher :=
  opt (lit "+") >> times 1 digit >> upto 2 digit >> opt separator >>
  opt (lit "(") >> times 3 digit >> opt (lit ")") >> opt separator >>
  times 3 digit >> opt separator >> times 4 digit.

Definition test_phoneNumber (s : string) : bool := at_end (phoneNumber s).

End Regex.

(* ================================================================== *)
(** ** backend/models/Patient.js *)

Definition ObjectId : Type := nat.

(** The cast of a [Number] path, on a modelled value that is not NaN: a
    boolean becomes 0 or 1, [null] and numbers are kept. *)
Definition castNumber (v : JS.value) : JS.value :=
  match v with
  | JS.boolean _ => JS.num (JS.ToNumber v)
  | _ => v
  end.

Module Patient.

Record t : Type := mk {
  _id : ObjectId;
  name : string;
  age : JS.value;
  phoneNumber : option string;
  doctorId : ObjectId;
  kioskId : option string;
  isActive : bool;
  createdAt : N
}.

Definition set_isActive (b : bool) (p : t) : t :=
  mk (_id p) (name p) (age p) (phoneNumber p) (doctorId p) (kioskId p) b
     (createdAt p).

(** The schema's validators, run by [save]: [name] required (after the
    [trim] setter), [age] required with [min: 0], [phoneNumber] matching
    the pattern when it is a non-empty string. *)
Definition validate (p : t) : bool :=
  negb (name p =? "")%string
  && match age p with
     | JS.num x => JS.num_le (JS.Fin 0) x
     | _ => false
     end
  && match phoneNumber p with
     | None => true
     | Some s => (s =? "")%string || Regex.test_phoneNumber s
     end.

End Patient.

(* ================================================================== *)
(** ** backend/models/Diagnosis.js *)

Module Diagnosis.

(** The [enum] of [status]. *)
Inductive Status : Type :=
| collecting_data
| prediction_made
| pending_approval
| approved
| declined
| medication_dispensed
| completed.

Definition Status_eqb (a b : Status) : bool :=
  match a, b with
  | collecting_data, collecting_data
  | prediction_made, prediction_made
  | pending_approval, pending_approval
  | approved, approved
  | declined, declined
  | medication_dispensed, medication_dispensed
  | completed, completed => true
  | _, _ => false
  end.

(** An element of [sensorData]. *)
Record SensorData : Type := mkSensorData {
  timestamp : N;
  values : SensorReading
}.

Record t : Type := mk {
  _id : ObjectId;
  patientId : ObjectId;
  doctorId : ObjectId;
  kioskId : string;
  sensorData : list SensorData;
  predictedDisease : string;
  approvedDisease : string;
  status : Status;
  motorCommand : string;
  commandExecuted : bool;
  createdAt : N;
  updatedAt : N
}.

Definition set_status (s : Status) (d : t) : t :=
  mk (_id d) (patientId d) (doctorId d) (kioskId d) (sensorData d)
     (predictedDisease d) (approvedDisease d) s (motorCommand d)
     (commandExecuted d) (createdAt d) (updatedAt d).

Definition set_predictedDisease (x : string) (d : t) : t :=
  mk (_id d) (patientId d) (doctorId d) (kioskId d) (sensorData d)
     x (approvedDisease d) (status d) (motorCommand d)
     (commandExecuted d) (createdAt d) (updatedAt d).

Definition set_approvedDisease (x : string) (d : t) : t :=
  mk (_id d) (patientId d) (doctorId d) (kioskId d) (sensorData d)
     (predictedDisease d) x (status d) (motorCommand d)
     (commandExecuted d) (createdAt d) (updatedAt d).

Definition set_motorCommand (x : string) (d : t) : t :=
  mk (_id d) (patientId d) (doctorId d) (kioskId d) (sensorData d)
     (predictedDisease d) (approvedDisease d) (status d) x
     (commandExecuted d) (createdAt d) (updatedAt d).

Definition set_commandExecuted (b : bool) (d : t) : t :=
  mk (_id d) (patientId d) (doctorId d) (kioskId d) (sensorData d)
     (predictedDisease d) (approvedDisease d) (status d) (motorCommand d)
     b (createdAt d) (updatedAt d).

Definition set_updatedAt (now : N) (d : t) : t :=
  mk (_id d) (patientId d) (doctorId d) (kioskId d) (sensorData d)
     (predictedDisease d) (approvedDisease d) (status d) (motorCommand d)
     (commandExecuted d) (createdAt d) now.

(** [sensorData.push({ bpm, spo2, temperature })]: the element is cast by
    the sub-schema and stamped with [Date.now]. *)
Definition push_sensorData (now : N) (r : SensorReading) (d : t) : t :=
  let cast := mkReading (castNumber (bpm r))
                        (castNumber (spo2 r))
                        (castNumber (temperature r)) in
  mk (_id d) (patientId d) (doctorId d) (kioskId d)
     (sensorData d ++ [mkSensorData now cast])%list
     (predictedDisease d) (approvedDisease d) (status d) (motorCommand d)
     (commandExecuted d) (createdAt d) (updatedAt d).

(** [new Diagnosis({ patientId, doctorId, kioskId, status })] with the
    schema's defaults. *)
Definition new (now : N) (id patient doctor : ObjectId) (kiosk : string)
           (s : Status) : t :=
  mk id patient doctor kiosk [] "N/A" "N/A" s "none" false now now.

(** The [enum] of [predictedDisease] and of [approvedDisease]. *)
Definition disease_enum : list string :=
  ["Disease A"; "Disease B"; "Undetermined"; "N/A"].

Definition in_enum (x : string) : bool :=
  existsb (String.eqb x) disease_enum.

(** The schema's validators, run by [save]. *)
Definition validate (d : t) : bool :=
  negb (kioskId d =? "")%string
  && in_enum (predictedDisease d)
  && in_enum (approvedDisease d).

(** [status: { $in: ['collecting_data', 'prediction_made',
    'pending_approval'] }] *)
Definition in_progress (s : Status) : bool :=
  match s with
  | collecting_data | prediction_made | pending_approval => true
  | _ => false
  end.

End Diagnosis.

(* ================================================================== *)
(** ** The store: the two collections and the ObjectId generator *)

Record Store : Type := mkStore {
  patients : list Patient.t;
  diagnoses : list Diagnosis.t;
  nextId : ObjectId
}.

Definition empty_store : Store := mkStore [] [] 0.

Section Collection.

Variable A : Type.

(** [Model.findOne(filter)]: the first match in natural order. *)
Definition findOne (filter : A -> bool) (l : list A) : option A :=
  find filter l.

(** [Model.updateMany(filter, { $set })] *)
Definition updateMany (filter : A -> bool) (set : A -> A) (l : list A)
  : list A :=
  map (fun x => if filter x then set x else x) l.

(** [Model.updateOne(filter, { $set })]: the first match only. *)
Fixpoint updateOne (filter : A -> bool) (set : A -> A) (l : list A)
  : list A :=
  match l with
  | [] => []
  | x :: l' =>
      if filter x then set x :: l' else x :: updateOne filter set l'
  end.

(** [Model.findOneAndDelete(filter)] *)
Fixpoint findOneAndDelete (filter : A -> bool) (l : list A)
  : option A * list A :=
  match l with
  | [] => (None, [])
  | x :: l' =>
      if filter x then (Some x, l')
      else let (r, l'') := findOneAndDelete filter l' in (r, x :: l'')
  end.

End Collection.

(** [.sort({ createdAt: -1 })] followed by [findOne]: a document of the
    greatest [createdAt]; among equal dates the model takes the one inserted
    first. *)
Fixpoint latest (l : list Diagnosis.t) : option Diagnosis.t :=
  match l with
  | [] => None
  | d :: l' =>
      match latest l' with
      | Some e =>
          if (Diagnosis.createdAt d <? Diagnosis.createdAt e)%N
          then Some e else Some d
      | None => Some d
      end
  end.

Definition option_string_eqb (a b : option string) : bool :=
  match a, b with
  | Some x, Some y => (x =? y)%string
  | None, None => true
  | _, _ => false
  end.

(** [patient.save()] of a new document: validate, then insert. *)
Definition Patient_save (p : Patient.t) (st : Store) : option Store :=
  if Patient.validate p
  then Some (mkStore (patients st ++ [p]) (diagnoses st) (S (nextId st)))
  else None.

(** [diagnosis.save()]: the [pre('save')] hook stamps [updatedAt], the
    validators run, and the document is inserted when it is new and written
    back under its [_id] otherwise.  [None] stands for the rejected
    promise. *)
Definition Diagnosis_save (now : N) (isNew : bool) (d : Diagnosis.t)
           (st : Store) : option Store :=
  let d := Diagnosis.set_updatedAt now d in
  if Diagnosis.validate d then
    if isNew
    then Some (mkStore (patients st) (diagnoses st ++ [d]) (S (nextId st)))
    else Some (mkStore (patients st)
                 (updateOne (fun x => Diagnosis._id x =? Diagnosis._id d)
                            (fun _ => d) (diagnoses st))
                 (nextId st))
  else None.

(* ================================================================== *)
(** ** HTTP responses *)

Inductive Response (A : Type) : Type :=
| Json (code : nat) (body : A)
| Error (code : nat) (message : string).

Arguments Error {A} code message.

(* ================================================================== *)
(** ** backend/routes/esp32.js *)

Record UploadBody : Type := mkUpload {
  upload_reading : SensorReading;
  upload_kioskId : option string
}.

Definition from_option (s : option string) : string :=
  match s with Some x => x | None => "" end.

(** The filter [{ kioskId, isActive: true }] on patients; the schema's
    [trim] setter runs on the filter value as it does on stored values. *)
Definition active_on (kioskId : string) (p : Patient.t) : bool :=
  option_string_eqb (Patient.kioskId p) (Some (JS.trim kioskId))
  && Patient.isActive p.

(** The filter of the ongoing diagnosis of a patient on a kiosk. *)
Definition ongoing (patient : ObjectId) (kiosk : string) (d : Diagnosis.t)
  : bool :=
  (Diagnosis.patientId d =? patient)
  && (Diagnosis.kioskId d =? kiosk)%string
  && Diagnosis.in_progress (Diagnosis.status d).

(** The two status updates that follow the prediction. *)
Definition advance_status (prediction : string) (d : Diagnosis.t)
  : Diagnosis.t :=
  let d :=
    if Diagnosis.Status_eqb (Diagnosis.status d) Diagnosis.collecting_data
       && negb (prediction =? "Undetermined")%string
    then Diagnosis.set_status Diagnosis.prediction_made d else d in
  if Diagnosis.Status_eqb (Diagnosis.status d) Diagnosis.prediction_made
     && negb (prediction =? "Undetermined")%string
  then Diagnosis.set_status Diagnosis.pending_approval d else d.

(** POST /api/esp32/data_upload; the body of a 200 is [currentPrediction]. *)
Definition data_upload (now : N) (body : UploadBody) (st : Store)
  : Response string * Store :=
  let r := upload_reading body in
  if JS.falsy_str (upload_kioskId body)
     || JS.isNaN (bpm r) || JS.isNaN (spo2 r) || JS.isNaN (temperature r)
  then (Error 400 "Invalid sensor data or missing kioskId", st)
  else
    let kioskId := from_option (upload_kioskId body) in
    match findOne (active_on kioskId) (patients st) with
    | None =>
        (Error 404 "No active patient session found for this kiosk.", st)
    | Some activePatient =>
        let found :=
          latest (filter (ongoing (Patient._id activePatient) kioskId)
                         (diagnoses st)) in
        let isNew := match found with None => true | Some _ => false end in
        let diagnosisRecord :=
          match found with
          | Some d => d
          | None =>
              Diagnosis.new now (nextId st) (Patient._id activePatient)
                (Patient.doctorId activePatient) kioskId
                Diagnosis.collecting_data
          end in
        let diagnosisRecord :=
          Diagnosis.push_sensorData now r diagnosisRecord in
        let prediction := predictDisease r in
        let diagnosisRecord :=
          Diagnosis.set_predictedDisease prediction diagnosisRecord in
        let diagnosisRecord := advance_status prediction diagnosisRecord in
        match Diagnosis_save now isNew diagnosisRecord st with
        | Some st' => (Json 200 prediction, st')
        | None => (Error 500 "Server error processing sensor data", st)
        end
    end.

(** The query shared by the poll and the acknowledgement: the latest
    approved diagnosis of the kiosk whose command has not been executed. *)
Definition awaiting_execution (kioskId : string) (d : Diagnosis.t) : bool :=
  (Diagnosis.kioskId d =? kioskId)%string
  && negb (Diagnosis.commandExecuted d)
  && Diagnosis.Status_eqb (Diagnosis.status d) Diagnosis.approved
  && negb (Diagnosis.motorCommand d =? "none")%string.

Definition pending_command (kioskId : string) (st : Store)
  : option Diagnosis.t :=
  latest (filter (awaiting_execution kioskId) (diagnoses st)).

(** GET /api/esp32/get_motor_command; the body of a 200 is [command]. *)
Definition get_motor_command (kioskId : option string) (st : Store)
  : Response string :=
  if JS.falsy_str kioskId then Error 400 "kioskId is required"
  else
    match pending_command (from_option kioskId) st with
    | Some diagnosis => Json 200 (Diagnosis.motorCommand diagnosis)
    | None => Json 200 "none"
    end.

Record ExecutedBody : Type := mkExecuted {
  executed_kioskId : option string;
  executed_status : option string
}.

(** POST /api/esp32/command_executed; the body of a 200 is
    [diagnosisId]. *)
Definition command_executed (now : N) (body : ExecutedBody) (st : Store)
  : Response ObjectId * Store :=
  if JS.falsy_str (executed_kioskId body)
     || JS.falsy_str (executed_status body)
  then (Error 400 "kioskId and status are required", st)
  else
    match pending_command (from_option (executed_kioskId body)) st with
    | Some diagnosis =>
        let diagnosis := Diagnosis.set_commandExecuted true diagnosis in
        let diagnosis :=
          Diagnosis.set_status Diagnosis.medication_dispensed diagnosis in
        match Diagnosis_save now false diagnosis st with
        | Some st' => (Json 200 (Diagnosis._id diagnosis), st')
        | None =>
            (Error 500 "Server error confirming command execution", st)
        end
    | None =>
        (Error 404 "No pending approved diagnosis found for this kiosk.", st)
    end.

(* ================================================================== *)
(** ** The router of /api/doctor

    [doctorId] is [req.user.id], set by the authentication middleware. *)

Record StartBody : Type := mkStart {
  start_name : option string;
  start_age : JS.value;
  start_phoneNumber : option string;
  start_kioskId : option string
}.

Record Started : Type := mkStarted {
  started_patientId : ObjectId;
  started_diagnosisId : ObjectId;
  started_kioskId : string
}.

(** The filter [{ kioskId, status: { $in: [...] } }] on diagnoses. *)
Definition hanging_on (kioskId : string) (d : Diagnosis.t) : bool :=
  (Diagnosis.kioskId d =? kioskId)%string
  && Diagnosis.in_progress (Diagnosis.status d).

(** POST /api/doctor/patient/start *)
Definition patient_start (now : N) (doctorId : ObjectId) (body : StartBody)
           (st : Store) : Response Started * Store :=
  if JS.falsy_str (start_name body) || JS.falsy (start_age body)
     || JS.falsy_str (start_kioskId body)
  then (Error 400 "Patient name, age, and kiosk ID are required", st)
  else
    let kioskId := from_option (start_kioskId body) in
    let st :=
      mkStore (updateMany (active_on kioskId) (Patient.set_isActive false)
                          (patients st))
              (diagnoses st) (nextId st) in
    let st :=
      mkStore (patients st)
              (updateMany (hanging_on kioskId)
                          (Diagnosis.set_status Diagnosis.completed)
                          (diagnoses st))
              (nextId st) in
    let patient :=
      Patient.mk (nextId st)
                 (JS.trim (from_option (start_name body)))
                 (castNumber (start_age body))
                 (option_map JS.trim (start_phoneNumber body))
                 doctorId
                 (Some (JS.trim kioskId))
                 true
                 now in
    match Patient_save patient st with
    | None => (Error 500 "Server error starting patient session", st)
    | Some st1 =>
        let diagnosis :=
          Diagnosis.set_predictedDisease "N/A"
            (Diagnosis.new now (nextId st1) (Patient._id patient) doctorId
                           kioskId Diagnosis.collecting_data) in
        match Diagnosis_save now true diagnosis st1 with
        | None => (Error 500 "Server error starting patient session", st1)
        | Some st2 =>
            (Json 201 (mkStarted (Patient._id patient)
                                 (Diagnosis._id diagnosis) kioskId), st2)
        end
    end.

Record ApproveBody : Type := mkApprove {
  approve_diagnosisId : option ObjectId;
  approve_approvedDisease : option string
}.

Record Approved : Type := mkApproved {
  approved_diagnosisId : ObjectId;
  approved_motorCommand : string
}.

(** The table from the approved disease to the motor command. *)
Definition motorCommand_for (approvedDisease : string) : string :=
  if (approvedDisease =? "Disease A")%string then "activate_motor_1"
  else if (approvedDisease =? "Disease B")%string then "activate_motor_2"
  else "none".

(** The filter [{ _id: diagnosisId, doctorId }]. *)
Definition owned_by (doctorId id : ObjectId) (d : Diagnosis.t) : bool :=
  (Diagnosis._id d =? id) && (Diagnosis.doctorId d =? doctorId).

(** POST /api/doctor/diagnosis/approve *)
Definition diagnosis_approve (now : N) (doctorId : ObjectId)
           (body : ApproveBody) (st : Store) : Response Approved * Store :=
  match approve_diagnosisId body with
  | None => (Error 400 "Diagnosis ID and approved disease are required.", st)
  | Some diagnosisId =>
      if JS.falsy_str (approve_approvedDisease body)
      then (Error 400 "Diagnosis ID and approved disease are required.", st)
      else
        let approvedDisease := from_option (approve_approvedDisease body) in
        match findOne (owned_by doctorId diagnosisId) (diagnoses st) with
        | None => (Error 404 "Diagnosis record not found or unauthorized.", st)
        | Some diagnosis =>
            if Diagnosis.Status_eqb (Diagnosis.status diagnosis)
                                    Diagnosis.approved
               || Diagnosis.Status_eqb (Diagnosis.status diagnosis)
                                       Diagnosis.medication_dispensed
            then (Error 400 "Diagnosis already approved or dispensed.", st)
            else
              let diagnosis :=
                Diagnosis.set_approvedDisease approvedDisease diagnosis in
              let diagnosis :=
                Diagnosis.set_status Diagnosis.approved diagnosis in
              let diagnosis :=
                Diagnosis.set_motorCommand (motorCommand_for approvedDisease)
                                           diagnosis in
              match Diagnosis_save now false diagnosis st with
              | None => (Error 500 "Server error approving diagnosis", st)
              | Some st1 =>
                  let st2 :=
                    mkStore
                      (updateOne (fun p => Patient._id p
                                           =? Diagnosis.patientId diagnosis)
                                 (Patient.set_isActive false) (patients st1))
                      (diagnoses st1) (nextId st1) in
                  (Json 200 (mkApproved (Diagnosis._id diagnosis)
                                        (Diagnosis.motorCommand diagnosis)),
                   st2)
              end
        end
  end.

(** DELETE /api/doctor/history/:id *)
Definition history_delete (doctorId id : ObjectId) (st : Store)
  : Response unit * Store :=
  match findOneAndDelete (owned_by doctorId id) (diagnoses st) with
  | (Some _, l) =>
      (Json 200 tt, mkStore (patients st) l (nextId st))
  | (None, _) =>
      (Error 404 "Diagnosis record not found or unauthorized to delete.", st)
  end.

(* ================================================================== *)
(** ** Requests and reachable stores *)

Inductive Request : Type :=
| StartSession (now : N) (doctorId : ObjectId) (body : StartBody)
| IngestReading (now : N) (body : UploadBody)
| ReviewSession (now : N) (doctorId : ObjectId) (body : ApproveBody)
| FetchCommand (kioskId : option string)
| ConfirmExecution (now : N) (body : ExecutedBody)
| DeleteHistory (doctorId id : ObjectId).

(** The store a request leaves. *)
Definition handle (r : Request) (st : Store) : Store :=
  match r with
  | StartSession now doctorId body => snd (patient_start now doctorId body st)
  | IngestReading now body => snd (data_upload now body st)
  | ReviewSession now doctorId body =>
      snd (diagnosis_approve now doctorId body st)
  | FetchCommand _ => st
  | ConfirmExecution now body => snd (command_executed now body st)
  | DeleteHistory doctorId id => snd (history_delete doctorId id st)
  end.

Definition run (rs : list Request) (st : Store) : Store :=
  fold_left (fun s r => handle r s) rs st.

Inductive reachable : Store -> Prop :=
| reachable_empty : reachable empty_store
| reachable_step st r : reachable st -> reachable (handle r st).

(* ================================================================== *)
(** ** Predicates of the properties *)

(** The execution flag and the dispensed status go together. *)
Definition dispensed_iff_executed (d : Diagnosis.t) : Prop :=
  Diagnosis.commandExecuted d = true
  <-> Diagnosis.status d = Diagnosis.medication_dispensed.

Definition executed_invariant (st : Store) : Prop :=
  Forall dispensed_iff_executed (diagnoses st).

(** Every stored diagnosis passes the schema's validators. *)
Definition stored_valid (st : Store) : Prop :=
  Forall (fun d => Diagnosis.validate d = true) (diagnoses st).

(** The statuses after which the specification expects no transition:
    [completed] and [medication_dispensed]; the others are non-terminal. *)
Definition non_terminal (s : Diagnosis.Status) : bool :=
  match s with
  | Diagnosis.completed | Diagnosis.medication_dispensed => false
  | _ => true
  end.

(** The diagnoses on a kiosk whose status is non-terminal. *)
Definition open_sessions (kioskId : string) (st : Store)
  : list Diagnosis.t :=
  filter (fun d => (Diagnosis.kioskId d =? kioskId)%string
                   && non_terminal (Diagnosis.status d)) (diagnoses st).

(** A diagnosis by its [_id]. *)
Definition findById (id : ObjectId) (st : Store) : option Diagnosis.t :=
  findOne (fun d => Diagnosis._id d =? id) (diagnoses st).

Definition Patient_findById (id : ObjectId) (st : Store)
  : option Patient.t :=
  findOne (fun p => Patient._id p =? id) (patients st).

(** What an upload makes of the diagnosis it found or created: the reading
    pushed, the prediction recorded, the status advanced, [updatedAt]
    stamped by [save]. *)
Definition ingested (now : N) (r : SensorReading) (d : Diagnosis.t)
  : Diagnosis.t :=
  Diagnosis.set_updatedAt now
    (advance_status (predictDisease r)
       (Diagnosis.set_predictedDisease (predictDisease r)
          (Diagnosis.push_sensorData now r d))).

(** A reading as [sensorData] stores it. *)
Definition stored_reading (now : N) (r : SensorReading)
  : Diagnosis.SensorData :=
  Diagnosis.mkSensorData now
    (mkReading (castNumber (bpm r)) (castNumber (spo2 r))
               (castNumber (temperature r))).

(** The diagnosis ids of a store are pairwise distinct. *)
Definition unique_ids (st : Store) : Prop :=
  NoDup (map Diagnosis._id (diagnoses st)).

(* ================================================================== *)
(** ** A kiosk, a doctor and the requests of the scenarios *)

Module Scenario.

Definition K1 : option string := Some "K1".
Definition doctor : ObjectId := 7.

Definition reading_of (b s : Z) (t : Q) : SensorReading :=
  mkReading (JS.num (JS.Fin (inject_Z b))) (JS.num (JS.Fin (inject_Z s)))
            (JS.num (JS.Fin t)).

(** [{ bpm: 100, spo2: 92, temperature: 38.0 }] *)
Definition feverish : SensorReading := reading_of 100 92 38.
(** [{ bpm: 60, spo2: 97, temperature: 20 }] *)
Definition cold : SensorReading := reading_of 60 97 20.
(** [{ bpm: 0, spo2: 97, temperature: 20 }] *)
Definition no_pulse : SensorReading := reading_of 0 97 20.
(** [{ spo2: 97, temperature: 20 }]: no [bpm] field. *)
Definition no_bpm : SensorReading :=
  mkReading JS.undefined (JS.num (JS.Fin 97)) (JS.num (JS.Fin 20)).

Definition start_body : StartBody :=
  mkStart (Some "Asha") (JS.num (JS.Fin 30)) None K1.
Definition start (now : N) : Request := StartSession now doctor start_body.
Definition upload (now : N) (r : SensorReading) : Request :=
  IngestReading now (mkUpload r K1).
Definition approve_body (id : ObjectId) (disease : string) : ApproveBody :=
  mkApprove (Some id) (Some disease).
Definition approve (now : N) (id : ObjectId) (disease : string) : Request :=
  ReviewSession now doctor (approve_body id disease).
Definition executed_body : ExecutedBody :=
  mkExecuted K1 (Some "motor_1_activated").
Definition confirm (now : N) : Request :=
  ConfirmExecution now executed_body.

(** One session started on K1: patient 0, diagnosis 1. *)
Definition started : Store := run [start 1] empty_store.
(** ... whose reading classified as Disease B. *)
Definition predicted : Store := run [upload 2 cold] started.
(** ... approved by the doctor as Disease A. *)
Definition approved_A : Store := run [approve 3 1 "Disease A"] predicted.
(** ... and acknowledged by the kiosk. *)
Definition dispensed : Store := run [confirm 4] approved_A.
(** After the approval of the first session, a second session on K1
    (patient 2, diagnosis 3), approved as Disease B. *)
Definition two_approved : Store :=
  run [start 5; approve 6 3 "Disease B"] approved_A.
(** An active patient on K1 whose only diagnosis was deleted. *)
Definition orphaned : Store := run [DeleteHistory doctor 1] started.

(** The diagnosis of a store with a given id. *)
Definition diagnosis_of (id : ObjectId) (st : Store) : Diagnosis.t :=
  match findById id st with
  | Some d => d
  | None => Diagnosis.new 0 0 0 0 "" Diagnosis.collecting_data
  end.

(** The patient of a store with a given id. *)
Definition patient_of (id : ObjectId) (st : Store) : Patient.t :=
  match Patient_findById id st with
  | Some p => p
  | None => Patient.mk 0 "" JS.undefined None 0 None false 0
  end.

End Scenario.

(* ================================================================== *)
(** ** The read-only routes of /api/doctor *)

(** A patient as [populate('patientId', 'name age phoneNumber')] leaves it
    in the place of the reference; [None] stands for [null], the reference
    of a patient that is not in the collection. *)
Record PatientInfo : Type := mkPatientInfo {
  info_id : ObjectId;
  info_name : string;
  info_age : JS.value;
  info_phoneNumber : option string
}.

Definition populate (id : ObjectId) (st : Store) : option PatientInfo :=
  option_map (fun p => mkPatientInfo (Patient._id p) (Patient.name p)
                                     (Patient.age p) (Patient.phoneNumber p))
             (Patient_findById id st).

(** [latestData]: the last element of [sensorData], or the object
    [{ bpm: 0, spo2: 0, temperature: 0 }], which has no timestamp. *)
Record LatestData : Type := mkLatest {
  latest_timestamp : option N;
  latest_values : SensorReading
}.

Definition latestSensorData (d : Diagnosis.t) : LatestData :=
  last (map (fun s => mkLatest (Some (Diagnosis.timestamp s))
                               (Diagnosis.values s))
            (Diagnosis.sensorData d))
       (mkLatest None (mkReading (JS.num (JS.Fin 0)) (JS.num (JS.Fin 0))
                                 (JS.num (JS.Fin 0)))).

Record LiveData : Type := mkLive {
  live_patient : option PatientInfo;
  live_kioskId : string;
  live_latestData : LatestData;
  live_predictedDisease : string;
  live_status : Diagnosis.Status;
  live_diagnosisId : ObjectId
}.

(** The filter [{ _id, doctorId, status: { $in: [...] } }]. *)
Definition viewable (doctorId id : ObjectId) (d : Diagnosis.t) : bool :=
  (Diagnosis._id d =? id) && (Diagnosis.doctorId d =? doctorId)
  && Diagnosis.in_progress (Diagnosis.status d).

(** GET /api/doctor/patient/:diagnosisId/live_data *)
Definition live_data (doctorId diagnosisId : ObjectId) (st : Store)
  : Response LiveData :=
  match findOne (viewable doctorId diagnosisId) (diagnoses st) with
  | None =>
      Error 404 "Active diagnosis session not found or already completed."
  | Some diagnosis =>
      Json 200 (mkLive (populate (Diagnosis.patientId diagnosis) st)
                       (Diagnosis.kioskId diagnosis)
                       (latestSensorData diagnosis)
                       (Diagnosis.predictedDisease diagnosis)
                       (Diagnosis.status diagnosis)
                       (Diagnosis._id diagnosis))
  end.

(** [.sort({ createdAt: -1 })] on a list of documents: insertion of a
    document before the first one that is not newer, so that documents of
    equal date keep the order of the collection. *)
Fixpoint insert_newest (d : Diagnosis.t) (l : list Diagnosis.t)
  : list Diagnosis.t :=
  match l with
  | [] => [d]
  | e :: l' =>
      if (Diagnosis.createdAt d <? Diagnosis.createdAt e)%N
      then e :: insert_newest d l'
      else d :: l
  end.

Definition sort_newest_first (l : list Diagnosis.t) : list Diagnosis.t :=
  fold_right insert_newest [] l.

(** GET /api/doctor/history for a request without a [search] parameter:
    the base query [{ doctorId }], sorted and populated. *)
Definition history (doctorId : ObjectId) (st : Store)
  : Response (list (Diagnosis.t * option PatientInfo)) :=
  Json 200
    (map (fun d => (d, populate (Diagnosis.patientId d) st))
         (sort_newest_first
            (filter (fun d => Diagnosis.doctorId d =? doctorId)
                    (diagnoses st)))).

(* ================================================================== *)
(** ** Further predicates *)

(** What an approval and an acknowledgement make of a diagnosis. *)
Definition approved_by (now : N) (disease : string) (d : Diagnosis.t)
  : Diagnosis.t :=
  Diagnosis.set_updatedAt now
    (Diagnosis.set_motorCommand (motorCommand_for disease)
       (Diagnosis.set_status Diagnosis.approved
          (Diagnosis.set_approvedDisease disease d))).

Definition dispensed_at (now : N) (d : Diagnosis.t) : Diagnosis.t :=
  Diagnosis.set_updatedAt now
    (Diagnosis.set_status Diagnosis.medication_dispensed
       (Diagnosis.set_commandExecuted true d)).

(** The active patients whose stored kiosk id is [k]. *)
Definition active_patients (k : option string) (st : Store)
  : list Patient.t :=
  filter (fun p => option_string_eqb (Patient.kioskId p) k
                   && Patient.isActive p) (patients st).

(** The statuses in which a diagnosis is found in a reachable store. *)
Definition stored_status (s : Diagnosis.Status) : bool :=
  match s with
  | Diagnosis.prediction_made | Diagnosis.declined => false
  | _ => true
  end.

Definition decided (s : Diagnosis.Status) : bool :=
  match s with
  | Diagnosis.approved | Diagnosis.medication_dispensed => true
  | _ => false
  end.

(** The command of a diagnosis agrees with its status and approval. *)
Definition command_consistent (d : Diagnosis.t) : Prop :=
  if decided (Diagnosis.status d)
  then Diagnosis.motorCommand d
       = motorCommand_for (Diagnosis.approvedDisease d)
       /\ (Diagnosis.status d = Diagnosis.medication_dispensed ->
           Diagnosis.motorCommand d <> "none")
  else Diagnosis.motorCommand d = "none"
       /\ Diagnosis.approvedDisease d = "N/A".

(** [a] is at least as new as [b]. *)
Definition newer_or_equal (a b : Diagnosis.t) : Prop :=
  (Diagnosis.createdAt b <= Diagnosis.createdAt a)%N.

(** The number of decimal digits of a string. *)
Fixpoint digits (s : string) : nat :=
  match s with
  | EmptyString => 0
  | String c r =>
      (if (48 <=? nat_of_ascii c) && (nat_of_ascii c <=? 57) then 1 else 0)
      + digits r
  end.

(** Every match of [m] takes off the input a prefix that has between [lo]
    and [hi] digits. *)
Definition consumes (m : Regex.matcher) (lo hi : nat) : Prop :=
  forall s r, In r (m s) ->
    exists p, s = (p ++ r)%string /\ lo <= digits p <= hi.

(** No patient has two ongoing diagnoses on one kiosk id, and the diagnoses
    refer to patient ids below the next id. *)
Definition one_ongoing (st : Store) : Prop :=
  (forall patient k,
      List.length (filter (ongoing patient k) (diagnoses st)) <= 1)
  /\ Forall (fun d => Diagnosis.patientId d < nextId st) (diagnoses st).

(** The ids of the patients are distinct and, as the patient ids that the
    diagnoses refer to, below the next id. *)
Definition patient_ids_fresh (st : Store) : Prop :=
  NoDup (map Patient._id (patients st))
  /\ Forall (fun i => i < nextId st) (map Patient._id (patients st)).

(** Closed facts about the scenarios are settled by evaluation. *)
Ltac by_evaluation :=
  repeat match goal with |- _ /\ _ => split end;
  vm_compute; solve [reflexivity | discriminate].

(* ================================================================== *)
(** ** Collections: general facts *)

Section CollectionFacts.

Variable A : Type.
Variables (f : A -> bool) (g : A -> A).

Lemma findOne_In l x : findOne f l = Some x -> In x l /\ f x = true.
Proof. unfold findOne. apply find_some. Qed.

Lemma Forall_updateMany (P : A -> Prop) l :
  Forall P l -> (forall x, P x -> f x = true -> P (g x)) ->
  Forall P (updateMany f g l).
Proof.
  intros Hl Hg. unfold updateMany. apply Forall_map.
  eapply Forall_impl; [|exact Hl]. cbn. intros x Hx.
  destruct (f x) eqn:E; auto.
Qed.

Lemma Forall_updateOne (P : A -> Prop) l :
  Forall P l -> (forall x, P x -> f x = true -> P (g x)) ->
  Forall P (updateOne f g l).
Proof.
  intros Hl Hg. induction Hl as [|x l Hx Hl IH]; cbn; [constructor|].
  destruct (f x) eqn:E; constructor; auto.
Qed.

Lemma Forall_findOneAndDelete (P : A -> Prop) l :
  Forall P l -> Forall P (snd (findOneAndDelete f l)).
Proof.
  induction 1 as [|x l Hx Hl IH]; cbn; [constructor|].
  destruct (f x); cbn; auto.
  destruct (findOneAndDelete f l) as [r l'']. cbn in *.
  constructor; auto.
Qed.

Lemma filter_updateMany_nil l :
  (forall x, f x = true -> f (g x) = false) ->
  filter f (updateMany f g l) = [].
Proof.
  intros Hg. induction l as [|x l IH]; cbn; [reflexivity|].
  destruct (f x) eqn:E.
  - rewrite (Hg _ E). exact IH.
  - rewrite E. exact IH.
Qed.

Lemma findOne_updateOne_const y l :
  f y = true -> (exists x, In x l /\ f x = true) ->
  findOne f (updateOne f (fun _ => y) l) = Some y.
Proof.
  intros Hy [x [Hin Hx]]. induction l as [|a l IH]; [contradiction|].
  cbn. destruct (f a) eqn:E.
  - cbn. rewrite Hy. reflexivity.
  - cbn. rewrite E. apply IH. destruct Hin as [->|Hin]; [congruence|assumption].
Qed.

End CollectionFacts.

Lemma latest_In l d : latest l = Some d -> In d l.
Proof.
  revert d. induction l as [|a l IH]; cbn; [discriminate|].
  intros d. destruct (latest l) as [e|].
  - destruct (Diagnosis.createdAt a <? Diagnosis.createdAt e)%N;
      intros [= <-]; auto.
  - intros [= <-]. auto.
Qed.

Lemma latest_None l : latest l = None -> l = [].
Proof.
  destruct l as [|a l]; cbn; [reflexivity|].
  destruct (latest l) as [e|]; [|discriminate].
  destruct (Diagnosis.createdAt a <? Diagnosis.createdAt e)%N; discriminate.
Qed.

Lemma latest_filter_In (f : Diagnosis.t -> bool) l d :
  latest (filter f l) = Some d -> In d l /\ f d = true.
Proof. intros H. apply latest_In in H. apply filter_In in H. exact H. Qed.

Lemma Status_eqb_eq a b : Diagnosis.Status_eqb a b = true <-> a = b.
Proof. destruct a, b; cbn; split; congruence. Qed.

Lemma pending_command_In kioskId st d :
  pending_command kioskId st = Some d ->
  In d (diagnoses st)
  /\ Diagnosis.kioskId d = kioskId
  /\ Diagnosis.commandExecuted d = false
  /\ Diagnosis.status d = Diagnosis.approved
  /\ Diagnosis.motorCommand d <> "none".
Proof.
  intros H. apply latest_filter_In in H. destruct H as [Hin H].
  unfold awaiting_execution in H. repeat rewrite andb_true_iff in H. destruct H as [[[Hk He] Hs] Hm].
  apply String.eqb_eq in Hk. apply negb_true_iff in He.
  apply Status_eqb_eq in Hs. apply negb_true_iff in Hm.
  apply String.eqb_neq in Hm. auto.
Qed.

(* ================================================================== *)
(** ** The execution flag and the dispensed status *)

Lemma in_progress_not_dispensed s :
  Diagnosis.in_progress s = true -> s <> Diagnosis.medication_dispensed.
Proof. destruct s; cbn; congruence. Qed.

Lemma advance_status_in_progress prediction d :
  Diagnosis.in_progress (Diagnosis.status d) = true ->
  Diagnosis.in_progress (Diagnosis.status (advance_status prediction d))
  = true.
Proof.
  unfold advance_status. intros H.
  destruct (negb (prediction =? "Undetermined")%string);
    rewrite ?andb_true_r, ?andb_false_r;
    destruct (Diagnosis.status d) eqn:E; cbn in *; rewrite ?E; cbn;
    rewrite ?E; solve [reflexivity | discriminate].
Qed.

Lemma advance_status_fields prediction d :
  let d' := advance_status prediction d in
  Diagnosis._id d' = Diagnosis._id d
  /\ Diagnosis.patientId d' = Diagnosis.patientId d
  /\ Diagnosis.doctorId d' = Diagnosis.doctorId d
  /\ Diagnosis.kioskId d' = Diagnosis.kioskId d
  /\ Diagnosis.sensorData d' = Diagnosis.sensorData d
  /\ Diagnosis.predictedDisease d' = Diagnosis.predictedDisease d
  /\ Diagnosis.approvedDisease d' = Diagnosis.approvedDisease d.
Proof.
  unfold advance_status.
  repeat match goal with |- context [if ?b then _ else _] =>
    destruct b end; cbn; repeat split; reflexivity.
Qed.

Lemma advance_status_commandExecuted prediction d :
  Diagnosis.commandExecuted (advance_status prediction d)
  = Diagnosis.commandExecuted d.
Proof.
  unfold advance_status.
  repeat match goal with |- context [if ?b then _ else _] =>
    destruct b end; reflexivity.
Qed.

(** A document whose flag is unset and whose status is in progress. *)
Lemma fresh_dispensed_iff d :
  Diagnosis.commandExecuted d = false ->
  Diagnosis.status d <> Diagnosis.medication_dispensed ->
  dispensed_iff_executed d.
Proof. unfold dispensed_iff_executed. intros -> H. split; congruence. Qed.

Lemma not_dispensed_not_executed d :
  dispensed_iff_executed d ->
  Diagnosis.status d <> Diagnosis.medication_dispensed ->
  Diagnosis.commandExecuted d = false.
Proof.
  unfold dispensed_iff_executed. intros [H _] Hs.
  destruct (Diagnosis.commandExecuted d); auto. elim Hs; auto.
Qed.

Lemma Diagnosis_save_Forall (P : Diagnosis.t -> Prop) now isNew d st st' :
  Diagnosis_save now isNew d st = Some st' ->
  Forall P (diagnoses st) -> P (Diagnosis.set_updatedAt now d) ->
  Forall P (diagnoses st').
Proof.
  unfold Diagnosis_save. intros H Hall Hd.
  destruct (Diagnosis.validate _); [|discriminate].
  destruct isNew; injection H as <-; cbn.
  - apply Forall_app. split; auto.
  - apply Forall_updateOne; auto.
Qed.

Lemma Diagnosis_save_patients now isNew d st st' :
  Diagnosis_save now isNew d st = Some st' -> patients st' = patients st.
Proof.
  unfold Diagnosis_save. destruct (Diagnosis.validate _); [|discriminate].
  destruct isNew; intros [= <-]; reflexivity.
Qed.

Lemma data_upload_executed now body st :
  executed_invariant st -> executed_invariant (snd (data_upload now body st)).
Proof.
  unfold executed_invariant, data_upload. intros Hinv.
  destruct (_ || _); [exact Hinv|].
  destruct (findOne _ _) as [p|]; [|exact Hinv].
  set (k := from_option (upload_kioskId body)).
  destruct (Diagnosis_save _ _ _ _) as [st'|] eqn:Hsave; [|exact Hinv].
  cbn. eapply Diagnosis_save_Forall; [exact Hsave|exact Hinv|].
  apply fresh_dispensed_iff.
  - cbn. rewrite advance_status_commandExecuted. cbn.
    destruct (latest _) as [d|] eqn:Hl; [|reflexivity].
    apply latest_filter_In in Hl. destruct Hl as [Hin Hon].
    unfold ongoing in Hon. apply andb_true_iff in Hon. destruct Hon as [_ Hp].
    rewrite Forall_forall in Hinv.
    apply not_dispensed_not_executed; auto using in_progress_not_dispensed.
  - cbn. apply in_progress_not_dispensed. apply advance_status_in_progress.
    cbn. destruct (latest _) as [d|] eqn:Hl; [|reflexivity].
    apply latest_filter_In in Hl. destruct Hl as [_ Hon].
    unfold ongoing in Hon. apply andb_true_iff in Hon. tauto.
Qed.

Lemma command_executed_executed now body st :
  executed_invariant st ->
  executed_invariant (snd (command_executed now body st)).
Proof.
  unfold executed_invariant, command_executed. intros Hinv.
  destruct (_ || _); [exact Hinv|].
  destruct (pending_command _ _) as [d|]; [|exact Hinv].
  destruct (Diagnosis_save _ _ _ _) as [st'|] eqn:Hsave; [|exact Hinv].
  cbn. eapply Diagnosis_save_Forall; [exact Hsave|exact Hinv|].
  unfold dispensed_iff_executed. cbn. tauto.
Qed.

Lemma patient_start_executed now doctorId body st :
  executed_invariant st ->
  executed_invariant (snd (patient_start now doctorId body st)).
Proof.
  unfold executed_invariant, patient_start. intros Hinv.
  destruct (_ || _); [exact Hinv|].
  assert (Hclean : Forall dispensed_iff_executed
                     (updateMany (hanging_on (from_option (start_kioskId body)))
                        (Diagnosis.set_status Diagnosis.completed)
                        (diagnoses st))).
  { apply Forall_updateMany; [exact Hinv|].
    intros d Hd Hh. unfold hanging_on in Hh.
    apply andb_true_iff in Hh. destruct Hh as [_ Hp].
    unfold dispensed_iff_executed. cbn.
    rewrite (not_dispensed_not_executed Hd (in_progress_not_dispensed Hp)).
    split; discriminate. }
  unfold Patient_save. cbn.
  destruct (Patient.validate _); [|exact Hclean].
  cbn. destruct (Diagnosis_save _ _ _ _) as [st'|] eqn:Hsave; [|exact Hclean].
  cbn. eapply Diagnosis_save_Forall; [exact Hsave|exact Hclean|].
  apply fresh_dispensed_iff; cbn; congruence.
Qed.

Lemma diagnosis_approve_executed now doctorId body st :
  executed_invariant st ->
  executed_invariant (snd (diagnosis_approve now doctorId body st)).
Proof.
  unfold executed_invariant, diagnosis_approve. intros Hinv.
  destruct (approve_diagnosisId body) as [id|]; [|exact Hinv].
  destruct (JS.falsy_str _); [exact Hinv|].
  destruct (findOne _ _) as [d|] eqn:Hfind; [|exact Hinv].
  destruct (_ || _) eqn:Hst; [exact Hinv|].
  destruct (Diagnosis_save _ _ _ _) as [st'|] eqn:Hsave; [|exact Hinv].
  cbn. eapply Diagnosis_save_Forall; [exact Hsave|exact Hinv|].
  apply orb_false_iff in Hst. destruct Hst as [_ Hmd].
  apply findOne_In in Hfind. destruct Hfind as [Hin _].
  rewrite Forall_forall in Hinv.
  apply fresh_dispensed_iff; cbn; [|congruence].
  apply not_dispensed_not_executed; auto.
  intros E. rewrite E in Hmd. discriminate.
Qed.

Lemma history_delete_Forall (P : Diagnosis.t -> Prop) doctorId id st :
  Forall P (diagnoses st) ->
  Forall P (diagnoses (snd (history_delete doctorId id st))).
Proof.
  intros H. unfold history_delete.
  pose proof (Forall_findOneAndDelete (owned_by doctorId id) H) as H'.
  destruct (findOneAndDelete _ _) as [[x|] l]; cbn in *; auto.
Qed.

Lemma handle_executed r st :
  executed_invariant st -> executed_invariant (handle r st).
Proof.
  destruct r; cbn; intros H;
    auto using patient_start_executed, data_upload_executed,
      diagnosis_approve_executed, command_executed_executed.
  apply history_delete_Forall. exact H.
Qed.

Lemma reachable_run rs st : reachable st -> reachable (run rs st).
Proof.
  revert st. induction rs as [|r rs IH]; intros st H; [exact H|].
  apply (IH (handle r st)). constructor. exact H.
Qed.


(* ================================================================== *)
(** ** Stored diagnoses are valid *)

Lemma Diagnosis_save_validated now isNew d st st' :
  Diagnosis_save now isNew d st = Some st' ->
  Diagnosis.validate (Diagnosis.set_updatedAt now d) = true.
Proof.
  unfold Diagnosis_save.
  destruct (Diagnosis.validate _); [reflexivity|discriminate].
Qed.

Lemma Diagnosis_save_valid now isNew d st st' :
  Diagnosis_save now isNew d st = Some st' ->
  stored_valid st -> stored_valid st'.
Proof.
  intros H Hv. unfold stored_valid.
  eapply Diagnosis_save_Forall; [exact H|exact Hv|].
  eapply Diagnosis_save_validated; exact H.
Qed.

Lemma handle_valid r st : stored_valid st -> stored_valid (handle r st).
Proof.
  intros Hv. destruct r; cbn; [| | | exact Hv | |].
  - unfold patient_start. destruct (_ || _); [exact Hv|].
    assert (Hclean : Forall (fun d => Diagnosis.validate d = true)
                       (updateMany
                          (hanging_on (from_option (start_kioskId body)))
                          (Diagnosis.set_status Diagnosis.completed)
                          (diagnoses st))).
    { apply Forall_updateMany; [exact Hv|]. intros d Hd _. exact Hd. }
    unfold Patient_save. cbn. destruct (Patient.validate _); [|exact Hclean].
    cbn. destruct (Diagnosis_save _ _ _ _) as [st'|] eqn:Hsave;
      [|exact Hclean].
    cbn. eapply Diagnosis_save_valid; [exact Hsave|exact Hclean].
  - unfold data_upload. destruct (_ || _); [exact Hv|].
    destruct (findOne _ _); [|exact Hv].
    destruct (Diagnosis_save _ _ _ _) as [st'|] eqn:Hsave; [|exact Hv].
    cbn. eapply Diagnosis_save_valid; [exact Hsave|exact Hv].
  - unfold diagnosis_approve.
    destruct (approve_diagnosisId body); [|exact Hv].
    destruct (JS.falsy_str _); [exact Hv|].
    destruct (findOne _ _); [|exact Hv].
    destruct (_ || _); [exact Hv|].
    destruct (Diagnosis_save _ _ _ _) as [st'|] eqn:Hsave; [|exact Hv].
    cbn. change (stored_valid st').
    eapply Diagnosis_save_valid; [exact Hsave|exact Hv].
  - unfold command_executed. destruct (_ || _); [exact Hv|].
    destruct (pending_command _ _); [|exact Hv].
    destruct (Diagnosis_save _ _ _ _) as [st'|] eqn:Hsave; [|exact Hv].
    cbn. eapply Diagnosis_save_valid; [exact Hsave|exact Hv].
  - apply history_delete_Forall. exact Hv.
Qed.

(** Every document of a reachable store passed the validators. *)
Lemma reachable_valid st : reachable st -> stored_valid st.
Proof.
  induction 1 as [|st r _ IH]; [constructor|]. apply handle_valid, IH.
Qed.

(* ================================================================== *)
(** ** Diagnosis ids in reachable stores *)

Lemma map_id_updateMany_status f s l :
  map Diagnosis._id (updateMany f (Diagnosis.set_status s) l)
  = map Diagnosis._id l.
Proof.
  unfold updateMany. rewrite map_map. apply map_ext.
  intros d. destruct (f d); reflexivity.
Qed.

Lemma map_id_updateOne id d l :
  Diagnosis._id d = id ->
  map Diagnosis._id
      (updateOne (fun x => Diagnosis._id x =? id) (fun _ => d) l)
  = map Diagnosis._id l.
Proof.
  intros Hd. induction l as [|a l IH]; cbn; [reflexivity|].
  destruct (Diagnosis._id a =? id) eqn:E; cbn.
  - apply Nat.eqb_eq in E. congruence.
  - rewrite IH. reflexivity.
Qed.

Lemma map_id_findOneAndDelete f l :
  exists l1 l2,
    map Diagnosis._id l
    = l1 ++ l2
      /\ (map Diagnosis._id (snd (findOneAndDelete f l)) = l1 ++ tl l2
          \/ map Diagnosis._id (snd (findOneAndDelete f l)) = l1 ++ l2).
Proof.
  induction l as [|a l IH]; cbn.
  - exists [], []. auto.
  - destruct (f a).
    + exists [], (Diagnosis._id a :: map Diagnosis._id l). cbn. auto.
    + destruct IH as (l1 & l2 & E & H).
      destruct (findOneAndDelete f l) as [r l'']. cbn in *.
      exists (Diagnosis._id a :: l1), l2. cbn. rewrite E.
      split; [reflexivity|]. destruct H as [-> | ->]; auto.
Qed.

Lemma NoDup_remove_tl (l1 l2 : list ObjectId) :
  NoDup (l1 ++ l2) -> NoDup (l1 ++ tl l2).
Proof.
  destruct l2 as [|a l2]; cbn; [auto|]. apply NoDup_remove_1.
Qed.

Lemma ids_below_unique_snoc (ids : list ObjectId) n :
  NoDup ids -> Forall (fun i => i < n) ids -> NoDup (ids ++ [n]).
Proof.
  intros Hnd Hlt. induction Hnd as [|a l Hnotin Hnd IH]; cbn.
  - constructor; [intros []|constructor].
  - inversion Hlt as [|? ? Ha Hl]; subst.
    constructor; [|auto].
    intros Hin. apply in_app_or in Hin. destruct Hin as [Hin|[->|[]]];
      [contradiction|lia].
Qed.

(** The ids of the diagnoses are distinct and below the next id. *)
Lemma Diagnosis_save_ids now isNew d st st' :
  Diagnosis_save now isNew d st = Some st' ->
  (isNew = true -> Diagnosis._id d = nextId st) ->
  NoDup (map Diagnosis._id (diagnoses st))
  /\ Forall (fun i => i < nextId st) (map Diagnosis._id (diagnoses st)) ->
  NoDup (map Diagnosis._id (diagnoses st'))
  /\ Forall (fun i => i < nextId st') (map Diagnosis._id (diagnoses st')).
Proof.
  unfold Diagnosis_save. destruct (Diagnosis.validate _); [|discriminate].
  intros H Hid [Hnd Hlt]. destruct isNew; injection H as <-; cbn.
  - rewrite map_app. cbn. rewrite (Hid eq_refl). split.
    + apply ids_below_unique_snoc; assumption.
    + apply Forall_app. split.
      * eapply Forall_impl; [|exact Hlt]. cbn. intros; lia.
      * constructor; [lia|constructor].
  - rewrite map_id_updateOne; [|reflexivity]. auto.
Qed.

Lemma handle_ids r st :
  NoDup (map Diagnosis._id (diagnoses st))
  /\ Forall (fun i => i < nextId st) (map Diagnosis._id (diagnoses st)) ->
  NoDup (map Diagnosis._id (diagnoses (handle r st)))
  /\ Forall (fun i => i < nextId (handle r st))
            (map Diagnosis._id (diagnoses (handle r st))).
Proof.
  intros Hinv. destruct r; cbn; [| | | exact Hinv | |].
  - unfold patient_start. destruct (_ || _); [exact Hinv|].
    assert (Hclean :
              NoDup (map Diagnosis._id
                       (updateMany
                          (hanging_on (from_option (start_kioskId body)))
                          (Diagnosis.set_status Diagnosis.completed)
                          (diagnoses st)))
              /\ Forall (fun i => i < nextId st)
                   (map Diagnosis._id
                      (updateMany
                         (hanging_on (from_option (start_kioskId body)))
                         (Diagnosis.set_status Diagnosis.completed)
                         (diagnoses st))))
      by (rewrite map_id_updateMany_status; exact Hinv).
    unfold Patient_save. cbn. destruct (Patient.validate _); [|exact Hclean].
    cbn. destruct (Diagnosis_save _ _ _ _) as [st'|] eqn:Hsave.
    + cbn. eapply Diagnosis_save_ids; [exact Hsave|reflexivity|].
      cbn. destruct Hclean as [H1 H2]. split; [exact H1|].
      eapply Forall_impl; [|exact H2]. cbn. intros; lia.
    + cbn. destruct Hclean as [H1 H2]. split; [exact H1|].
      eapply Forall_impl; [|exact H2]. cbn. intros; lia.
  - unfold data_upload. destruct (_ || _); [exact Hinv|].
    destruct (findOne _ _); [|exact Hinv].
    destruct (Diagnosis_save _ _ _ _) as [st'|] eqn:Hsave; [|exact Hinv].
    cbn. eapply Diagnosis_save_ids; [exact Hsave| |exact Hinv].
    destruct (latest _); [discriminate|]. intros _.
    match goal with |- Diagnosis._id (advance_status ?x ?y) = _ =>
      destruct (advance_status_fields x y) as (E & _); exact E end.
  - unfold diagnosis_approve.
    destruct (approve_diagnosisId body); [|exact Hinv].
    destruct (JS.falsy_str _); [exact Hinv|].
    destruct (findOne _ _); [|exact Hinv].
    destruct (_ || _); [exact Hinv|].
    destruct (Diagnosis_save _ _ _ _) as [st'|] eqn:Hsave; [|exact Hinv].
    cbn. eapply Diagnosis_save_ids; [exact Hsave|discriminate|exact Hinv].
  - unfold command_executed. destruct (_ || _); [exact Hinv|].
    destruct (pending_command _ _); [|exact Hinv].
    destruct (Diagnosis_save _ _ _ _) as [st'|] eqn:Hsave; [|exact Hinv].
    cbn. eapply Diagnosis_save_ids; [exact Hsave|discriminate|exact Hinv].
  - unfold history_delete.
    destruct (map_id_findOneAndDelete (owned_by doctorId id) (diagnoses st))
      as (l1 & l2 & E & H).
    destruct Hinv as [Hnd Hlt]. rewrite E in Hnd, Hlt.
    destruct (findOneAndDelete _ _) as [[x|] l]; cbn in *;
      [|rewrite E; auto].
    destruct H as [-> | ->]; [|auto]. split.
    + apply NoDup_remove_tl. exact Hnd.
    + apply Forall_app in Hlt. destruct Hlt as [H1 H2].
      apply Forall_app. split; [exact H1|].
      destruct l2 as [|a l2]; cbn; [constructor|].
      inversion H2; assumption.
Qed.

(** The diagnoses of a reachable store have pairwise distinct ids. *)
Lemma reachable_unique_ids st : reachable st -> unique_ids st.
Proof.
  intros Hr. unfold unique_ids.
  assert (H : NoDup (map Diagnosis._id (diagnoses st))
              /\ Forall (fun i => i < nextId st)
                        (map Diagnosis._id (diagnoses st))).
  { induction Hr as [|st r _ IH]; [split; constructor|].
    apply handle_ids. exact IH. }
  exact (proj1 H).
Qed.

(* ================================================================== *)
(** ** Evaluating the model *)

Example trim_kiosk : JS.trim "  K1 " = "K1".
Proof. by_evaluation. Qed.

Example trim_no_break_space :
  JS.trim (JS.bytes [194; 160; 75; 49; 9; 10]) = "K1".
Proof. by_evaluation. Qed.

Example phone_accepted :
  Regex.test_phoneNumber "+1 (555) 123-4567" = true
  /\ Regex.test_phoneNumber "15551234567" = true
  /\ Regex.test_phoneNumber "123-555-123-4567" = true.
Proof. by_evaluation. Qed.

Example phone_refused :
  Regex.test_phoneNumber "5551234567" = false
  /\ Regex.test_phoneNumber "+1 (555) 123-45678" = false
  /\ Regex.test_phoneNumber "call me" = false.
Proof. by_evaluation. Qed.

Example predictDisease_cold : predictDisease Scenario.cold = "Disease B".
Proof. by_evaluation. Qed.

Example predictDisease_null_bpm :
  predictDisease
    (mkReading JS.null (JS.num (JS.Fin 97)) (JS.num (JS.Fin 20)))
  = "Disease B".
Proof. by_evaluation. Qed.

Example poll_after_dispensing :
  get_motor_command Scenario.K1 Scenario.approved_A
  = Json 200 "activate_motor_1"
  /\ get_motor_command Scenario.K1 Scenario.dispensed = Json 200 "none".
Proof. by_evaluation. Qed.

(* ================================================================== *)
(** ** The claims *)

(** C8. In every reachable store, every diagnosis has
    [commandExecuted = true] exactly when its [status] is
    [medication_dispensed]: the property holds in the empty store, each
    request (start, upload, approve, poll, acknowledge, delete) preserves
    it from any store in which it holds, and so it holds in every store
    reachable from the empty one. *)
Theorem executed_iff_dispensed_invariant :
  executed_invariant empty_store
  /\ (forall r st, executed_invariant st -> executed_invariant (handle r st))
  /\ (forall st, reachable st ->
        forall d, In d (diagnoses st) ->
          (Diagnosis.commandExecuted d = true
           <-> Diagnosis.status d = Diagnosis.medication_dispensed)).
Proof.
  split; [constructor|]. split; [exact handle_executed|].
  intros st Hr.
  assert (Hinv : executed_invariant st).
  { induction Hr as [|st r _ IH]; [constructor|]. apply handle_executed, IH. }
  unfold executed_invariant in Hinv. rewrite Forall_forall in Hinv.
  exact Hinv.
Qed.

(** The invariant at the store of the dispensed scenario, reached by
    start, upload, approve and acknowledge. *)
Lemma executed_iff_dispensed_invariant_witness :
  reachable Scenario.dispensed
  /\ Forall dispensed_iff_executed (diagnoses Scenario.dispensed).
Proof.
  assert (Hr : reachable Scenario.dispensed).
  { repeat apply reachable_run. constructor. }
  split; [exact Hr|].
  apply Forall_forall. intros d Hd.
  exact (proj2 (proj2 executed_iff_dispensed_invariant) _ Hr d Hd).
Defined.

(* ================================================================== *)
(** *** Starting a session *)

Lemma option_string_eqb_refl o : option_string_eqb o o = true.
Proof. destruct o; cbn; [apply String.eqb_refl|reflexivity]. Qed.

(** The store that a successful start leaves. *)
Lemma patient_start_created now doctorId body st started st' :
  patient_start now doctorId body st = (Json 201 started, st') ->
  let k := from_option (start_kioskId body) in
  started_kioskId started = k
  /\ started_patientId started = nextId st
  /\ started_diagnosisId started = S (nextId st)
  /\ (exists p,
        patients st'
        = updateMany (active_on k) (Patient.set_isActive false) (patients st)
          ++ [p]
        /\ Patient._id p = nextId st
        /\ Patient.kioskId p = Some (JS.trim k)
        /\ Patient.isActive p = true)
  /\ diagnoses st'
     = updateMany (hanging_on k) (Diagnosis.set_status Diagnosis.completed)
                  (diagnoses st)
       ++ [Diagnosis.new now (S (nextId st)) (nextId st) doctorId k
                         Diagnosis.collecting_data].
Proof.
  unfold patient_start. destruct (_ || _); [discriminate|].
  unfold Patient_save. cbn. destruct (Patient.validate _); [|discriminate].
  cbn. destruct (Diagnosis_save _ _ _ _) as [st2|] eqn:Hsave; [|discriminate].
  intros [= <- <-]. cbn.
  unfold Diagnosis_save in Hsave. cbn in Hsave.
  destruct (Diagnosis.validate _); [|discriminate].
  injection Hsave as <-. cbn.
  repeat split; eauto 10.
Qed.

(** C1 (amended). When StartSession returns successfully for a kiosk,
    exactly one patient is active on it, namely the new one, and exactly one
    diagnosis of the kiosk is in one of the statuses collecting_data,
    prediction_made, pending_approval, namely the new one in
    collecting_data; a diagnosis of the kiosk that was in one of these three
    statuses is now completed, and every other diagnosis, in particular an
    approved or declined one, is left as it was. *)
Theorem patient_start_one_active_one_ongoing
        now doctorId body st started st' :
  patient_start now doctorId body st = (Json 201 started, st') ->
  let k := started_kioskId started in
  (exists p, filter (active_on k) (patients st') = [p]
             /\ Patient._id p = started_patientId started)
  /\ (exists d, filter (hanging_on k) (diagnoses st') = [d]
                /\ Diagnosis._id d = started_diagnosisId started
                /\ Diagnosis.status d = Diagnosis.collecting_data)
  /\ (forall d, In d (diagnoses st) -> hanging_on k d = true ->
        In (Diagnosis.set_status Diagnosis.completed d) (diagnoses st'))
  /\ (forall d, In d (diagnoses st) -> hanging_on k d = false ->
        In d (diagnoses st')).
Proof.
  intros H. apply patient_start_created in H. cbn zeta in H.
  destruct H as (Hk & Hp & Hd & (p & Hps & Hpid & Hpk & Hpa) & Hds).
  cbn zeta. rewrite Hk, Hp, Hd. set (k := from_option (start_kioskId body)) in *.
  split; [|split; [|split]].
  - exists p. split; [|exact Hpid].
    rewrite Hps, filter_app, filter_updateMany_nil.
    + cbn. unfold active_on. rewrite Hpk, Hpa, option_string_eqb_refl.
      reflexivity.
    + intros x _. unfold active_on. cbn. apply andb_false_r.
  - exists (Diagnosis.new now (S (nextId st)) (nextId st) doctorId k
                          Diagnosis.collecting_data).
    split; [|split; reflexivity].
    rewrite Hds, filter_app, filter_updateMany_nil.
    + cbn. unfold hanging_on. cbn. rewrite String.eqb_refl. reflexivity.
    + intros x _. unfold hanging_on. cbn. apply andb_false_r.
  - intros d Hin Hh. rewrite Hds. apply in_or_app. left.
    unfold updateMany. apply in_map_iff. exists d. rewrite Hh. auto.
  - intros d Hin Hh. rewrite Hds. apply in_or_app. left.
    unfold updateMany. apply in_map_iff. exists d. rewrite Hh. auto.
Qed.

(** A second start on K1 after the first session was approved. *)
Lemma patient_start_one_active_one_ongoing_witness :
  exists st',
    patient_start 5 Scenario.doctor Scenario.start_body Scenario.approved_A
    = (Json 201 (mkStarted 2 3 "K1"), st')
    /\ (exists p, filter (active_on "K1") (patients st') = [p]
                  /\ Patient._id p = 2)
    /\ (exists d, filter (hanging_on "K1") (diagnoses st') = [d]
                  /\ Diagnosis._id d = 3
                  /\ Diagnosis.status d = Diagnosis.collecting_data).
Proof.
  eexists. split; [vm_compute; reflexivity|].
  match goal with |- context [patients ?s] => set (st' := s) end.
  assert (H : patient_start 5 Scenario.doctor Scenario.start_body
                            Scenario.approved_A
              = (Json 201 (mkStarted 2 3 "K1"), st'))
    by (vm_compute; reflexivity).
  pose proof (patient_start_one_active_one_ongoing _ _ _ _ H) as T.
  cbn zeta in T. destruct T as (T1 & T2 & _).
  split; [exact T1|exact T2].
Defined.

(** C1, as stated, fails: the first session of K1 was approved and its
    command not yet executed, so it is in a non-terminal status; after a
    second start on K1 it is still approved, not completed, and K1 has two
    diagnoses in a non-terminal status. *)
Lemma patient_start_leaves_approved_open :
  let st := Scenario.approved_A in
  let r := patient_start 5 Scenario.doctor Scenario.start_body st in
  map Diagnosis.status (open_sessions "K1" st) = [Diagnosis.approved]
  /\ fst r = Json 201 (mkStarted 2 3 "K1")
  /\ map (fun d => (Diagnosis._id d, Diagnosis.status d))
         (open_sessions "K1" (snd r))
     = [(1, Diagnosis.approved); (3, Diagnosis.collecting_data)]
  /\ List.length (open_sessions "K1" (snd r)) <> 1.
Proof. cbv zeta. by_evaluation. Qed.

(* ================================================================== *)
(** *** Command dispatch: poll and acknowledgement *)

Lemma latest_greatest l d :
  latest l = Some d ->
  forall e, In e l -> (Diagnosis.createdAt e <= Diagnosis.createdAt d)%N.
Proof.
  revert d. induction l as [|a l IH]; cbn; [discriminate|].
  intros d Hd e [<-|Hin].
  - destruct (latest l) as [m|].
    + destruct (Diagnosis.createdAt a <? Diagnosis.createdAt m)%N eqn:E;
        injection Hd as <-; [apply N.ltb_lt in E|]; lia.
    + injection Hd as <-. lia.
  - destruct (latest l) as [m|] eqn:Hm.
    + specialize (IH m eq_refl e Hin).
      destruct (Diagnosis.createdAt a <? Diagnosis.createdAt m)%N eqn:E;
        injection Hd as <-; [|apply N.ltb_ge in E]; lia.
    + apply latest_None in Hm. subst l. contradiction.
Qed.

Lemma validate_dispensed now d :
  Diagnosis.validate
    (Diagnosis.set_updatedAt now
       (Diagnosis.set_status Diagnosis.medication_dispensed
          (Diagnosis.set_commandExecuted true d)))
  = Diagnosis.validate d.
Proof. reflexivity. Qed.

(** The acknowledgement of a pending diagnosis. *)
Lemma command_executed_pending now body st d :
  JS.falsy_str (executed_kioskId body) = false ->
  JS.falsy_str (executed_status body) = false ->
  pending_command (from_option (executed_kioskId body)) st = Some d ->
  Diagnosis.validate d = true ->
  command_executed now body st
  = (Json 200 (Diagnosis._id d),
     mkStore (patients st)
       (updateOne (fun x => Diagnosis._id x =? Diagnosis._id d)
          (fun _ => Diagnosis.set_updatedAt now
                      (Diagnosis.set_status Diagnosis.medication_dispensed
                         (Diagnosis.set_commandExecuted true d)))
          (diagnoses st))
       (nextId st)).
Proof.
  intros Hk Hs Hp Hv. unfold command_executed. rewrite Hk, Hs, Hp. cbn [orb].
  unfold Diagnosis_save. rewrite validate_dispensed, Hv. reflexivity.
Qed.

(** [updateOne] keeps the number of documents. *)
Lemma updateOne_length (A : Type) (f : A -> bool) g (l : list A) :
  List.length (updateOne f g l) = List.length l.
Proof.
  induction l as [|a l IH]; cbn; [reflexivity|].
  destruct (f a); cbn; [reflexivity|]. rewrite IH. reflexivity.
Qed.

(** With pairwise distinct ids, replacing the document that has the id of
    [d] by [d'] changes the document [d] and no other: every other document
    is still there as it was, and every document of the result is [d'] or
    a document other than [d] that was there before. *)
Lemma updateOne_by_id_frame l d d' :
  NoDup (map Diagnosis._id l) -> In d l ->
  let l' := updateOne (fun x => Diagnosis._id x =? Diagnosis._id d)
                      (fun _ => d') l in
  (forall e, In e l -> e <> d -> In e l')
  /\ (forall e', In e' l' -> e' = d' \/ (In e' l /\ e' <> d)).
Proof.
  induction l as [|a l IH]; cbn; [contradiction|].
  intros Hnd Hd. inversion Hnd as [|? ? Hnotin Hnd']; subst.
  destruct (Nat.eqb_spec (Diagnosis._id a) (Diagnosis._id d)) as [E|E].
  - assert (a = d) as ->.
    { destruct Hd as [Hd|Hd]; [exact Hd|].
      elim Hnotin. rewrite E. apply in_map. exact Hd. }
    split.
    + intros e [He|He] Hne; [elim Hne; symmetry; exact He|].
      right. exact He.
    + intros e' [He|He]; [left; symmetry; exact He|].
      right. split; [right; exact He|].
      intros ->. apply Hnotin. apply in_map. exact He.
  - assert (In d l) as Hd'.
    { destruct Hd as [Hd|Hd]; [|exact Hd]. elim E. rewrite Hd. reflexivity. }
    destruct (IH Hnd' Hd') as [IH1 IH2].
    split.
    + intros e [He|He] Hne; [left; exact He|].
      right. apply IH1; assumption.
    + intros e' [He|He].
      * right. split; [left; exact He|].
        intros ->. apply E. rewrite He. reflexivity.
      * destruct (IH2 e' He) as [H|[H1 H2]]; [left; exact H|].
        right. split; [right; exact H1|exact H2].
Qed.

(** C2 (amended). The acknowledgement carries a kiosk id and an execution
    status and no session id.  It marks [commandExecuted = true] and
    [status = medication_dispensed] on the diagnosis that the pending query
    selects when the acknowledgement is handled: a diagnosis of the kiosk
    that is approved, not executed and has a command, and no such diagnosis
    was created later.  It answers with the id of that diagnosis.  That
    diagnosis is the only document changed: the patients and the id
    counter are as before, the number of diagnoses is the same, the first
    diagnosis with the selected id is replaced by the marked one, and, the
    ids being distinct, every other diagnosis (another pending one of the
    same kiosk included) is stored as it was and every diagnosis stored
    afterwards is the marked one or one that was there before. *)
Theorem command_executed_confirms_latest_pending now body st d :
  JS.falsy_str (executed_kioskId body) = false ->
  JS.falsy_str (executed_status body) = false ->
  pending_command (from_option (executed_kioskId body)) st = Some d ->
  Diagnosis.validate d = true ->
  let k := from_option (executed_kioskId body) in
  let d' := dispensed_at now d in
  let st' :=
    mkStore (patients st)
            (updateOne (fun x => Diagnosis._id x =? Diagnosis._id d)
                       (fun _ => d') (diagnoses st))
            (nextId st) in
  command_executed now body st = (Json 200 (Diagnosis._id d), st')
  /\ findById (Diagnosis._id d) st' = Some d'
  /\ Diagnosis.commandExecuted d' = true
  /\ Diagnosis.status d' = Diagnosis.medication_dispensed
  /\ In d (diagnoses st)
  /\ awaiting_execution k d = true
  /\ (forall e, In e (diagnoses st) -> awaiting_execution k e = true ->
        (Diagnosis.createdAt e <= Diagnosis.createdAt d)%N)
  /\ patients st' = patients st
  /\ nextId st' = nextId st
  /\ List.length (diagnoses st') = List.length (diagnoses st)
  /\ (unique_ids st ->
      (forall e, In e (diagnoses st) -> e <> d -> In e (diagnoses st'))
      /\ (forall e', In e' (diagnoses st') ->
            e' = d' \/ (In e' (diagnoses st) /\ e' <> d))
      /\ (forall e, In e (diagnoses st) -> e <> d ->
            awaiting_execution k e = true ->
            exists e', findById (Diagnosis._id e) st' = Some e'
                       /\ e' = e
                       /\ Diagnosis.commandExecuted e' = false
                       /\ Diagnosis.status e' = Diagnosis.approved)).
Proof.
  intros Hk Hs Hp Hv k d' st'.
  pose proof (latest_filter_In _ _ Hp) as [Hin Haw].
  split; [apply command_executed_pending; assumption|].
  split; [|split; [reflexivity|split; [reflexivity|]]].
  - unfold findById. cbn.
    apply (findOne_updateOne_const (fun x => Diagnosis._id x =? Diagnosis._id d)).
    + cbn. apply Nat.eqb_refl.
    + exists d. split; [exact Hin|apply Nat.eqb_refl].
  - split; [exact Hin|]. split; [exact Haw|].
    split.
    { intros e He Hae. apply (latest_greatest _ Hp).
      apply filter_In. split; assumption. }
    split; [reflexivity|]. split; [reflexivity|].
    split; [apply updateOne_length|].
    intros Hu.
    destruct (@updateOne_by_id_frame (diagnoses st) d d' Hu Hin) as [F1 F2].
    split; [exact F1|]. split; [exact F2|].
    intros e He Hne Hae.
    assert (In e (diagnoses st')) as He' by (apply F1; assumption).
    assert (NoDup (map Diagnosis._id (diagnoses st'))) as Hu'.
    { cbn [diagnoses st']. rewrite map_id_updateOne; [exact Hu|reflexivity]. }
    destruct (findById (Diagnosis._id e) st') as [e'|] eqn:Hf.
    + unfold findById in Hf. apply findOne_In in Hf. destruct Hf as [Hf1 Hf2].
      apply Nat.eqb_eq in Hf2.
      assert (e' = e) as ->.
      { revert Hu' Hf1 He' Hf2. generalize (diagnoses st'). clear.
        induction l as [|x l IH]; cbn; [contradiction|].
        intros Hnd Ha Hb E. inversion Hnd as [|? ? Hnotin Hnd']; subst.
        destruct Ha as [->|Ha], Hb as [->|Hb]; auto.
        - elim Hnotin. rewrite E. apply in_map. exact Hb.
        - elim Hnotin. rewrite <- E. apply in_map. exact Ha. }
      exists e. split; [reflexivity|]. split; [reflexivity|].
      unfold awaiting_execution in Hae.
      repeat (apply andb_prop in Hae; destruct Hae as [Hae ?]).
      split.
      * destruct (Diagnosis.commandExecuted e); [discriminate|reflexivity].
      * apply Status_eqb_eq. assumption.
    + exfalso. unfold findById in Hf.
      pose proof (@find_none _ _ _ Hf e He') as Hn. cbn in Hn.
      rewrite Nat.eqb_refl in Hn. discriminate.
Qed.

(** With two approved sessions on K1, the acknowledgement confirms the
    later one, diagnosis 3, and diagnosis 1 stays approved and not
    executed. *)
Lemma command_executed_confirms_latest_pending_witness :
  let d := Scenario.diagnosis_of 3 Scenario.two_approved in
  let e := Scenario.diagnosis_of 1 Scenario.two_approved in
  let st' := snd (command_executed 7 Scenario.executed_body
                                   Scenario.two_approved) in
  pending_command "K1" Scenario.two_approved = Some d
  /\ Diagnosis._id d = 3
  /\ fst (command_executed 7 Scenario.executed_body Scenario.two_approved)
     = Json 200 3
  /\ findById 3 st' = Some (dispensed_at 7 d)
  /\ Diagnosis.commandExecuted (dispensed_at 7 d) = true
  /\ Diagnosis.status (dispensed_at 7 d) = Diagnosis.medication_dispensed
  /\ List.length (diagnoses st') = 2
  /\ In e (diagnoses st')
  /\ Diagnosis.status e = Diagnosis.approved
  /\ Diagnosis.commandExecuted e = false.
Proof.
  intros d e st'.
  split; [vm_compute; reflexivity|]. split; [vm_compute; reflexivity|].
  destruct (@command_executed_confirms_latest_pending
              7 Scenario.executed_body Scenario.two_approved d)
    as (H1 & H2 & H3 & H4 & _ & _ & _ & _ & _ & H5 & H6);
    try (vm_compute; reflexivity).
  assert (unique_ids Scenario.two_approved) as Hu.
  { unfold unique_ids. vm_compute. repeat constructor; cbn; intuition lia. }
  destruct (H6 Hu) as (F1 & _ & _).
  unfold st'. rewrite H1. cbn [fst snd].
  split; [reflexivity|]. split; [exact H2|].
  split; [exact H3|]. split; [exact H4|].
  split; [rewrite H5; vm_compute; reflexivity|].
  split.
  - apply F1.
    + vm_compute. left. reflexivity.
    + intros E. apply (f_equal Diagnosis._id) in E. vm_compute in E.
      discriminate.
  - split; vm_compute; reflexivity.
Defined.

(** C2, as stated, fails.  The kiosk polls while diagnosis 1 is the pending
    one and is given its command; before the acknowledgement arrives a
    second session is started on K1 and approved (diagnosis 3); the
    acknowledgement then confirms diagnosis 3, and diagnosis 1, whose
    command the kiosk executed, stays approved and unexecuted. *)
Lemma acknowledgement_confirms_newer_approval :
  option_map Diagnosis._id (pending_command "K1" Scenario.approved_A)
  = Some 1
  /\ get_motor_command Scenario.K1 Scenario.approved_A
     = Json 200 "activate_motor_1"
  /\ Scenario.two_approved
     = run [Scenario.start 5; Scenario.approve 6 3 "Disease B"]
           Scenario.approved_A
  /\ fst (command_executed 7 Scenario.executed_body Scenario.two_approved)
     = Json 200 3
  /\ map (fun d => (Diagnosis._id d, Diagnosis.status d,
                    Diagnosis.commandExecuted d))
         (diagnoses
            (snd (command_executed 7 Scenario.executed_body
                                   Scenario.two_approved)))
     = [(1, Diagnosis.approved, false);
        (3, Diagnosis.medication_dispensed, true)].
Proof. by_evaluation. Qed.

Lemma updateOne_only_pending (f : Diagnosis.t -> bool) l d d' :
  NoDup (map Diagnosis._id l) ->
  filter f l = [d] ->
  f d' = false ->
  filter f (updateOne (fun x => Diagnosis._id x =? Diagnosis._id d)
                      (fun _ => d') l) = [].
Proof.
  intros Hnd. induction l as [|a l IH]; cbn; [discriminate|].
  inversion Hnd as [|? ? Hnotin Hnd']; subst.
  intros Hf Hd'.
  destruct (Diagnosis._id a =? Diagnosis._id d) eqn:E.
  - apply Nat.eqb_eq in E. cbn. rewrite Hd'.
    destruct (f a) eqn:Fa.
    + injection Hf as _ Hf. exact Hf.
    + exfalso. apply Hnotin. rewrite E. apply in_map.
      assert (Hin : In d (filter f l)) by (rewrite Hf; left; reflexivity).
      apply filter_In in Hin. tauto.
  - cbn. destruct (f a) eqn:Fa.
    + injection Hf as Ha _. subst a. rewrite Nat.eqb_refl in E. discriminate.
    + apply IH; assumption.
Qed.

(** C3 (amended). After the acknowledgement of the only diagnosis of the
    kiosk that awaited execution, a second acknowledgement for the kiosk
    finds no pending diagnosis: it answers 404 with "No pending approved
    diagnosis found for this kiosk." instead of the session id, and leaves
    the store as the first acknowledgement left it. *)
Theorem second_acknowledgement_not_found now now' body st d :
  JS.falsy_str (executed_kioskId body) = false ->
  JS.falsy_str (executed_status body) = false ->
  unique_ids st ->
  filter (awaiting_execution (from_option (executed_kioskId body)))
         (diagnoses st) = [d] ->
  Diagnosis.validate d = true ->
  exists st',
    command_executed now body st = (Json 200 (Diagnosis._id d), st')
    /\ command_executed now' body st'
       = (Error 404 "No pending approved diagnosis found for this kiosk.",
          st').
Proof.
  intros Hk Hs Hu Hf Hv.
  assert (Hp : pending_command (from_option (executed_kioskId body)) st
               = Some d).
  { unfold pending_command. rewrite Hf. reflexivity. }
  eexists. split; [apply command_executed_pending; assumption|].
  unfold command_executed. rewrite Hk, Hs. cbn [orb].
  unfold pending_command. cbn [diagnoses].
  rewrite (@updateOne_only_pending _ _ _ _ Hu Hf); [reflexivity|].
  unfold awaiting_execution. cbn.
  rewrite andb_false_r. reflexivity.
Qed.

(** The two acknowledgements of the approved session of K1. *)
Lemma second_acknowledgement_not_found_witness :
  let d := Scenario.diagnosis_of 1 Scenario.approved_A in
  unique_ids Scenario.approved_A
  /\ filter (awaiting_execution "K1") (diagnoses Scenario.approved_A) = [d]
  /\ exists st',
       command_executed 4 Scenario.executed_body Scenario.approved_A
       = (Json 200 (Diagnosis._id d), st')
       /\ command_executed 8 Scenario.executed_body st'
          = (Error 404 "No pending approved diagnosis found for this kiosk.",
             st').
Proof.
  intros d.
  assert (Hu : unique_ids Scenario.approved_A).
  { unfold unique_ids. vm_compute. repeat constructor. intros []. }
  split; [exact Hu|]. split; [vm_compute; reflexivity|].
  apply (@second_acknowledgement_not_found
           4 8 Scenario.executed_body Scenario.approved_A d);
    solve [exact Hu | vm_compute; reflexivity].
Defined.

(** C3, as stated, fails: the second acknowledgement of the dispensed
    session of K1 is answered with the error 404, not with the session id
    that the first one returned. *)
Lemma second_acknowledgement_is_an_error :
  command_executed 4 Scenario.executed_body Scenario.approved_A
  = (Json 200 1, Scenario.dispensed)
  /\ map Diagnosis.status (diagnoses Scenario.dispensed)
     = [Diagnosis.medication_dispensed]
  /\ fst (command_executed 8 Scenario.executed_body Scenario.dispensed)
     = Error 404 "No pending approved diagnosis found for this kiosk."
  /\ fst (command_executed 8 Scenario.executed_body Scenario.dispensed)
     <> Json 200 1.
Proof. by_evaluation. Qed.

(* ================================================================== *)
(** *** Ingestion *)

Lemma advance_status_undetermined d :
  advance_status "Undetermined" d = d.
Proof. unfold advance_status. cbn. rewrite !andb_false_r. reflexivity. Qed.

(** From collecting_data (and from prediction_made) a label other than
    "Undetermined" leads to pending_approval within the one call. *)
Lemma advance_status_determined prediction d :
  prediction <> "Undetermined" ->
  Diagnosis.status d = Diagnosis.collecting_data
  \/ Diagnosis.status d = Diagnosis.prediction_made ->
  Diagnosis.status (advance_status prediction d) = Diagnosis.pending_approval.
Proof.
  intros Hp Hs. apply String.eqb_neq in Hp. unfold advance_status.
  rewrite Hp. cbn [negb]. rewrite !andb_true_r.
  destruct Hs as [Hs|Hs]; rewrite Hs; cbn; [reflexivity|].
  rewrite Hs. reflexivity.
Qed.

Lemma validate_advance_status prediction d :
  Diagnosis.validate (advance_status prediction d) = Diagnosis.validate d.
Proof.
  unfold Diagnosis.validate.
  destruct (advance_status_fields prediction d)
    as (_ & _ & _ & Ek & _ & Ep & Ea).
  rewrite Ek, Ep, Ea. reflexivity.
Qed.

Lemma validate_ingested now r d :
  Diagnosis.validate d = true ->
  Diagnosis.in_enum (predictDisease r) = true ->
  Diagnosis.validate (ingested now r d) = true.
Proof.
  intros Hv He. unfold ingested.
  change (Diagnosis.validate
            (advance_status (predictDisease r)
               (Diagnosis.set_predictedDisease (predictDisease r)
                  (Diagnosis.push_sensorData now r d))) = true).
  rewrite validate_advance_status.
  change (negb (Diagnosis.kioskId d =? "")%string
          && Diagnosis.in_enum (predictDisease r)
          && Diagnosis.in_enum (Diagnosis.approvedDisease d) = true).
  unfold Diagnosis.validate in Hv.
  apply andb_true_iff in Hv. destruct Hv as [Hv Ha].
  apply andb_true_iff in Hv. destruct Hv as [Hk _].
  rewrite Hk, He, Ha. reflexivity.
Qed.

Lemma upload_guard body :
  JS.falsy_str (upload_kioskId body) = false ->
  JS.isNaN (bpm (upload_reading body)) = false ->
  JS.isNaN (spo2 (upload_reading body)) = false ->
  JS.isNaN (temperature (upload_reading body)) = false ->
  JS.falsy_str (upload_kioskId body)
  || JS.isNaN (bpm (upload_reading body))
  || JS.isNaN (spo2 (upload_reading body))
  || JS.isNaN (temperature (upload_reading body)) = false.
Proof. intros -> -> -> ->. reflexivity. Qed.

(** An accepted reading for a patient with an ongoing diagnosis. *)
Lemma data_upload_ongoing now body st p d :
  let r := upload_reading body in
  let k := from_option (upload_kioskId body) in
  JS.falsy_str (upload_kioskId body) = false ->
  JS.isNaN (bpm r) = false -> JS.isNaN (spo2 r) = false ->
  JS.isNaN (temperature r) = false ->
  findOne (active_on k) (patients st) = Some p ->
  latest (filter (ongoing (Patient._id p) k) (diagnoses st)) = Some d ->
  Diagnosis.validate d = true ->
  Diagnosis.in_enum (predictDisease r) = true ->
  data_upload now body st
  = (Json 200 (predictDisease r),
     mkStore (patients st)
       (updateOne (fun x => Diagnosis._id x =? Diagnosis._id d)
                  (fun _ => ingested now r d) (diagnoses st))
       (nextId st))
  /\ findOne (fun x => Diagnosis._id x =? Diagnosis._id d)
       (updateOne (fun x => Diagnosis._id x =? Diagnosis._id d)
                  (fun _ => ingested now r d) (diagnoses st))
     = Some (ingested now r d).
Proof.
  intros r k Hk Hb Hs Ht Hp Hd Hv He.
  assert (Hid : Diagnosis._id (ingested now r d) = Diagnosis._id d).
  { unfold ingested. cbn.
    destruct (advance_status_fields (predictDisease r)
               (Diagnosis.set_predictedDisease (predictDisease r)
                  (Diagnosis.push_sensorData now r d))) as (E & _).
    exact E. }
  split.
  - unfold data_upload. rewrite (upload_guard body Hk Hb Hs Ht).
    fold k. rewrite Hp. fold r. rewrite Hd.
    pose proof (@validate_ingested now r d Hv He) as Hv'.
    unfold ingested in Hv', Hid. unfold Diagnosis_save.
    rewrite Hv'. rewrite Hid. reflexivity.
  - apply (findOne_updateOne_const
             (fun x => Diagnosis._id x =? Diagnosis._id d)).
    + rewrite Hid. apply Nat.eqb_refl.
    + exists d. split; [|apply Nat.eqb_refl].
      apply latest_filter_In in Hd. tauto.
Qed.

Lemma ingested_fields now r d :
  Diagnosis._id (ingested now r d) = Diagnosis._id d
  /\ Diagnosis.patientId (ingested now r d) = Diagnosis.patientId d
  /\ Diagnosis.doctorId (ingested now r d) = Diagnosis.doctorId d
  /\ Diagnosis.kioskId (ingested now r d) = Diagnosis.kioskId d
  /\ Diagnosis.sensorData (ingested now r d)
     = Diagnosis.sensorData d ++ [stored_reading now r]
  /\ Diagnosis.predictedDisease (ingested now r d) = predictDisease r.
Proof.
  destruct (advance_status_fields (predictDisease r)
             (Diagnosis.set_predictedDisease (predictDisease r)
                (Diagnosis.push_sensorData now r d)))
    as (E1 & E2 & E3 & E4 & E5 & E6 & _).
  unfold ingested.
  repeat split;
    [exact E1 | exact E2 | exact E3 | exact E4 | exact E5 | exact E6].
Qed.

Lemma ingested_status now r d :
  Diagnosis.status (ingested now r d)
  = Diagnosis.status (advance_status (predictDisease r) d).
Proof.
  unfold ingested, advance_status.
  change (Diagnosis.status
            (Diagnosis.set_predictedDisease (predictDisease r)
               (Diagnosis.push_sensorData now r d)))
    with (Diagnosis.status d).
  destruct (negb (predictDisease r =? "Undetermined")%string);
    rewrite ?andb_true_r, ?andb_false_r;
    destruct (Diagnosis.status d) eqn:E; cbn; rewrite ?E; cbn; rewrite ?E;
    reflexivity.
Qed.

(** An accepted reading for a patient without an ongoing diagnosis. *)
Lemma data_upload_missing now body st p :
  let r := upload_reading body in
  let k := from_option (upload_kioskId body) in
  JS.falsy_str (upload_kioskId body) = false ->
  JS.isNaN (bpm r) = false -> JS.isNaN (spo2 r) = false ->
  JS.isNaN (temperature r) = false ->
  findOne (active_on k) (patients st) = Some p ->
  latest (filter (ongoing (Patient._id p) k) (diagnoses st)) = None ->
  Diagnosis.in_enum (predictDisease r) = true ->
  data_upload now body st
  = (Json 200 (predictDisease r),
     mkStore (patients st)
       (diagnoses st
        ++ [ingested now r
              (Diagnosis.new now (nextId st) (Patient._id p)
                             (Patient.doctorId p) k
                             Diagnosis.collecting_data)])
       (S (nextId st))).
Proof.
  intros r k Hk Hb Hs Ht Hp Hd He.
  unfold data_upload. rewrite (upload_guard body Hk Hb Hs Ht).
  fold k. rewrite Hp. fold r. rewrite Hd.
  assert (Hv : Diagnosis.validate
                 (Diagnosis.new now (nextId st) (Patient._id p)
                    (Patient.doctorId p) k Diagnosis.collecting_data)
               = true).
  { unfold Diagnosis.validate. cbn.
    unfold JS.falsy_str in Hk. subst k.
    destruct (upload_kioskId body) as [s|]; [|discriminate].
    cbn. rewrite Hk. reflexivity. }
  pose proof (@validate_ingested now r _ Hv He) as Hv'.
  unfold ingested in Hv'. unfold Diagnosis_save. rewrite Hv'. reflexivity.
Qed.

(* ------------------------------------------------------------------ *)
(** Facts about [predictDisease]. *)

Lemma ge_25_of_ge_37_8 v : JS.ge v 25 = false -> JS.ge v lit_37_8 = false.
Proof.
  unfold JS.ge. destruct (JS.ToNumber v) as [| | |q]; cbn; auto.
  intros H. destruct (Qle_bool lit_37_8 q) eqn:E; [|reflexivity].
  apply Qle_bool_iff in E.
  assert (H25 : Qle_bool 25 q = true).
  { apply Qle_bool_iff. apply Qle_trans with lit_37_8; [|exact E].
    unfold Qle. cbn. lia. }
  congruence.
Qed.

(** The branch of "Disease A" is never taken. *)
Lemma predictDisease_never_A r : predictDisease r <> "Disease A".
Proof.
  unfold predictDisease.
  destruct (JS.ge (temperature r) 25) eqn:E; [discriminate|].
  rewrite (ge_25_of_ge_37_8 _ E). cbn [andb].
  repeat match goal with |- context [if ?b then _ else _] =>
    destruct b end; discriminate.
Qed.

Lemma predictDisease_zero r :
  JS.ge (temperature r) 25 = false ->
  JS.strict_eq_0 (bpm r) || JS.strict_eq_0 (spo2 r)
  || JS.strict_eq_0 (temperature r) = true ->
  predictDisease r = "Undetermined".
Proof.
  intros H25 Hz. unfold predictDisease. rewrite H25.
  destruct (JS.isNaN (bpm r)), (JS.isNaN (spo2 r)),
    (JS.isNaN (temperature r)); cbn [orb]; try reflexivity.
  rewrite Hz. reflexivity.
Qed.

(** C4 (the code at the reading of scenario A).  For
    [{ bpm: 100, spo2: 92, temperature: 38.0 }] the conditions of the
    "Disease A" rule hold, yet [predictDisease] answers "health is good",
    taken by its first test [temperature >= 25], which leaves no reading
    for which the answer is "Disease A"; the value is not in the
    enum of [predictedDisease], so the upload for the session just started
    on K1 is answered with 500 and the stored diagnosis stays in
    collecting_data with the prediction "N/A". *)
Theorem feverish_reading_is_not_disease_A :
  let r := Scenario.feverish in
  JS.ge (temperature r) lit_37_8 && JS.lt (spo2 r) 95 && JS.gt (bpm r) 90
  = true
  /\ predictDisease r = "health is good"
  /\ (forall r', predictDisease r' <> "Disease A")
  /\ Diagnosis.in_enum (predictDisease r) = false
  /\ map (fun d => (Diagnosis.status d, Diagnosis.predictedDisease d))
         (diagnoses Scenario.started)
     = [(Diagnosis.collecting_data, "N/A")]
  /\ data_upload 2 (mkUpload r Scenario.K1) Scenario.started
     = (Error 500 "Server error processing sensor data", Scenario.started).
Proof.
  cbv zeta. split; [by_evaluation|]. split; [by_evaluation|].
  split; [exact predictDisease_never_A|]. by_evaluation.
Qed.

(** C5, as stated, fails: a reading without a numeric [bpm] is not given
    the label "Undetermined"; the upload is rejected with 400. *)
Lemma reading_without_bpm_is_rejected :
  JS.isNaN (bpm Scenario.no_bpm) = true
  /\ data_upload 2 (mkUpload Scenario.no_bpm Scenario.K1) Scenario.started
     = (Error 400 "Invalid sensor data or missing kioskId", Scenario.started)
  /\ fst (data_upload 2 (mkUpload Scenario.no_bpm Scenario.K1)
                      Scenario.started)
     <> Json 200 "Undetermined".
Proof. by_evaluation. Qed.

(** C5 (amended). A reading with a field that is not a number (absent, or
    NaN) is rejected: the upload answers 400 with "Invalid sensor data or
    missing kioskId", gives no label and leaves the store as it was.  A
    reading that is accepted, has the number zero in one of its three fields
    and a temperature that is not 25 or more is given the label
    "Undetermined"; the diagnosis found in collecting_data has the reading
    appended, the label recorded and stays in collecting_data. *)
Theorem data_upload_nan_or_zero now body st :
  let r := upload_reading body in
  let k := from_option (upload_kioskId body) in
  (JS.isNaN (bpm r) || JS.isNaN (spo2 r) || JS.isNaN (temperature r) = true ->
   data_upload now body st
   = (Error 400 "Invalid sensor data or missing kioskId", st))
  /\ (forall p d,
        JS.falsy_str (upload_kioskId body) = false ->
        JS.isNaN (bpm r) = false -> JS.isNaN (spo2 r) = false ->
        JS.isNaN (temperature r) = false ->
        JS.strict_eq_0 (bpm r) || JS.strict_eq_0 (spo2 r)
        || JS.strict_eq_0 (temperature r) = true ->
        JS.ge (temperature r) 25 = false ->
        findOne (active_on k) (patients st) = Some p ->
        latest (filter (ongoing (Patient._id p) k) (diagnoses st)) = Some d ->
        Diagnosis.status d = Diagnosis.collecting_data ->
        Diagnosis.validate d = true ->
        exists st' d',
          data_upload now body st = (Json 200 "Undetermined", st')
          /\ findById (Diagnosis._id d) st' = Some d'
          /\ Diagnosis.status d' = Diagnosis.collecting_data
          /\ Diagnosis.predictedDisease d' = "Undetermined"
          /\ Diagnosis.sensorData d'
             = Diagnosis.sensorData d ++ [stored_reading now r]).
Proof.
  intros r k. split.
  - intros Hnan. unfold data_upload. fold r.
    destruct (JS.falsy_str (upload_kioskId body)); [reflexivity|].
    cbn [orb]. rewrite Hnan. reflexivity.
  - intros p d Hk Hb Hs Ht Hz H25 Hp Hd Hst Hv.
    pose proof (predictDisease_zero r H25 Hz) as Hu.
    assert (He : Diagnosis.in_enum (predictDisease r) = true)
      by (rewrite Hu; reflexivity).
    destruct (@data_upload_ongoing now body st p d Hk Hb Hs Ht Hp Hd Hv He)
      as [Hrun Hfind].
    fold r in Hrun, Hfind.
    eexists. exists (ingested now r d).
    split; [rewrite <- Hu; exact Hrun|].
    split; [exact Hfind|].
    destruct (ingested_fields now r d) as (_ & _ & _ & _ & E5 & E6).
    split; [|split; [congruence|exact E5]].
    rewrite ingested_status, Hu, advance_status_undetermined. exact Hst.
Qed.

(** On the session started on K1: a reading without [bpm] is rejected, a
    reading with [bpm: 0] at 20 degrees is labelled "Undetermined". *)
Lemma data_upload_nan_or_zero_witness :
  data_upload 2 (mkUpload Scenario.no_bpm Scenario.K1) Scenario.started
  = (Error 400 "Invalid sensor data or missing kioskId", Scenario.started)
  /\ exists st' d',
       data_upload 2 (mkUpload Scenario.no_pulse Scenario.K1)
                   Scenario.started
       = (Json 200 "Undetermined", st')
       /\ findById 1 st' = Some d'
       /\ Diagnosis.status d' = Diagnosis.collecting_data
       /\ Diagnosis.predictedDisease d' = "Undetermined"
       /\ Diagnosis.sensorData d'
          = [stored_reading 2 Scenario.no_pulse].
Proof.
  split.
  - apply (proj1 (data_upload_nan_or_zero 2
                    (mkUpload Scenario.no_bpm Scenario.K1)
                    Scenario.started)).
    vm_compute. reflexivity.
  - apply (proj2 (data_upload_nan_or_zero 2
                    (mkUpload Scenario.no_pulse Scenario.K1)
                    Scenario.started)
             (Scenario.patient_of 0 Scenario.started)
             (Scenario.diagnosis_of 1 Scenario.started));
      vm_compute; reflexivity.
Defined.

(** C7 (the code at the reading of scenario A).  The session just started
    on K1 is in collecting_data and
    [{ bpm: 100, spo2: 92, temperature: 38.0 }] is given a label other than
    "Undetermined".  The two status updates of the upload take the document
    in memory to pending_approval, as the claim says, but the label is
    "health is good", which the enum of [predictedDisease] does not hold:
    the document is not valid, [save] rejects it, the upload is answered
    with 500 and the stored session is still in collecting_data, with no
    reading and the prediction "N/A".  The same upload of
    [{ bpm: 60, spo2: 97, temperature: 20 }], whose label "Disease B" is in
    the enum, is stored in pending_approval. *)
Theorem determined_reading_stays_in_collecting_data :
  let r := Scenario.feverish in
  let d := Scenario.diagnosis_of 1 Scenario.started in
  let out := data_upload 2 (mkUpload r Scenario.K1) Scenario.started in
  let ok := data_upload 2 (mkUpload Scenario.cold Scenario.K1)
                        Scenario.started in
  findById 1 Scenario.started = Some d
  /\ Diagnosis.status d = Diagnosis.collecting_data
  /\ predictDisease r = "health is good"
  /\ predictDisease r <> "Undetermined"
  /\ Diagnosis.status (advance_status (predictDisease r) d)
     = Diagnosis.pending_approval
  /\ Diagnosis.status (ingested 2 r d) = Diagnosis.pending_approval
  /\ Diagnosis.validate d = true
  /\ Diagnosis.validate (ingested 2 r d) = false
  /\ out = (Error 500 "Server error processing sensor data",
            Scenario.started)
  /\ option_map (fun x => (Diagnosis.status x, Diagnosis.predictedDisease x,
                           List.length (Diagnosis.sensorData x)))
                (findById 1 (snd out))
     = Some (Diagnosis.collecting_data, "N/A", 0)
  /\ fst ok = Json 200 "Disease B"
  /\ option_map Diagnosis.status (findById 1 (snd ok))
     = Some Diagnosis.pending_approval.
Proof. cbv zeta. by_evaluation. Qed.

(** For the labels of the enum the transition is stored.  For the
    diagnosis in collecting_data that an upload finds, one upload whose
    reading is given a label of the enum other than "Undetermined" succeeds
    and stores the diagnosis in pending_approval, with the label as its
    prediction: the stored status is not prediction_made, and no second
    upload is needed.  The status update itself takes every label other
    than "Undetermined" from collecting_data to pending_approval. *)
Lemma enum_label_reaches_pending_approval now body st p d :
  let r := upload_reading body in
  let k := from_option (upload_kioskId body) in
  JS.falsy_str (upload_kioskId body) = false ->
  JS.isNaN (bpm r) = false -> JS.isNaN (spo2 r) = false ->
  JS.isNaN (temperature r) = false ->
  findOne (active_on k) (patients st) = Some p ->
  latest (filter (ongoing (Patient._id p) k) (diagnoses st)) = Some d ->
  Diagnosis.status d = Diagnosis.collecting_data ->
  Diagnosis.validate d = true ->
  predictDisease r <> "Undetermined" ->
  Diagnosis.in_enum (predictDisease r) = true ->
  (exists st' d',
     data_upload now body st = (Json 200 (predictDisease r), st')
     /\ findById (Diagnosis._id d) st' = Some d'
     /\ Diagnosis.status d' = Diagnosis.pending_approval
     /\ Diagnosis.predictedDisease d' = predictDisease r)
  /\ (forall label, label <> "Undetermined" ->
        Diagnosis.status (advance_status label d)
        = Diagnosis.pending_approval).
Proof.
  intros r k Hk Hb Hs Ht Hp Hd Hst Hv Hn He.
  split.
  - destruct (@data_upload_ongoing now body st p d Hk Hb Hs Ht Hp Hd Hv He)
      as [Hrun Hfind].
    fold r in Hrun, Hfind.
    eexists. exists (ingested now r d).
    split; [exact Hrun|]. split; [exact Hfind|].
    destruct (ingested_fields now r d) as (_ & _ & _ & _ & _ & E6).
    split; [|exact E6].
    rewrite ingested_status. apply advance_status_determined; auto.
  - intros label Hlabel. apply advance_status_determined; auto.
Qed.

(** The reading [{ bpm: 60, spo2: 97, temperature: 20 }] on the session
    started on K1. *)
Lemma enum_label_reaches_pending_approval_witness :
  let r := Scenario.cold in
  predictDisease r = "Disease B"
  /\ exists st' d',
       data_upload 2 (mkUpload r Scenario.K1) Scenario.started
       = (Json 200 (predictDisease r), st')
       /\ findById 1 st' = Some d'
       /\ Diagnosis.status d' = Diagnosis.pending_approval
       /\ Diagnosis.predictedDisease d' = predictDisease r.
Proof.
  intros r. split; [vm_compute; reflexivity|].
  refine (proj1 (@enum_label_reaches_pending_approval
                   2 (mkUpload r Scenario.K1) Scenario.started
                   (Scenario.patient_of 0 Scenario.started)
                   (Scenario.diagnosis_of 1 Scenario.started)
                   _ _ _ _ _ _ _ _ _ _));
    try (vm_compute; reflexivity).
  vm_compute. discriminate.
Defined.

(** C10 (the code at the reading of scenario A, for a patient without a
    diagnosis).  The diagnosis started on K1 has been deleted: the store is
    reachable, the patient is still the active patient of K1 and no
    diagnosis is left.  The upload of
    [{ bpm: 100, spo2: 92, temperature: 38.0 }] passes the guard and finds
    the patient; the fallback builds a fresh diagnosis, which is a valid
    document, and the reading is appended to it; the label
    "health is good", which the enum of [predictedDisease] does not hold,
    makes the document invalid, [save] rejects it, the upload is answered
    with 500 and no diagnosis is created.  The same upload of
    [{ bpm: 60, spo2: 97, temperature: 20 }], whose label is in the enum,
    creates the diagnosis with that reading. *)
Theorem fallback_diagnosis_is_not_saved :
  let r := Scenario.feverish in
  let st := Scenario.orphaned in
  let p := Scenario.patient_of 0 st in
  let d0 := Diagnosis.new 9 (nextId st) (Patient._id p) (Patient.doctorId p)
                          "K1" Diagnosis.collecting_data in
  let out := data_upload 9 (mkUpload r Scenario.K1) st in
  let ok := data_upload 9 (mkUpload Scenario.cold Scenario.K1) st in
  reachable st
  /\ JS.falsy_str Scenario.K1 = false
  /\ JS.isNaN (bpm r) = false
  /\ JS.isNaN (spo2 r) = false
  /\ JS.isNaN (temperature r) = false
  /\ findOne (active_on "K1") (patients st) = Some p
  /\ Patient.isActive p = true
  /\ diagnoses st = []
  /\ Diagnosis.validate d0 = true
  /\ Diagnosis.sensorData (ingested 9 r d0) = [stored_reading 9 r]
  /\ Diagnosis.predictedDisease (ingested 9 r d0) = "health is good"
  /\ Diagnosis.validate (ingested 9 r d0) = false
  /\ out = (Error 500 "Server error processing sensor data", st)
  /\ diagnoses (snd out) = []
  /\ fst ok = Json 200 "Disease B"
  /\ map (fun x => (Diagnosis.patientId x, Diagnosis.kioskId x,
                    Diagnosis.sensorData x))
         (diagnoses (snd ok))
     = [(Patient._id p, "K1", [stored_reading 9 Scenario.cold])].
Proof.
  cbv zeta. split; [repeat apply reachable_run; constructor|].
  by_evaluation.
Qed.

(** For the labels of the enum the fallback is stored.  When the kiosk has
    an active patient and the patient has
    no diagnosis on the kiosk in collecting_data, prediction_made or
    pending_approval, an upload whose reading passes the guard and whose
    label is in the enum of [predictedDisease] does not fail: it inserts a
    new diagnosis for that patient, the patient's doctor and the kiosk,
    created in collecting_data, with the reading as its only sensor datum
    and the label as its prediction; the status update of the upload applies
    to it, so it is stored in collecting_data for "Undetermined" and in
    pending_approval otherwise. *)
Lemma data_upload_creates_missing_diagnosis now body st p :
  let r := upload_reading body in
  let k := from_option (upload_kioskId body) in
  JS.falsy_str (upload_kioskId body) = false ->
  JS.isNaN (bpm r) = false -> JS.isNaN (spo2 r) = false ->
  JS.isNaN (temperature r) = false ->
  findOne (active_on k) (patients st) = Some p ->
  filter (ongoing (Patient._id p) k) (diagnoses st) = [] ->
  Diagnosis.in_enum (predictDisease r) = true ->
  exists d,
    data_upload now body st
    = (Json 200 (predictDisease r),
       mkStore (patients st) (diagnoses st ++ [d]) (S (nextId st)))
    /\ Diagnosis._id d = nextId st
    /\ Diagnosis.patientId d = Patient._id p
    /\ Diagnosis.doctorId d = Patient.doctorId p
    /\ Diagnosis.kioskId d = k
    /\ Diagnosis.sensorData d = [stored_reading now r]
    /\ Diagnosis.predictedDisease d = predictDisease r
    /\ Diagnosis.status d
       = (if (predictDisease r =? "Undetermined")%string
          then Diagnosis.collecting_data else Diagnosis.pending_approval).
Proof.
  intros r k Hk Hb Hs Ht Hp Hnone He.
  assert (Hd : latest (filter (ongoing (Patient._id p) k) (diagnoses st))
               = None) by (rewrite Hnone; reflexivity).
  set (d0 := Diagnosis.new now (nextId st) (Patient._id p)
                           (Patient.doctorId p) k Diagnosis.collecting_data).
  exists (ingested now r d0).
  split; [exact (@data_upload_missing now body st p Hk Hb Hs Ht Hp Hd He)|].
  destruct (ingested_fields now r d0) as (E1 & E2 & E3 & E4 & E5 & E6).
  repeat (split; [assumption|]).
  rewrite ingested_status.
  destruct (predictDisease r =? "Undetermined")%string eqn:E.
  - apply String.eqb_eq in E. rewrite E, advance_status_undetermined.
    reflexivity.
  - apply String.eqb_neq in E. apply advance_status_determined; auto.
Qed.

(** The active patient of K1 whose diagnosis was deleted, and the reading
    [{ bpm: 60, spo2: 97, temperature: 20 }]. *)
Lemma data_upload_creates_missing_diagnosis_witness :
  let r := Scenario.cold in
  let p := Scenario.patient_of 0 Scenario.orphaned in
  findOne (active_on "K1") (patients Scenario.orphaned) = Some p
  /\ filter (ongoing (Patient._id p) "K1") (diagnoses Scenario.orphaned) = []
  /\ exists d,
       data_upload 9 (mkUpload r Scenario.K1) Scenario.orphaned
       = (Json 200 (predictDisease r),
          mkStore (patients Scenario.orphaned)
                  (diagnoses Scenario.orphaned ++ [d])
                  (S (nextId Scenario.orphaned)))
       /\ Diagnosis._id d = nextId Scenario.orphaned
       /\ Diagnosis.patientId d = Patient._id p
       /\ Diagnosis.doctorId d = Patient.doctorId p
       /\ Diagnosis.kioskId d = "K1"
       /\ Diagnosis.sensorData d = [stored_reading 9 r]
       /\ Diagnosis.predictedDisease d = predictDisease r
       /\ Diagnosis.status d
          = (if (predictDisease r =? "Undetermined")%string
             then Diagnosis.collecting_data
             else Diagnosis.pending_approval).
Proof.
  intros r p.
  split; [vm_compute; reflexivity|]. split; [vm_compute; reflexivity|].
  apply (@data_upload_creates_missing_diagnosis
           9 (mkUpload r Scenario.K1) Scenario.orphaned p);
    vm_compute; reflexivity.
Defined.

(* ================================================================== *)
(** *** Review *)

Lemma Patient_updateOne_findById id l :
  findOne (fun p => Patient._id p =? id)
    (updateOne (fun p => Patient._id p =? id) (Patient.set_isActive false) l)
  = option_map (Patient.set_isActive false)
      (findOne (fun p => Patient._id p =? id) l).
Proof.
  induction l as [|a l IH]; cbn; [reflexivity|].
  destruct (Patient._id a =? id) eqn:E; cbn.
  - rewrite E. reflexivity.
  - rewrite E. exact IH.
Qed.

Lemma validate_approved now disease d :
  Diagnosis.validate d = true ->
  Diagnosis.in_enum disease = true ->
  Diagnosis.validate
    (Diagnosis.set_updatedAt now
       (Diagnosis.set_motorCommand (motorCommand_for disease)
          (Diagnosis.set_status Diagnosis.approved
             (Diagnosis.set_approvedDisease disease d))))
  = true.
Proof.
  intros Hv He.
  change (negb (Diagnosis.kioskId d =? "")%string
          && Diagnosis.in_enum (Diagnosis.predictedDisease d)
          && Diagnosis.in_enum disease = true).
  unfold Diagnosis.validate in Hv.
  apply andb_true_iff in Hv. destruct Hv as [Hv _]. rewrite Hv, He.
  reflexivity.
Qed.

(** The approval of a diagnosis that is neither approved nor dispensed. *)
Lemma diagnosis_approve_accepts now doctorId id disease st d :
  disease <> "" ->
  findOne (owned_by doctorId id) (diagnoses st) = Some d ->
  Diagnosis.status d <> Diagnosis.approved ->
  Diagnosis.status d <> Diagnosis.medication_dispensed ->
  Diagnosis.validate d = true ->
  Diagnosis.in_enum disease = true ->
  let d' := Diagnosis.set_updatedAt now
              (Diagnosis.set_motorCommand (motorCommand_for disease)
                 (Diagnosis.set_status Diagnosis.approved
                    (Diagnosis.set_approvedDisease disease d))) in
  exists st',
    diagnosis_approve now doctorId (mkApprove (Some id) (Some disease)) st
    = (Json 200 (mkApproved id (motorCommand_for disease)), st')
    /\ findById id st' = Some d'
    /\ Patient_findById (Diagnosis.patientId d) st'
       = option_map (Patient.set_isActive false)
           (Patient_findById (Diagnosis.patientId d) st).
Proof.
  intros Hne Hfind Hna Hnd Hv He d'.
  pose proof (findOne_In _ _ Hfind) as [Hin Hown].
  unfold owned_by in Hown. apply andb_true_iff in Hown.
  destruct Hown as [Hid _]. apply Nat.eqb_eq in Hid.
  unfold diagnosis_approve. cbn [approve_diagnosisId approve_approvedDisease].
  assert (Hf : JS.falsy_str (Some disease) = false).
  { cbn. apply String.eqb_neq. exact Hne. }
  rewrite Hf, Hfind. cbn [from_option].
  assert (Hg : Diagnosis.Status_eqb (Diagnosis.status d) Diagnosis.approved
               || Diagnosis.Status_eqb (Diagnosis.status d)
                                       Diagnosis.medication_dispensed
               = false).
  { apply orb_false_iff.
    split; destruct (Diagnosis.Status_eqb _ _) eqn:E; auto;
      apply Status_eqb_eq in E; contradiction. }
  rewrite Hg. unfold Diagnosis_save.
  rewrite (@validate_approved now disease d Hv He).
  eexists. split; [cbn; rewrite Hid; reflexivity|].
  split.
  - unfold findById. cbn [diagnoses]. rewrite <- Hid.
    apply (findOne_updateOne_const
             (fun x => Diagnosis._id x =? Diagnosis._id d)).
    + apply Nat.eqb_refl.
    + exists d. split; [exact Hin|apply Nat.eqb_refl].
  - unfold Patient_findById. cbn [patients Diagnosis.patientId].
    apply Patient_updateOne_findById.
Qed.

(** C6 (amended). An approval is refused with 404 when no diagnosis has the
    given id and the doctor's id, and with 400 "Diagnosis already approved
    or dispensed." when the diagnosis is approved or medication_dispensed;
    in both cases the store is left as it was.  A diagnosis of the doctor
    in any other status (collecting_data, prediction_made, pending_approval,
    declined, completed) is approved when the disease is one of the enum:
    its status becomes approved, the approved disease is recorded and the
    command is set from it; a disease outside the enum is refused by the
    validators on save, with 500 and the store left as it was. *)
Theorem diagnosis_approve_guard now doctorId id disease st :
  disease <> "" ->
  let body := mkApprove (Some id) (Some disease) in
  match findOne (owned_by doctorId id) (diagnoses st) with
  | None =>
      diagnosis_approve now doctorId body st
      = (Error 404 "Diagnosis record not found or unauthorized.", st)
  | Some d =>
      (Diagnosis.status d = Diagnosis.approved
       \/ Diagnosis.status d = Diagnosis.medication_dispensed ->
       diagnosis_approve now doctorId body st
       = (Error 400 "Diagnosis already approved or dispensed.", st))
      /\ (Diagnosis.status d <> Diagnosis.approved ->
          Diagnosis.status d <> Diagnosis.medication_dispensed ->
          Diagnosis.validate d = true ->
          Diagnosis.in_enum disease = true ->
          exists st' d',
            diagnosis_approve now doctorId body st
            = (Json 200 (mkApproved id (motorCommand_for disease)), st')
            /\ findById id st' = Some d'
            /\ Diagnosis.status d' = Diagnosis.approved
            /\ Diagnosis.approvedDisease d' = disease
            /\ Diagnosis.motorCommand d' = motorCommand_for disease)
      /\ (Diagnosis.status d <> Diagnosis.approved ->
          Diagnosis.status d <> Diagnosis.medication_dispensed ->
          Diagnosis.in_enum disease = false ->
          diagnosis_approve now doctorId body st
          = (Error 500 "Server error approving diagnosis", st))
  end.
Proof.
  intros Hne body.
  assert (Hf : JS.falsy_str (Some disease) = false).
  { cbn. apply String.eqb_neq. exact Hne. }
  destruct (findOne (owned_by doctorId id) (diagnoses st)) as [d|] eqn:Hfind.
  - split; [|split].
    + intros Hs. unfold diagnosis_approve, body.
      cbn [approve_diagnosisId approve_approvedDisease].
      rewrite Hf, Hfind.
      destruct Hs as [-> | ->]; reflexivity.
    + intros Hna Hnd Hv He.
      destruct (@diagnosis_approve_accepts now doctorId id disease st d
                  Hne Hfind Hna Hnd Hv He) as (st' & Hrun & Hd' & _).
      exists st'. eexists. split; [exact Hrun|].
      split; [exact Hd'|]. repeat split.
    + intros Hna Hnd He. unfold diagnosis_approve, body.
      cbn [approve_diagnosisId approve_approvedDisease].
      rewrite Hf, Hfind. cbn [from_option].
      assert (Hg : Diagnosis.Status_eqb (Diagnosis.status d)
                                        Diagnosis.approved
                   || Diagnosis.Status_eqb (Diagnosis.status d)
                                           Diagnosis.medication_dispensed
                   = false).
      { apply orb_false_iff.
        split; destruct (Diagnosis.Status_eqb _ _) eqn:E; auto;
          apply Status_eqb_eq in E; contradiction. }
      rewrite Hg. unfold Diagnosis_save.
      change (Diagnosis.validate
                (Diagnosis.set_updatedAt now
                   (Diagnosis.set_motorCommand (motorCommand_for disease)
                      (Diagnosis.set_status Diagnosis.approved
                         (Diagnosis.set_approvedDisease disease d)))))
        with (negb (Diagnosis.kioskId d =? "")%string
              && Diagnosis.in_enum (Diagnosis.predictedDisease d)
              && Diagnosis.in_enum disease).
      rewrite He, andb_false_r. reflexivity.
  - unfold diagnosis_approve, body.
    cbn [approve_diagnosisId approve_approvedDisease].
    rewrite Hf, Hfind. reflexivity.
Qed.

(** The session started on K1, still in collecting_data, is approved. *)
Lemma diagnosis_approve_guard_witness :
  Diagnosis.status (Scenario.diagnosis_of 1 Scenario.started)
  = Diagnosis.collecting_data
  /\ exists st' d',
       diagnosis_approve 3 Scenario.doctor
         (mkApprove (Some 1) (Some "Disease A")) Scenario.started
       = (Json 200 (mkApproved 1 (motorCommand_for "Disease A")), st')
       /\ findById 1 st' = Some d'
       /\ Diagnosis.status d' = Diagnosis.approved
       /\ Diagnosis.approvedDisease d' = "Disease A"
       /\ Diagnosis.motorCommand d' = motorCommand_for "Disease A".
Proof.
  split; [vm_compute; reflexivity|].
  assert (Hne : "Disease A" <> "") by discriminate.
  pose proof (@diagnosis_approve_guard 3 Scenario.doctor 1 "Disease A"
                Scenario.started Hne) as T.
  cbv zeta in T.
  assert (Hf : findOne (owned_by Scenario.doctor 1)
                       (diagnoses Scenario.started)
               = Some (Scenario.diagnosis_of 1 Scenario.started))
    by (vm_compute; reflexivity).
  rewrite Hf in T. destruct T as (_ & T & _).
  apply T; vm_compute; solve [reflexivity | discriminate].
Defined.

(** C6, as stated, fails: the diagnosis started on K1 is in
    collecting_data, no reading was uploaded, and the approval succeeds and
    moves it to approved. *)
Lemma approval_of_collecting_session_succeeds :
  let r := diagnosis_approve 3 Scenario.doctor
             (Scenario.approve_body 1 "Disease A") Scenario.started in
  map Diagnosis.status (diagnoses Scenario.started)
  = [Diagnosis.collecting_data]
  /\ fst r = Json 200 (mkApproved 1 "activate_motor_1")
  /\ map Diagnosis.status (diagnoses (snd r)) = [Diagnosis.approved].
Proof. cbv zeta. by_evaluation. Qed.

(** C9. For a diagnosis of the doctor in pending_approval, the approval
    with "Disease A" answers with the command "activate_motor_1" and stores
    the diagnosis with status approved, approved disease "Disease A" and
    that command; the patient of the diagnosis is stored with
    [isActive = false].  The table maps "Disease A" to "activate_motor_1",
    "Disease B" to "activate_motor_2" and every other label to "none". *)
Theorem approve_disease_A now doctorId id st d :
  findOne (owned_by doctorId id) (diagnoses st) = Some d ->
  Diagnosis.status d = Diagnosis.pending_approval ->
  Diagnosis.validate d = true ->
  (exists st' d',
     diagnosis_approve now doctorId (mkApprove (Some id) (Some "Disease A"))
                       st
     = (Json 200 (mkApproved id "activate_motor_1"), st')
     /\ findById id st' = Some d'
     /\ Diagnosis.status d' = Diagnosis.approved
     /\ Diagnosis.motorCommand d' = "activate_motor_1"
     /\ Diagnosis.approvedDisease d' = "Disease A"
     /\ Diagnosis.commandExecuted d' = Diagnosis.commandExecuted d
     /\ (forall p, Patient_findById (Diagnosis.patientId d) st = Some p ->
           exists p', Patient_findById (Diagnosis.patientId d) st' = Some p'
                      /\ Patient.isActive p' = false
                      /\ Patient.kioskId p' = Patient.kioskId p))
  /\ motorCommand_for "Disease A" = "activate_motor_1"
  /\ motorCommand_for "Disease B" = "activate_motor_2"
  /\ (forall label, label <> "Disease A" -> label <> "Disease B" ->
        motorCommand_for label = "none").
Proof.
  intros Hfind Hst Hv. split; [|split; [reflexivity|split; [reflexivity|]]].
  - assert (Hne : "Disease A" <> "") by discriminate.
    assert (Hna : Diagnosis.status d <> Diagnosis.approved)
      by (rewrite Hst; discriminate).
    assert (Hnd : Diagnosis.status d <> Diagnosis.medication_dispensed)
      by (rewrite Hst; discriminate).
    destruct (@diagnosis_approve_accepts now doctorId id "Disease A" st d
                Hne Hfind Hna Hnd Hv eq_refl) as (st' & Hrun & Hd' & Hp').
    exists st'. eexists. split; [exact Hrun|]. split; [exact Hd'|].
    repeat (split; [reflexivity|]).
    intros p Hp. rewrite Hp in Hp'. cbn in Hp'.
    eexists. split; [exact Hp'|]. split; reflexivity.
  - intros label HA HB. unfold motorCommand_for.
    apply String.eqb_neq in HA, HB. rewrite HA, HB. reflexivity.
Qed.

(** The session of K1 in pending_approval after the reading classified as
    Disease B, approved as Disease A. *)
Lemma approve_disease_A_witness :
  let d := Scenario.diagnosis_of 1 Scenario.predicted in
  Diagnosis.status d = Diagnosis.pending_approval
  /\ exists st' d',
       diagnosis_approve 3 Scenario.doctor
         (mkApprove (Some 1) (Some "Disease A")) Scenario.predicted
       = (Json 200 (mkApproved 1 "activate_motor_1"), st')
       /\ findById 1 st' = Some d'
       /\ Diagnosis.status d' = Diagnosis.approved
       /\ Diagnosis.motorCommand d' = "activate_motor_1"
       /\ Diagnosis.approvedDisease d' = "Disease A"
       /\ Diagnosis.commandExecuted d' = Diagnosis.commandExecuted d
       /\ (forall p, Patient_findById (Diagnosis.patientId d)
                                      Scenario.predicted = Some p ->
             exists p', Patient_findById (Diagnosis.patientId d) st'
                        = Some p'
                        /\ Patient.isActive p' = false
                        /\ Patient.kioskId p' = Patient.kioskId p).
Proof.
  intros d. split; [vm_compute; reflexivity|].
  refine (proj1 (@approve_disease_A 3 Scenario.doctor 1 Scenario.predicted d
                   _ _ _));
    vm_compute; reflexivity.
Defined.

(* ================================================================== *)
(** ** Further properties *)

(** *** A rule for the properties of the stored diagnoses *)

Lemma validate_ingested_enum now r d :
  Diagnosis.validate (ingested now r d) = true ->
  Diagnosis.in_enum (predictDisease r) = true.
Proof.
  unfold ingested.
  change (Diagnosis.validate
            (advance_status (predictDisease r)
               (Diagnosis.set_predictedDisease (predictDisease r)
                  (Diagnosis.push_sensorData now r d))) = true ->
          Diagnosis.in_enum (predictDisease r) = true).
  rewrite validate_advance_status.
  change (negb (Diagnosis.kioskId d =? "")%string
          && Diagnosis.in_enum (predictDisease r)
          && Diagnosis.in_enum (Diagnosis.approvedDisease d) = true ->
          Diagnosis.in_enum (predictDisease r) = true).
  intros H. apply andb_true_iff in H. destruct H as [H _].
  apply andb_true_iff in H. tauto.
Qed.

Lemma validate_approved_enum now disease d :
  Diagnosis.validate (approved_by now disease d) = true ->
  Diagnosis.in_enum disease = true.
Proof.
  change (negb (Diagnosis.kioskId d =? "")%string
          && Diagnosis.in_enum (Diagnosis.predictedDisease d)
          && Diagnosis.in_enum disease = true ->
          Diagnosis.in_enum disease = true).
  intros H. apply andb_true_iff in H. tauto.
Qed.

(** A property of diagnoses that holds of a new diagnosis and is kept by
    the four changes the handlers make (cleanup, ingestion, approval,
    acknowledgement) is kept by every request. *)
Lemma handle_Forall_diagnoses (P : Diagnosis.t -> Prop) :
  (forall now id patient doctor kiosk,
      P (Diagnosis.new now id patient doctor kiosk Diagnosis.collecting_data)) ->
  (forall d, P d -> Diagnosis.in_progress (Diagnosis.status d) = true ->
             P (Diagnosis.set_status Diagnosis.completed d)) ->
  (forall now r d, P d ->
      Diagnosis.in_progress (Diagnosis.status d) = true ->
      Diagnosis.in_enum (predictDisease r) = true ->
      P (ingested now r d)) ->
  (forall now disease d, P d ->
      decided (Diagnosis.status d) = false ->
      Diagnosis.in_enum disease = true ->
      P (approved_by now disease d)) ->
  (forall now d, P d ->
      Diagnosis.status d = Diagnosis.approved ->
      Diagnosis.commandExecuted d = false ->
      Diagnosis.motorCommand d <> "none" ->
      P (dispensed_at now d)) ->
  forall r st, Forall P (diagnoses st) -> Forall P (diagnoses (handle r st)).
Proof.
  intros Hnew Hclean Hing Happ Hdis r st Hall.
  destruct r; cbn; [| | | exact Hall | |].
  - unfold patient_start. destruct (_ || _); [exact Hall|].
    assert (Hc : Forall P (updateMany
                             (hanging_on (from_option (start_kioskId body)))
                             (Diagnosis.set_status Diagnosis.completed)
                             (diagnoses st))).
    { apply Forall_updateMany; [exact Hall|]. intros d Hd Hh.
      apply Hclean; [exact Hd|]. unfold hanging_on in Hh.
      apply andb_true_iff in Hh. tauto. }
    unfold Patient_save. cbn. destruct (Patient.validate _); [|exact Hc].
    cbn. destruct (Diagnosis_save _ _ _ _) as [st'|] eqn:Hsave; [|exact Hc].
    cbn. eapply Diagnosis_save_Forall; [exact Hsave|exact Hc|]. apply Hnew.
  - unfold data_upload. destruct (_ || _); [exact Hall|].
    destruct (findOne _ _) as [p|]; [|exact Hall].
    destruct (Diagnosis_save _ _ _ _) as [st'|] eqn:Hsave; [|exact Hall].
    cbn. eapply Diagnosis_save_Forall; [exact Hsave|exact Hall|].
    pose proof (Diagnosis_save_validated _ _ _ _ Hsave) as Hv.
    match type of Hv with
    | Diagnosis.validate (Diagnosis.set_updatedAt ?n
        (advance_status _ (Diagnosis.set_predictedDisease _
           (Diagnosis.push_sensorData _ ?r ?d0)))) = true =>
        change (Diagnosis.validate (ingested n r d0) = true) in Hv;
        change (P (ingested n r d0));
        apply validate_ingested_enum in Hv
    end.
    apply Hing; [| |exact Hv].
    + destruct (latest _) as [d|] eqn:Hl; [|apply Hnew].
      apply latest_filter_In in Hl. rewrite Forall_forall in Hall.
      apply Hall. tauto.
    + destruct (latest _) as [d|] eqn:Hl; [|reflexivity].
      apply latest_filter_In in Hl. destruct Hl as [_ Hon].
      unfold ongoing in Hon. apply andb_true_iff in Hon. tauto.
  - unfold diagnosis_approve.
    destruct (approve_diagnosisId body) as [id|]; [|exact Hall].
    destruct (JS.falsy_str _); [exact Hall|].
    destruct (findOne _ _) as [d|] eqn:Hfind; [|exact Hall].
    destruct (_ || _) eqn:Hst; [exact Hall|].
    destruct (Diagnosis_save _ _ _ _) as [st'|] eqn:Hsave; [|exact Hall].
    cbn. eapply Diagnosis_save_Forall; [exact Hsave|exact Hall|].
    pose proof (Diagnosis_save_validated _ _ _ _ Hsave) as Hv.
    apply (Happ now (from_option (approve_approvedDisease body)) d).
    + apply findOne_In in Hfind. rewrite Forall_forall in Hall.
      apply Hall. tauto.
    + destruct (Diagnosis.status d); cbn in *; congruence.
    + exact (validate_approved_enum _ _ _ Hv).
  - unfold command_executed. destruct (_ || _); [exact Hall|].
    destruct (pending_command _ _) as [d|] eqn:Hp; [|exact Hall].
    destruct (Diagnosis_save _ _ _ _) as [st'|] eqn:Hsave; [|exact Hall].
    cbn. eapply Diagnosis_save_Forall; [exact Hsave|exact Hall|].
    apply pending_command_In in Hp.
    destruct Hp as (Hin & _ & He & Hs & Hm).
    rewrite Forall_forall in Hall. apply (Hdis now d); auto.
  - apply history_delete_Forall. exact Hall.
Qed.

(** *** Statuses and commands in reachable stores *)

Lemma reachable_Forall (P : Diagnosis.t -> Prop) :
  (forall r st, Forall P (diagnoses st) ->
                Forall P (diagnoses (handle r st))) ->
  forall st, reachable st -> Forall P (diagnoses st).
Proof.
  intros Hstep st Hr. induction Hr as [|st r _ IH]; [constructor|].
  apply Hstep, IH.
Qed.

Lemma ingested_untouched now r d :
  Diagnosis.motorCommand (ingested now r d) = Diagnosis.motorCommand d
  /\ Diagnosis.approvedDisease (ingested now r d)
     = Diagnosis.approvedDisease d
  /\ Diagnosis.commandExecuted (ingested now r d)
     = Diagnosis.commandExecuted d
  /\ Diagnosis.createdAt (ingested now r d) = Diagnosis.createdAt d.
Proof.
  unfold ingested, advance_status. cbn.
  repeat match goal with |- context [if ?b then _ else _] =>
    destruct b end; cbn; repeat split; reflexivity.
Qed.

Lemma ingested_in_progress now r d :
  Diagnosis.in_progress (Diagnosis.status d) = true ->
  Diagnosis.in_progress (Diagnosis.status (ingested now r d)) = true.
Proof.
  intros H. rewrite ingested_status. apply advance_status_in_progress.
  exact H.
Qed.

Lemma in_progress_not_decided s :
  Diagnosis.in_progress s = true -> decided s = false.
Proof. destruct s; cbn; congruence. Qed.

Lemma ingested_stored_status now r d :
  Diagnosis.in_progress (Diagnosis.status d) = true ->
  stored_status (Diagnosis.status d) = true ->
  stored_status (Diagnosis.status (ingested now r d)) = true.
Proof.
  rewrite ingested_status. unfold advance_status.
  destruct (negb (predictDisease r =? "Undetermined")%string);
    rewrite ?andb_true_r, ?andb_false_r;
    destruct (Diagnosis.status d) eqn:E; cbn; rewrite ?E; cbn; rewrite ?E;
    cbn; congruence.
Qed.

Lemma motorCommand_for_cases disease :
  motorCommand_for disease <> "none" ->
  (disease = "Disease A" /\ motorCommand_for disease = "activate_motor_1")
  \/ (disease = "Disease B" /\ motorCommand_for disease = "activate_motor_2").
Proof.
  unfold motorCommand_for.
  destruct (disease =? "Disease A")%string eqn:EA.
  - apply String.eqb_eq in EA. auto.
  - destruct (disease =? "Disease B")%string eqn:EB.
    + apply String.eqb_eq in EB. auto.
    + intros H. elim H. reflexivity.
Qed.

Lemma handle_stored_status r st :
  Forall (fun d => stored_status (Diagnosis.status d) = true) (diagnoses st) ->
  Forall (fun d => stored_status (Diagnosis.status d) = true)
         (diagnoses (handle r st)).
Proof.
  apply handle_Forall_diagnoses; try reflexivity.
  intros now r' d Hd Hp _. apply ingested_stored_status; assumption.
Qed.

Lemma handle_command_consistent r st :
  Forall command_consistent (diagnoses st) ->
  Forall command_consistent (diagnoses (handle r st)).
Proof.
  apply handle_Forall_diagnoses; unfold command_consistent.
  - intros. cbn. auto.
  - intros d Hd Hp. rewrite (in_progress_not_decided _ Hp) in Hd. exact Hd.
  - intros now r' d Hd Hp _.
    rewrite (in_progress_not_decided _ Hp) in Hd.
    rewrite (in_progress_not_decided _ (ingested_in_progress now r' d Hp)).
    destruct (ingested_untouched now r' d) as (-> & -> & _). exact Hd.
  - intros now disease d _ _ _. cbn. split; [reflexivity|discriminate].
  - intros now d Hd Hs _ Hm. rewrite Hs in Hd. cbn in Hd. cbn.
    split; [tauto|]. intros _. exact Hm.
Qed.

(** X1. In a store reached from the empty one, no diagnosis is stored with
    the status prediction_made or declined: an upload that sets
    prediction_made goes on to pending_approval before it saves, and no
    handler sets declined. *)
Theorem reachable_status_never_transient st d :
  reachable st -> In d (diagnoses st) ->
  Diagnosis.status d <> Diagnosis.prediction_made
  /\ Diagnosis.status d <> Diagnosis.declined.
Proof.
  intros Hr Hin.
  pose proof (reachable_Forall handle_stored_status Hr) as H.
  rewrite Forall_forall in H. specialize (H d Hin).
  destruct (Diagnosis.status d); cbn in H; split; congruence.
Qed.

Lemma reachable_status_never_transient_witness :
  let d := Scenario.diagnosis_of 1 Scenario.predicted in
  reachable Scenario.predicted
  /\ In d (diagnoses Scenario.predicted)
  /\ Diagnosis.status d <> Diagnosis.prediction_made
  /\ Diagnosis.status d <> Diagnosis.declined.
Proof.
  intros d.
  assert (Hr : reachable Scenario.predicted)
    by (repeat apply reachable_run; constructor).
  assert (Hin : In d (diagnoses Scenario.predicted))
    by (vm_compute; left; reflexivity).
  split; [exact Hr|]. split; [exact Hin|].
  exact (@reachable_status_never_transient _ d Hr Hin).
Defined.

(** X2. In a store reached from the empty one, a diagnosis that is neither
    approved nor dispensed has the command "none" and the approved disease
    "N/A"; an approved or dispensed one has the command of its approved
    disease; and a dispensed one was approved as "Disease A" with
    "activate_motor_1" or as "Disease B" with "activate_motor_2". *)
Theorem reachable_command_consistent st d :
  reachable st -> In d (diagnoses st) ->
  (decided (Diagnosis.status d) = false ->
   Diagnosis.motorCommand d = "none" /\ Diagnosis.approvedDisease d = "N/A")
  /\ (decided (Diagnosis.status d) = true ->
      Diagnosis.motorCommand d
      = motorCommand_for (Diagnosis.approvedDisease d))
  /\ (Diagnosis.status d = Diagnosis.medication_dispensed ->
      (Diagnosis.approvedDisease d = "Disease A"
       /\ Diagnosis.motorCommand d = "activate_motor_1")
      \/ (Diagnosis.approvedDisease d = "Disease B"
          /\ Diagnosis.motorCommand d = "activate_motor_2")).
Proof.
  intros Hr Hin.
  pose proof (reachable_Forall handle_command_consistent Hr) as H.
  rewrite Forall_forall in H. specialize (H d Hin).
  unfold command_consistent in H.
  destruct (decided (Diagnosis.status d)) eqn:E.
  - split; [discriminate|]. split; [tauto|].
    intros Hs. destruct H as [Hc Hn]. specialize (Hn Hs).
    rewrite Hc in Hn |- *. apply motorCommand_for_cases. exact Hn.
  - split; [tauto|]. split; [discriminate|].
    intros Hs. rewrite Hs in E. discriminate.
Qed.

Lemma reachable_command_consistent_witness :
  let d := Scenario.diagnosis_of 1 Scenario.dispensed in
  reachable Scenario.dispensed
  /\ In d (diagnoses Scenario.dispensed)
  /\ Diagnosis.status d = Diagnosis.medication_dispensed
  /\ ((Diagnosis.approvedDisease d = "Disease A"
       /\ Diagnosis.motorCommand d = "activate_motor_1")
      \/ (Diagnosis.approvedDisease d = "Disease B"
          /\ Diagnosis.motorCommand d = "activate_motor_2")).
Proof.
  intros d.
  assert (Hr : reachable Scenario.dispensed)
    by (repeat apply reachable_run; constructor).
  assert (Hin : In d (diagnoses Scenario.dispensed))
    by (vm_compute; left; reflexivity).
  assert (Hs : Diagnosis.status d = Diagnosis.medication_dispensed)
    by (vm_compute; reflexivity).
  split; [exact Hr|]. split; [exact Hin|]. split; [exact Hs|].
  exact (proj2 (proj2 (@reachable_command_consistent _ d Hr Hin)) Hs).
Defined.

(** *** Uploads *)

Lemma predictDisease_below_25 r :
  JS.ge (temperature r) 25 = false ->
  predictDisease r = "Undetermined" \/ predictDisease r = "Disease B".
Proof.
  intros H. pose proof (predictDisease_never_A r) as HA.
  unfold predictDisease in *. rewrite H in *.
  repeat match goal with |- context [if ?b then _ else _] =>
    destruct b end; auto. elim HA. reflexivity.
Qed.

Lemma predictDisease_from_25 r :
  JS.ge (temperature r) 25 = true -> predictDisease r = "health is good".
Proof. intros H. unfold predictDisease. rewrite H. reflexivity. Qed.

(** X3. An upload that passes the guard, for a kiosk with an active
    patient, in a store of valid diagnoses: when the temperature is 25 or
    more it is answered 500 "Server error processing sensor data" and the
    store is left as it was; otherwise it is answered 200 with the label
    "Undetermined" or "Disease B". *)
Theorem data_upload_by_temperature now body st p :
  let r := upload_reading body in
  let k := from_option (upload_kioskId body) in
  JS.falsy_str (upload_kioskId body) = false ->
  JS.isNaN (bpm r) = false -> JS.isNaN (spo2 r) = false ->
  JS.isNaN (temperature r) = false ->
  findOne (active_on k) (patients st) = Some p ->
  stored_valid st ->
  if JS.ge (temperature r) 25
  then data_upload now body st
       = (Error 500 "Server error processing sensor data", st)
  else exists st',
         data_upload now body st = (Json 200 (predictDisease r), st')
         /\ (predictDisease r = "Undetermined"
             \/ predictDisease r = "Disease B").
Proof.
  intros r k Hk Hb Hs Ht Hp Hvalid.
  destruct (JS.ge (temperature r) 25) eqn:E.
  - unfold data_upload. rewrite (upload_guard body Hk Hb Hs Ht).
    fold k. rewrite Hp. fold r. unfold Diagnosis_save.
    match goal with
    | |- context [Diagnosis.validate (Diagnosis.set_updatedAt ?n
           (advance_status _ (Diagnosis.set_predictedDisease _
              (Diagnosis.push_sensorData _ ?r0 ?d0))))] =>
        change (Diagnosis.validate (Diagnosis.set_updatedAt n
           (advance_status (predictDisease r0)
              (Diagnosis.set_predictedDisease (predictDisease r0)
                 (Diagnosis.push_sensorData n r0 d0)))))
          with (Diagnosis.validate (ingested n r0 d0));
        destruct (Diagnosis.validate (ingested n r0 d0)) eqn:Hv;
        [apply validate_ingested_enum in Hv|reflexivity]
    end.
    rewrite (predictDisease_from_25 r E) in Hv. discriminate.
  - pose proof (predictDisease_below_25 r E) as Hl.
    assert (He : Diagnosis.in_enum (predictDisease r) = true)
      by (destruct Hl as [-> | ->]; reflexivity).
    destruct (latest (filter (ongoing (Patient._id p) k) (diagnoses st)))
      as [d|] eqn:Hd.
    + assert (Hv : Diagnosis.validate d = true).
      { unfold stored_valid in Hvalid. rewrite Forall_forall in Hvalid.
        apply Hvalid. apply latest_filter_In in Hd. tauto. }
      destruct (@data_upload_ongoing now body st p d Hk Hb Hs Ht Hp Hd Hv He)
        as [Hrun _].
      eexists. split; [exact Hrun|exact Hl].
    + eexists. split; [|exact Hl].
      exact (@data_upload_missing now body st p Hk Hb Hs Ht Hp Hd He).
Qed.

Lemma data_upload_by_temperature_witness :
  data_upload 2 (mkUpload Scenario.feverish Scenario.K1) Scenario.started
  = (Error 500 "Server error processing sensor data", Scenario.started)
  /\ exists st',
       data_upload 2 (mkUpload Scenario.cold Scenario.K1) Scenario.started
       = (Json 200 (predictDisease Scenario.cold), st')
       /\ (predictDisease Scenario.cold = "Undetermined"
           \/ predictDisease Scenario.cold = "Disease B").
Proof.
  assert (Hv : stored_valid Scenario.started).
  { unfold stored_valid. vm_compute. repeat constructor. }
  split.
  - refine (@data_upload_by_temperature 2
              (mkUpload Scenario.feverish Scenario.K1) Scenario.started
              (Scenario.patient_of 0 Scenario.started) _ _ _ _ _ Hv);
      vm_compute; reflexivity.
  - refine (@data_upload_by_temperature 2
              (mkUpload Scenario.cold Scenario.K1) Scenario.started
              (Scenario.patient_of 0 Scenario.started) _ _ _ _ _ Hv);
      vm_compute; reflexivity.
Defined.

(** *** Documents with distinct ids *)

Lemma unique_ids_eq l a b :
  NoDup (map Diagnosis._id l) -> In a l -> In b l ->
  Diagnosis._id a = Diagnosis._id b -> a = b.
Proof.
  induction l as [|x l IH]; cbn; [contradiction|].
  intros Hnd Ha Hb E. inversion Hnd as [|? ? Hnotin Hnd']; subst.
  destruct Ha as [->|Ha], Hb as [->|Hb]; auto.
  - elim Hnotin. rewrite E. apply in_map. exact Hb.
  - elim Hnotin. rewrite <- E. apply in_map. exact Ha.
Qed.

Lemma In_updateOne_other (A : Type) (f : A -> bool) g l e :
  In e l -> f e = false -> In e (updateOne f g l).
Proof.
  induction l as [|a l IH]; cbn; [contradiction|].
  intros [->|Hin] He.
  - rewrite He. left. reflexivity.
  - destruct (f a); [right; exact Hin|]. right. auto.
Qed.

Lemma In_updateMany_other (A : Type) (f : A -> bool) g l e :
  In e l -> f e = false -> In e (updateMany f g l).
Proof.
  intros Hin He. unfold updateMany. apply in_map_iff. exists e.
  rewrite He. auto.
Qed.

Lemma In_findOneAndDelete_other (A : Type) (f : A -> bool) l e :
  In e l -> f e = false -> In e (snd (findOneAndDelete f l)).
Proof.
  induction l as [|a l IH]; cbn; [contradiction|].
  intros [->|Hin] He.
  - rewrite He. destruct (findOneAndDelete f l). left. reflexivity.
  - destruct (f a); [exact Hin|].
    specialize (IH Hin He). destruct (findOneAndDelete f l). right. exact IH.
Qed.

(** Writing back a document under its id leaves a filter's result as it
    was when neither the old nor the new document passes the filter. *)
Lemma filter_updateOne_unaffected (f : Diagnosis.t -> bool) l d d' :
  NoDup (map Diagnosis._id l) -> In d l ->
  f d = false -> f d' = false ->
  filter f (updateOne (fun x => Diagnosis._id x =? Diagnosis._id d)
                      (fun _ => d') l)
  = filter f l.
Proof.
  intros Hnd Hin Hd Hd'. induction l as [|a l IH]; cbn; [reflexivity|].
  destruct (Diagnosis._id a =? Diagnosis._id d) eqn:E.
  - apply Nat.eqb_eq in E.
    assert (a = d)
      by (apply (unique_ids_eq (a :: l)); auto; left; reflexivity).
    subst a. cbn. rewrite Hd, Hd'. reflexivity.
  - cbn. inversion Hnd; subst. destruct Hin as [->|Hin].
    + rewrite Nat.eqb_refl in E. discriminate.
    + rewrite IH; auto.
Qed.

Lemma filter_updateMany_unaffected (A : Type) (f c : A -> bool) g l :
  (forall x, c x = true -> f x = false /\ f (g x) = false) ->
  filter f (updateMany c g l) = filter f l.
Proof.
  intros H. unfold updateMany.
  induction l as [|a l IH]; cbn; [reflexivity|].
  destruct (c a) eqn:E.
  - destruct (H a E) as [-> ->]. exact IH.
  - rewrite IH. reflexivity.
Qed.

Lemma in_progress_not_awaiting k d :
  Diagnosis.in_progress (Diagnosis.status d) = true ->
  awaiting_execution k d = false.
Proof.
  intros H. unfold awaiting_execution.
  destruct (Diagnosis.status d); cbn in *; try discriminate;
    rewrite ?andb_false_r; reflexivity.
Qed.

(** The diagnoses that await execution after a start and after an upload
    are those that awaited it before. *)
Lemma patient_start_awaiting k now doctorId body st :
  filter (awaiting_execution k)
         (diagnoses (snd (patient_start now doctorId body st)))
  = filter (awaiting_execution k) (diagnoses st).
Proof.
  unfold patient_start. destruct (_ || _); [reflexivity|].
  assert (Hc : filter (awaiting_execution k)
                 (updateMany (hanging_on (from_option (start_kioskId body)))
                    (Diagnosis.set_status Diagnosis.completed) (diagnoses st))
               = filter (awaiting_execution k) (diagnoses st)).
  { apply filter_updateMany_unaffected. intros x Hx.
    unfold hanging_on in Hx. apply andb_true_iff in Hx. destruct Hx as [_ Hx].
    split; [apply in_progress_not_awaiting; exact Hx|].
    unfold awaiting_execution. cbn. rewrite andb_false_r. reflexivity. }
  unfold updateMany in Hc.
  unfold Patient_save. cbn. destruct (Patient.validate _); [|exact Hc].
  cbn. unfold Diagnosis_save. cbn. destruct (Diagnosis.validate _);
    [|exact Hc].
  cbn. rewrite filter_app, Hc. cbn.
  unfold awaiting_execution. cbn. rewrite !andb_false_r. cbn.
  apply app_nil_r.
Qed.

Lemma data_upload_awaiting k now body st :
  unique_ids st ->
  filter (awaiting_execution k) (diagnoses (snd (data_upload now body st)))
  = filter (awaiting_execution k) (diagnoses st).
Proof.
  intros Hu. unfold data_upload. destruct (_ || _); [reflexivity|].
  destruct (findOne _ _) as [p|]; [|reflexivity].
  unfold Diagnosis_save.
  match goal with
  | |- context [Diagnosis.validate (Diagnosis.set_updatedAt ?n
         (advance_status _ (Diagnosis.set_predictedDisease _
            (Diagnosis.push_sensorData _ ?r0 ?d0))))] =>
      change (Diagnosis.set_updatedAt n
                (advance_status (predictDisease r0)
                   (Diagnosis.set_predictedDisease (predictDisease r0)
                      (Diagnosis.push_sensorData n r0 d0))))
        with (ingested n r0 d0);
      destruct (Diagnosis.validate (ingested n r0 d0)); [|reflexivity]
  end.
  destruct (latest _) as [d|] eqn:Hl; cbn.
  - apply latest_filter_In in Hl. destruct Hl as [Hin Hon].
    unfold ongoing in Hon. apply andb_true_iff in Hon. destruct Hon as [_ Hp].
    destruct (ingested_fields now (upload_reading body) d) as (Hid & _).
    unfold ingested in Hid. cbn in Hid.
    rewrite Hid. apply filter_updateOne_unaffected; auto.
    + apply in_progress_not_awaiting. exact Hp.
    + apply in_progress_not_awaiting. apply ingested_in_progress. exact Hp.
  - rewrite filter_app. cbn.
    rewrite in_progress_not_awaiting;
      [apply app_nil_r|apply ingested_in_progress; reflexivity].
Qed.

(** X4. A command that is pending for a kiosk stays pending when a new
    session is started, on that kiosk or another, and when readings are
    uploaded: the pending query gives the same diagnosis after a start
    (whether it succeeds or fails) and, in a store of distinct ids, after an
    upload. *)
Theorem pending_command_survives k now doctorId start_body upload_body st :
  unique_ids st ->
  pending_command k (snd (patient_start now doctorId start_body st))
  = pending_command k st
  /\ pending_command k (snd (data_upload now upload_body st))
     = pending_command k st.
Proof.
  intros Hu. unfold pending_command.
  rewrite patient_start_awaiting, (data_upload_awaiting k now upload_body Hu).
  split; reflexivity.
Qed.

Lemma pending_command_survives_witness :
  unique_ids Scenario.approved_A
  /\ pending_command "K1"
       (snd (patient_start 5 Scenario.doctor Scenario.start_body
                           Scenario.approved_A))
     = pending_command "K1" Scenario.approved_A
  /\ pending_command "K1"
       (snd (data_upload 5 (mkUpload Scenario.cold Scenario.K1)
                         Scenario.approved_A))
     = pending_command "K1" Scenario.approved_A.
Proof.
  assert (Hu : unique_ids Scenario.approved_A).
  { unfold unique_ids. vm_compute. repeat constructor. intros []. }
  split; [exact Hu|].
  exact (@pending_command_survives "K1" 5 Scenario.doctor
           Scenario.start_body (mkUpload Scenario.cold Scenario.K1)
           Scenario.approved_A Hu).
Defined.

(** *** The shape of the store after a request *)

Lemma data_upload_shape now body st :
  let st' := snd (data_upload now body st) in
  patients st' = patients st
  /\ (diagnoses st' = diagnoses st
      \/ (exists d,
            In d (diagnoses st)
            /\ Diagnosis.in_progress (Diagnosis.status d) = true
            /\ diagnoses st'
               = updateOne (fun x => Diagnosis._id x =? Diagnosis._id d)
                   (fun _ => ingested now (upload_reading body) d)
                   (diagnoses st))
      \/ (exists d,
            Diagnosis.in_progress (Diagnosis.status d) = true
            /\ diagnoses st' = diagnoses st ++ [d])).
Proof.
  cbv zeta. unfold data_upload. destruct (_ || _); [auto|].
  destruct (findOne _ _) as [p|]; [|auto].
  unfold Diagnosis_save.
  match goal with
  | |- context [Diagnosis.validate (Diagnosis.set_updatedAt ?n
         (advance_status _ (Diagnosis.set_predictedDisease _
            (Diagnosis.push_sensorData _ ?r0 ?d0))))] =>
      change (Diagnosis.set_updatedAt n
                (advance_status (predictDisease r0)
                   (Diagnosis.set_predictedDisease (predictDisease r0)
                      (Diagnosis.push_sensorData n r0 d0))))
        with (ingested n r0 d0);
      destruct (Diagnosis.validate (ingested n r0 d0)); [|auto]
  end.
  destruct (latest _) as [d|] eqn:Hl; cbn [snd fst patients diagnoses].
  - split; [reflexivity|]. right. left. exists d.
    apply latest_filter_In in Hl. destruct Hl as [Hin Hon].
    unfold ongoing in Hon. apply andb_true_iff in Hon. destruct Hon as [_ Hp].
    destruct (ingested_fields now (upload_reading body) d) as (Hid & _).
    rewrite Hid. auto.
  - split; [reflexivity|]. right. right. eexists. split; [|reflexivity].
    apply ingested_in_progress. reflexivity.
Qed.

Lemma diagnosis_approve_shape now doctorId body st :
  let st' := snd (diagnosis_approve now doctorId body st) in
  diagnoses st' = diagnoses st
  \/ (exists d disease,
        In d (diagnoses st)
        /\ decided (Diagnosis.status d) = false
        /\ diagnoses st'
           = updateOne (fun x => Diagnosis._id x =? Diagnosis._id d)
               (fun _ => approved_by now disease d) (diagnoses st)).
Proof.
  cbv zeta. unfold diagnosis_approve.
  destruct (approve_diagnosisId body) as [id|]; [|auto].
  destruct (JS.falsy_str _); [auto|].
  destruct (findOne _ _) as [d|] eqn:Hfind; [|auto].
  destruct (_ || _) eqn:Hst; [auto|].
  unfold Diagnosis_save.
  destruct (Diagnosis.validate _); [|auto].
  right. exists d, (from_option (approve_approvedDisease body)).
  apply findOne_In in Hfind. destruct Hfind as [Hin _].
  split; [exact Hin|]. split; [|reflexivity].
  destruct (Diagnosis.status d); cbn in *; congruence.
Qed.

Lemma command_executed_shape now body st :
  let st' := snd (command_executed now body st) in
  diagnoses st' = diagnoses st
  \/ (exists d,
        In d (diagnoses st)
        /\ Diagnosis.status d = Diagnosis.approved
        /\ diagnoses st'
           = updateOne (fun x => Diagnosis._id x =? Diagnosis._id d)
               (fun _ => dispensed_at now d) (diagnoses st)).
Proof.
  cbv zeta. unfold command_executed. destruct (_ || _); [auto|].
  destruct (pending_command _ _) as [d|] eqn:Hp; [|auto].
  unfold Diagnosis_save. destruct (Diagnosis.validate _); [|auto].
  right. exists d. apply pending_command_In in Hp.
  destruct Hp as (Hin & _ & _ & Hs & _). auto.
Qed.

Lemma patient_start_shape now doctorId body st :
  let st' := snd (patient_start now doctorId body st) in
  let k := from_option (start_kioskId body) in
  diagnoses st' = diagnoses st
  \/ (exists tail,
        diagnoses st'
        = updateMany (hanging_on k) (Diagnosis.set_status Diagnosis.completed)
                     (diagnoses st) ++ tail
        /\ Forall (fun d => Diagnosis.status d = Diagnosis.collecting_data)
                  tail).
Proof.
  cbv zeta. unfold patient_start. destruct (_ || _); [auto|].
  right. unfold Patient_save. cbn [patients diagnoses nextId].
  destruct (Patient.validate _).
  - unfold Diagnosis_save. destruct (Diagnosis.validate _).
    + eexists. cbn [snd diagnoses]. split; [reflexivity|].
      repeat constructor.
    + exists []. cbn [snd diagnoses]. rewrite app_nil_r. auto.
  - exists []. cbn [snd diagnoses]. rewrite app_nil_r. auto.
Qed.

Lemma updateOne_keeps_other l d d' e :
  NoDup (map Diagnosis._id l) -> In d l -> In e l -> e <> d ->
  In e (updateOne (fun x => Diagnosis._id x =? Diagnosis._id d)
                  (fun _ => d') l).
Proof.
  intros Hnd Hd He Hne. apply In_updateOne_other; [exact He|].
  apply Nat.eqb_neq. intros E. apply Hne.
  apply (unique_ids_eq l); assumption.
Qed.

(** X5. A dispensed diagnosis is final: in a store of distinct ids, every
    request leaves a diagnosis whose status is medication_dispensed in the
    store exactly as it is, except the deletion of that diagnosis by its
    doctor. *)
Theorem dispensed_is_final st d r :
  unique_ids st -> In d (diagnoses st) ->
  Diagnosis.status d = Diagnosis.medication_dispensed ->
  In d (diagnoses (handle r st))
  \/ r = DeleteHistory (Diagnosis.doctorId d) (Diagnosis._id d).
Proof.
  intros Hu Hin Hs. destruct r; cbn [handle]; auto.
  - left. destruct (patient_start_shape now doctorId body st)
      as [-> | (tail & -> & _)]; [exact Hin|].
    apply in_or_app. left. apply In_updateMany_other; [exact Hin|].
    unfold hanging_on. rewrite Hs. apply andb_false_r.
  - left. destruct (data_upload_shape now body st)
      as (_ & [-> | [(d0 & Hin0 & Hp & ->) | (d0 & _ & ->)]]);
      [exact Hin| |apply in_or_app; auto].
    apply updateOne_keeps_other; auto. intros ->. rewrite Hs in Hp.
    discriminate.
  - left. destruct (diagnosis_approve_shape now doctorId body st)
      as [-> | (d0 & disease & Hin0 & Hd & ->)]; [exact Hin|].
    apply updateOne_keeps_other; auto. intros ->. rewrite Hs in Hd.
    discriminate.
  - left. destruct (command_executed_shape now body st)
      as [-> | (d0 & Hin0 & Hs0 & ->)]; [exact Hin|].
    apply updateOne_keeps_other; auto. intros ->. congruence.
  - destruct (owned_by doctorId id d) eqn:E.
    + right. unfold owned_by in E. apply andb_true_iff in E.
      destruct E as [E1 E2]. apply Nat.eqb_eq in E1, E2. subst.
      reflexivity.
    + left. unfold history_delete.
      pose proof (In_findOneAndDelete_other (owned_by doctorId id)
                    (diagnoses st) d Hin E) as H.
      destruct (findOneAndDelete _ _) as [[x|] l]; cbn in *; auto.
Qed.

Lemma dispensed_is_final_witness :
  let d := Scenario.diagnosis_of 1 Scenario.dispensed in
  unique_ids Scenario.dispensed
  /\ In d (diagnoses Scenario.dispensed)
  /\ Diagnosis.status d = Diagnosis.medication_dispensed
  /\ (In d (diagnoses (handle (Scenario.start 9) Scenario.dispensed))
      \/ Scenario.start 9
         = DeleteHistory (Diagnosis.doctorId d) (Diagnosis._id d)).
Proof.
  intros d.
  assert (Hu : unique_ids Scenario.dispensed).
  { unfold unique_ids. vm_compute. repeat constructor. intros []. }
  assert (Hin : In d (diagnoses Scenario.dispensed))
    by (vm_compute; left; reflexivity).
  assert (Hs : Diagnosis.status d = Diagnosis.medication_dispensed)
    by (vm_compute; reflexivity).
  split; [exact Hu|]. split; [exact Hin|]. split; [exact Hs|].
  exact (@dispensed_is_final Scenario.dispensed d (Scenario.start 9)
           Hu Hin Hs).
Defined.

(** X6. An upload never alters a patient, and in a store of distinct ids
    it never alters a diagnosis that is past ingestion: every diagnosis
    whose status is approved, declined, medication_dispensed or completed
    is in the store after the upload exactly as it was. *)
Theorem data_upload_frame now body st e :
  unique_ids st -> In e (diagnoses st) ->
  Diagnosis.in_progress (Diagnosis.status e) = false ->
  patients (snd (data_upload now body st)) = patients st
  /\ In e (diagnoses (snd (data_upload now body st))).
Proof.
  intros Hu Hin He.
  destruct (data_upload_shape now body st)
    as (Hp & [-> | [(d0 & Hin0 & Hp0 & ->) | (d0 & _ & ->)]]);
    (split; [exact Hp|]); [exact Hin| |apply in_or_app; auto].
  apply updateOne_keeps_other; auto. intros ->. congruence.
Qed.

Lemma data_upload_frame_witness :
  let e := Scenario.diagnosis_of 1 Scenario.two_approved in
  let body := mkUpload Scenario.cold Scenario.K1 in
  unique_ids Scenario.two_approved
  /\ In e (diagnoses Scenario.two_approved)
  /\ Diagnosis.in_progress (Diagnosis.status e) = false
  /\ patients (snd (data_upload 9 body Scenario.two_approved))
     = patients Scenario.two_approved
  /\ In e (diagnoses (snd (data_upload 9 body Scenario.two_approved))).
Proof.
  intros e body.
  assert (Hu : unique_ids Scenario.two_approved).
  { unfold unique_ids. vm_compute. repeat constructor; cbn; intuition lia. }
  assert (Hin : In e (diagnoses Scenario.two_approved))
    by (vm_compute; left; reflexivity).
  assert (He : Diagnosis.in_progress (Diagnosis.status e) = false)
    by (vm_compute; reflexivity).
  split; [exact Hu|]. split; [exact Hin|]. split; [exact He|].
  exact (@data_upload_frame 9 body Scenario.two_approved e Hu Hin He).
Defined.

(** *** Poll and acknowledgement *)

(** X7. When exactly one diagnosis of a kiosk awaits execution, in a store
    of distinct ids, the poll returns its command, which is not "none";
    after the acknowledgement the poll returns "none". *)
Theorem poll_none_after_acknowledgement now body st d :
  JS.falsy_str (executed_kioskId body) = false ->
  JS.falsy_str (executed_status body) = false ->
  unique_ids st ->
  filter (awaiting_execution (from_option (executed_kioskId body)))
         (diagnoses st) = [d] ->
  Diagnosis.validate d = true ->
  get_motor_command (executed_kioskId body) st
  = Json 200 (Diagnosis.motorCommand d)
  /\ Diagnosis.motorCommand d <> "none"
  /\ get_motor_command (executed_kioskId body)
                       (snd (command_executed now body st))
     = Json 200 "none".
Proof.
  intros Hk Hs Hu Hf Hv.
  assert (Hp : pending_command (from_option (executed_kioskId body)) st
               = Some d).
  { unfold pending_command. rewrite Hf. reflexivity. }
  split; [|split].
  - unfold get_motor_command. rewrite Hk, Hp. reflexivity.
  - apply pending_command_In in Hp. tauto.
  - rewrite (@command_executed_pending now body st d Hk Hs Hp Hv).
    unfold get_motor_command, pending_command. rewrite Hk.
    cbn [snd diagnoses].
    rewrite (@updateOne_only_pending _ _ _ _ Hu Hf); [reflexivity|].
    unfold awaiting_execution. cbn. rewrite andb_false_r. reflexivity.
Qed.

Lemma poll_none_after_acknowledgement_witness :
  let d := Scenario.diagnosis_of 1 Scenario.approved_A in
  unique_ids Scenario.approved_A
  /\ filter (awaiting_execution "K1") (diagnoses Scenario.approved_A) = [d]
  /\ get_motor_command Scenario.K1 Scenario.approved_A
     = Json 200 (Diagnosis.motorCommand d)
  /\ Diagnosis.motorCommand d <> "none"
  /\ get_motor_command Scenario.K1
       (snd (command_executed 4 Scenario.executed_body Scenario.approved_A))
     = Json 200 "none".
Proof.
  intros d.
  assert (Hu : unique_ids Scenario.approved_A).
  { unfold unique_ids. vm_compute. repeat constructor. intros []. }
  split; [exact Hu|]. split; [vm_compute; reflexivity|].
  apply (@poll_none_after_acknowledgement
           4 Scenario.executed_body Scenario.approved_A d);
    solve [exact Hu | vm_compute; reflexivity].
Defined.

(** *** Approval *)

Lemma not_decided s :
  decided s = false ->
  s <> Diagnosis.approved /\ s <> Diagnosis.medication_dispensed.
Proof. destruct s; cbn; split; congruence. Qed.

(** The store that a successful approval leaves. *)
Lemma diagnosis_approve_store now doctorId id disease st d :
  disease <> "" ->
  findOne (owned_by doctorId id) (diagnoses st) = Some d ->
  decided (Diagnosis.status d) = false ->
  Diagnosis.validate d = true ->
  Diagnosis.in_enum disease = true ->
  diagnosis_approve now doctorId (mkApprove (Some id) (Some disease)) st
  = (Json 200 (mkApproved id (motorCommand_for disease)),
     mkStore
       (updateOne (fun p => Patient._id p =? Diagnosis.patientId d)
                  (Patient.set_isActive false) (patients st))
       (updateOne (fun x => Diagnosis._id x =? Diagnosis._id d)
                  (fun _ => approved_by now disease d) (diagnoses st))
       (nextId st)).
Proof.
  intros Hne Hfind Hdec Hv He.
  pose proof (findOne_In _ _ Hfind) as [Hin Hown].
  unfold owned_by in Hown. apply andb_true_iff in Hown.
  destruct Hown as [Hid _]. apply Nat.eqb_eq in Hid.
  unfold diagnosis_approve. cbn [approve_diagnosisId approve_approvedDisease].
  assert (Hf : JS.falsy_str (Some disease) = false).
  { cbn. apply String.eqb_neq. exact Hne. }
  rewrite Hf, Hfind. cbn [from_option].
  destruct (Diagnosis.status d) eqn:Hst; cbn in Hdec; try discriminate;
    cbn [Diagnosis.Status_eqb orb]; unfold Diagnosis_save;
    rewrite (@validate_approved now disease d Hv He);
    cbn; rewrite Hid; reflexivity.
Qed.

Lemma findOne_updateOne_sub (A : Type) (f g : A -> bool) y l :
  (forall x, g x = true -> f x = true) -> g y = true ->
  (exists x, In x l /\ f x = true) ->
  findOne g (updateOne f (fun _ => y) l) = Some y.
Proof.
  intros Hsub Hy [x [Hin Hx]]. induction l as [|a l IH]; [contradiction|].
  cbn. destruct (f a) eqn:E.
  - cbn. rewrite Hy. reflexivity.
  - cbn. destruct (g a) eqn:G; [rewrite (Hsub a G) in E; discriminate|].
    apply IH. destruct Hin as [->|Hin]; [congruence|assumption].
Qed.

(** X8. An approval is final: after a successful approval of a diagnosis,
    every further approval of it by the same doctor, with any disease, is
    refused with 400 "Diagnosis already approved or dispensed." and leaves
    the store as it was, so the approved disease and the command cannot be
    changed. *)
Theorem approval_is_final now now' doctorId id disease disease' st d :
  disease <> "" -> disease' <> "" ->
  findOne (owned_by doctorId id) (diagnoses st) = Some d ->
  decided (Diagnosis.status d) = false ->
  Diagnosis.validate d = true ->
  Diagnosis.in_enum disease = true ->
  exists st',
    diagnosis_approve now doctorId (mkApprove (Some id) (Some disease)) st
    = (Json 200 (mkApproved id (motorCommand_for disease)), st')
    /\ diagnosis_approve now' doctorId (mkApprove (Some id) (Some disease'))
                         st'
       = (Error 400 "Diagnosis already approved or dispensed.", st').
Proof.
  intros Hne Hne' Hfind Hdec Hv He.
  eexists. split;
    [exact (@diagnosis_approve_store now doctorId id disease st d
              Hne Hfind Hdec Hv He)|].
  pose proof (findOne_In _ _ Hfind) as [Hin Hown].
  unfold diagnosis_approve. cbn [approve_diagnosisId approve_approvedDisease].
  assert (Hf : JS.falsy_str (Some disease') = false).
  { cbn. apply String.eqb_neq. exact Hne'. }
  rewrite Hf. cbn [diagnoses].
  rewrite (@findOne_updateOne_sub _
             (fun x => Diagnosis._id x =? Diagnosis._id d)
             (owned_by doctorId id) (approved_by now disease d)).
  - reflexivity.
  - intros x Hx. unfold owned_by in Hx, Hown.
    apply andb_true_iff in Hx, Hown.
    destruct Hx as [Hx _], Hown as [Hd _].
    apply Nat.eqb_eq in Hx, Hd. apply Nat.eqb_eq. congruence.
  - exact Hown.
  - exists d. split; [exact Hin|apply Nat.eqb_refl].
Qed.

Lemma approval_is_final_witness :
  exists st',
    diagnosis_approve 3 Scenario.doctor
      (mkApprove (Some 1) (Some "Disease A")) Scenario.predicted
    = (Json 200 (mkApproved 1 (motorCommand_for "Disease A")), st')
    /\ diagnosis_approve 4 Scenario.doctor
         (mkApprove (Some 1) (Some "Disease B")) st'
       = (Error 400 "Diagnosis already approved or dispensed.", st').
Proof.
  apply (@approval_is_final 3 4 Scenario.doctor 1 "Disease A" "Disease B"
           Scenario.predicted
           (Scenario.diagnosis_of 1 Scenario.predicted));
    solve [discriminate | vm_compute; reflexivity].
Defined.

Lemma in_enum_nonempty disease :
  Diagnosis.in_enum disease = true -> disease <> "".
Proof. intros H ->. discriminate. Qed.

(** X9. The approval of a diagnosis with a disease of the enum other than
    "Disease A" and "Disease B" answers with the command "none"; in a store
    of distinct ids it leaves the pending query of every kiosk as it was, so
    the diagnosis is approved and never offered to a kiosk. *)
Theorem approval_without_command now doctorId id disease st d k :
  unique_ids st ->
  findOne (owned_by doctorId id) (diagnoses st) = Some d ->
  decided (Diagnosis.status d) = false ->
  Diagnosis.validate d = true ->
  Diagnosis.in_enum disease = true ->
  disease <> "Disease A" -> disease <> "Disease B" ->
  exists st',
    diagnosis_approve now doctorId (mkApprove (Some id) (Some disease)) st
    = (Json 200 (mkApproved id "none"), st')
    /\ (exists d', findById id st' = Some d'
                   /\ Diagnosis.status d' = Diagnosis.approved
                   /\ Diagnosis.motorCommand d' = "none")
    /\ pending_command k st' = pending_command k st.
Proof.
  intros Hu Hfind Hdec Hv He HA HB.
  pose proof (@in_enum_nonempty disease He) as Hne.
  assert (Hnone : motorCommand_for disease = "none").
  { unfold motorCommand_for. apply String.eqb_neq in HA, HB.
    rewrite HA, HB. reflexivity. }
  pose proof (@diagnosis_approve_store now doctorId id disease st d
                Hne Hfind Hdec Hv He) as Hrun.
  rewrite Hnone in Hrun.
  pose proof (findOne_In _ _ Hfind) as [Hin Hown].
  unfold owned_by in Hown. apply andb_true_iff in Hown.
  destruct Hown as [Hid _]. apply Nat.eqb_eq in Hid.
  eexists. split; [exact Hrun|]. split.
  - exists (approved_by now disease d).
    split; [|split; [reflexivity|exact Hnone]].
    unfold findById. cbn [diagnoses]. rewrite <- Hid.
    apply (findOne_updateOne_const
             (fun x => Diagnosis._id x =? Diagnosis._id d)).
    + apply Nat.eqb_refl.
    + exists d. split; [exact Hin|apply Nat.eqb_refl].
  - unfold pending_command. cbn [diagnoses].
    rewrite filter_updateOne_unaffected; auto.
    + unfold awaiting_execution.
      destruct (Diagnosis.status d); cbn in *; try discriminate;
        rewrite ?andb_false_r; reflexivity.
    + unfold awaiting_execution.
      change (Diagnosis.motorCommand (approved_by now disease d))
        with (motorCommand_for disease).
      rewrite Hnone. cbn. apply andb_false_r.
Qed.

Lemma approval_without_command_witness :
  let st := Scenario.predicted in
  unique_ids st
  /\ exists st',
       diagnosis_approve 3 Scenario.doctor
         (mkApprove (Some 1) (Some "Undetermined")) st
       = (Json 200 (mkApproved 1 "none"), st')
       /\ (exists d', findById 1 st' = Some d'
                      /\ Diagnosis.status d' = Diagnosis.approved
                      /\ Diagnosis.motorCommand d' = "none")
       /\ pending_command "K1" st' = pending_command "K1" st.
Proof.
  intros st.
  assert (Hu : unique_ids st).
  { unfold unique_ids. vm_compute. repeat constructor. intros []. }
  split; [exact Hu|].
  apply (@approval_without_command 3 Scenario.doctor 1 "Undetermined" st
           (Scenario.diagnosis_of 1 st) "K1");
    solve [exact Hu | discriminate | vm_compute; reflexivity].
Defined.

(** *** Starting a session: failure after the cleanup *)

(** X10. A start request with name, age and kiosk id present but a negative
    age passes the guard, deactivates the active patients of the kiosk and
    completes its ongoing diagnoses, and only then fails on the schema's
    [min: 0]: it is answered 500 and the kiosk is left with no active
    patient and no ongoing diagnosis. *)
Theorem failed_start_still_cleans_up now doctorId body st q :
  JS.falsy_str (start_name body) = false ->
  JS.falsy_str (start_kioskId body) = false ->
  start_age body = JS.num (JS.Fin q) -> (q < 0)%Q ->
  let k := from_option (start_kioskId body) in
  let st' := snd (patient_start now doctorId body st) in
  fst (patient_start now doctorId body st)
  = Error 500 "Server error starting patient session"
  /\ filter (active_on k) (patients st') = []
  /\ filter (hanging_on k) (diagnoses st') = []
  /\ List.length (patients st') = List.length (patients st)
  /\ List.length (diagnoses st') = List.length (diagnoses st).
Proof.
  intros Hn Hk Ha Hq.
  assert (Hz : Qeq_bool q 0 = false).
  { destruct (Qeq_bool q 0) eqn:E; [|reflexivity].
    apply Qeq_bool_iff in E. rewrite E in Hq. discriminate. }
  assert (Hle : Qle_bool 0 q = false).
  { destruct (Qle_bool 0 q) eqn:E; [|reflexivity].
    apply Qle_bool_iff in E. elim (Qlt_not_le _ _ Hq E). }
  cbv zeta. unfold patient_start. rewrite Hn, Hk, Ha. cbn [JS.falsy orb].
  rewrite Hz. unfold Patient_save, Patient.validate.
  cbn [Patient.age Patient.name castNumber JS.num_le].
  rewrite Hle, andb_false_r. cbn [andb fst snd patients diagnoses].
  split; [reflexivity|]. split; [|split; [|split]].
  - apply filter_updateMany_nil. intros x _. unfold active_on. cbn.
    apply andb_false_r.
  - apply filter_updateMany_nil. intros x _. unfold hanging_on. cbn.
    apply andb_false_r.
  - unfold updateMany. apply length_map.
  - unfold updateMany. apply length_map.
Qed.

Lemma failed_start_still_cleans_up_witness :
  let body := mkStart (Some "Asha") (JS.num (JS.Fin (-1))) None Scenario.K1 in
  let st := Scenario.started in
  let st' := snd (patient_start 5 Scenario.doctor body st) in
  List.length (filter (active_on "K1") (patients st)) = 1
  /\ fst (patient_start 5 Scenario.doctor body st)
     = Error 500 "Server error starting patient session"
  /\ filter (active_on "K1") (patients st') = []
  /\ filter (hanging_on "K1") (diagnoses st') = []
  /\ List.length (patients st') = List.length (patients st)
  /\ List.length (diagnoses st') = List.length (diagnoses st).
Proof.
  intros body st st'. split; [vm_compute; reflexivity|].
  apply (@failed_start_still_cleans_up 5 Scenario.doctor body st (-1));
    reflexivity.
Defined.

(** *** Patients in reachable stores *)

(** The patients after a request. *)
Lemma handle_patients r st :
  let st' := handle r st in
  nextId st <= nextId st'
  /\ (patients st' = patients st
      \/ (exists k,
            patients st'
            = updateMany (active_on k) (Patient.set_isActive false)
                         (patients st))
      \/ (exists k p,
            patients st'
            = updateMany (active_on k) (Patient.set_isActive false)
                         (patients st) ++ [p]
            /\ Patient._id p = nextId st
            /\ Patient.kioskId p = Some (JS.trim k)
            /\ nextId st < nextId st')
      \/ (exists id,
            patients st'
            = updateOne (fun p => Patient._id p =? id)
                        (Patient.set_isActive false) (patients st))).
Proof.
  cbv zeta. destruct r; cbn [handle]; [| | |auto| |].
  - unfold patient_start. destruct (_ || _); [auto|].
    unfold Patient_save. cbn [patients diagnoses nextId].
    destruct (Patient.validate _).
    + unfold Diagnosis_save. destruct (Diagnosis.validate _);
        cbn [snd patients nextId]; (split; [lia|]);
        right; right; left; do 2 eexists;
        (split; [reflexivity|]); cbn; repeat split; lia.
    + cbn [snd patients nextId]. split; [lia|]. right. left.
      eexists. reflexivity.
  - unfold data_upload. destruct (_ || _); [auto|].
    destruct (findOne _ _); [|auto].
    unfold Diagnosis_save. destruct (Diagnosis.validate _); [|auto].
    destruct (latest _); cbn [snd patients nextId]; split; auto.
  - unfold diagnosis_approve.
    destruct (approve_diagnosisId body); [|auto].
    destruct (JS.falsy_str _); [auto|].
    destruct (findOne _ _); [|auto].
    destruct (_ || _); [auto|].
    unfold Diagnosis_save. destruct (Diagnosis.validate _); [|auto].
    cbn [snd patients nextId]. split; [lia|].
    right. right. right. eexists. reflexivity.
  - unfold command_executed. destruct (_ || _); [auto|].
    destruct (pending_command _ _); [|auto].
    unfold Diagnosis_save. destruct (Diagnosis.validate _); auto.
  - unfold history_delete.
    destruct (findOneAndDelete _ _) as [[x|] l]; auto.
Qed.

Lemma map_id_updateMany_patients f l :
  map Patient._id (updateMany f (Patient.set_isActive false) l)
  = map Patient._id l.
Proof.
  unfold updateMany. rewrite map_map. apply map_ext.
  intros p. destruct (f p); reflexivity.
Qed.

Lemma map_id_updateOne_patients f l :
  map Patient._id (updateOne f (Patient.set_isActive false) l)
  = map Patient._id l.
Proof.
  induction l as [|a l IH]; cbn; [reflexivity|].
  destruct (f a); cbn; [reflexivity|]. rewrite IH. reflexivity.
Qed.

Lemma handle_patient_ids r st :
  patient_ids_fresh st -> patient_ids_fresh (handle r st).
Proof.
  unfold patient_ids_fresh. intros [Hnd Hlt].
  destruct (handle_patients r st)
    as (Hn & [-> | [(k & ->) | [(k & p & -> & Hid & _ & Hn') | (id & ->)]]]).
  - split; [exact Hnd|]. eapply Forall_impl; [|exact Hlt]. cbn. intros; lia.
  - rewrite map_id_updateMany_patients. split; [exact Hnd|].
    eapply Forall_impl; [|exact Hlt]. cbn. intros; lia.
  - rewrite map_app, map_id_updateMany_patients. cbn. rewrite Hid. split.
    + apply ids_below_unique_snoc; assumption.
    + apply Forall_app. split.
      * eapply Forall_impl; [|exact Hlt]. cbn. intros; lia.
      * constructor; [lia|constructor].
  - rewrite map_id_updateOne_patients. split; [exact Hnd|].
    eapply Forall_impl; [|exact Hlt]. cbn. intros; lia.
Qed.

Lemma reachable_patient_ids st : reachable st -> patient_ids_fresh st.
Proof.
  induction 1 as [|st r _ IH]; [split; constructor|].
  apply handle_patient_ids, IH.
Qed.

Lemma length_filter_updateMany_deactivate (f c : Patient.t -> bool) l :
  (forall p, f (Patient.set_isActive false p) = false) ->
  List.length (filter f (updateMany c (Patient.set_isActive false) l))
  <= List.length (filter f l).
Proof.
  intros Hf. unfold updateMany. induction l as [|a l IH]; cbn; [lia|].
  destruct (c a).
  - rewrite Hf. destruct (f a); cbn; lia.
  - destruct (f a); cbn; lia.
Qed.

Lemma length_filter_updateOne_deactivate (f c : Patient.t -> bool) l :
  (forall p, f (Patient.set_isActive false p) = false) ->
  List.length (filter f (updateOne c (Patient.set_isActive false) l))
  <= List.length (filter f l).
Proof.
  intros Hf. induction l as [|a l IH]; cbn; [lia|].
  destruct (c a); cbn.
  - rewrite Hf. destruct (f a); cbn; lia.
  - destruct (f a); cbn; lia.
Qed.

Lemma option_string_eqb_eq a b : option_string_eqb a b = true -> a = b.
Proof.
  destruct a, b; cbn; try discriminate; [|reflexivity].
  intros H. apply String.eqb_eq in H. congruence.
Qed.

Lemma handle_one_active r st :
  (forall k, List.length (active_patients k st) <= 1) ->
  forall k, List.length (active_patients k (handle r st)) <= 1.
Proof.
  intros Hinv k'. unfold active_patients in *.
  set (f := fun p => option_string_eqb (Patient.kioskId p) k'
                     && Patient.isActive p).
  assert (Hf : forall p, f (Patient.set_isActive false p) = false)
    by (intros p; unfold f; cbn; apply andb_false_r).
  specialize (Hinv k'). fold f in Hinv.
  destruct (handle_patients r st)
    as (_ & [-> | [(k & ->) | [(k & p & -> & _ & Hk & _) | (id & ->)]]]).
  - exact Hinv.
  - pose proof (length_filter_updateMany_deactivate f (active_on k)
                  (patients st) Hf). lia.
  - rewrite filter_app, length_app. cbn [filter].
    destruct (f p) eqn:Fp; cbn [List.length].
    + unfold f in Fp. apply andb_true_iff in Fp. destruct Fp as [Fp _].
      apply option_string_eqb_eq in Fp. rewrite Hk in Fp. subst k'.
      change f with (active_on k). rewrite filter_updateMany_nil; [cbn; lia|].
      intros x _. unfold active_on. cbn. apply andb_false_r.
    + pose proof (length_filter_updateMany_deactivate f (active_on k)
                    (patients st) Hf). lia.
  - pose proof (length_filter_updateOne_deactivate f
                  (fun p => Patient._id p =? id) (patients st) Hf). lia.
Qed.

Lemma reachable_one_active st :
  reachable st -> forall k, List.length (active_patients k st) <= 1.
Proof.
  induction 1 as [|st r _ IH]; [intros k; cbn; lia|].
  apply handle_one_active, IH.
Qed.

(** X11. In a store reached from the empty one, a kiosk has at most one
    active patient: for every stored kiosk id, at most one patient with
    that kiosk id has [isActive = true]. *)
Theorem at_most_one_active_patient st k p q :
  reachable st ->
  In p (patients st) -> In q (patients st) ->
  Patient.kioskId p = k -> Patient.kioskId q = k ->
  Patient.isActive p = true -> Patient.isActive q = true ->
  List.length (active_patients k st) = 1 /\ p = q.
Proof.
  intros Hr Hp Hq Kp Kq Ap Aq.
  pose proof (reachable_one_active Hr k) as Hle.
  assert (Fp : In p (active_patients k st)).
  { unfold active_patients. apply filter_In. split; [exact Hp|].
    rewrite Kp, Ap, option_string_eqb_refl. reflexivity. }
  assert (Fq : In q (active_patients k st)).
  { unfold active_patients. apply filter_In. split; [exact Hq|].
    rewrite Kq, Aq, option_string_eqb_refl. reflexivity. }
  destruct (active_patients k st) as [|a [|b l]]; cbn in *;
    [contradiction| |lia].
  split; [reflexivity|]. destruct Fp as [<-|[]], Fq as [<-|[]]. reflexivity.
Qed.

Lemma at_most_one_active_patient_witness :
  let st := run [Scenario.start 5] Scenario.started in
  let p := Scenario.patient_of 2 st in
  reachable st
  /\ In p (patients st)
  /\ Patient.kioskId p = Some "K1" /\ Patient.isActive p = true
  /\ List.length (patients st) = 2
  /\ List.length (active_patients (Some "K1") st) = 1.
Proof.
  intros st p.
  assert (Hr : reachable st) by (repeat apply reachable_run; constructor).
  assert (Hin : In p (patients st)) by (vm_compute; right; left; reflexivity).
  assert (Hk : Patient.kioskId p = Some "K1") by (vm_compute; reflexivity).
  assert (Ha : Patient.isActive p = true) by (vm_compute; reflexivity).
  split; [exact Hr|]. split; [exact Hin|]. split; [exact Hk|].
  split; [exact Ha|]. split; [vm_compute; reflexivity|].
  exact (proj1 (@at_most_one_active_patient st (Some "K1") p p
                  Hr Hin Hin Hk Hk Ha Ha)).
Defined.

(** *** Review closes the kiosk *)

Lemma patient_ids_eq l a b :
  NoDup (map Patient._id l) -> In a l -> In b l ->
  Patient._id a = Patient._id b -> a = b.
Proof.
  induction l as [|x l IH]; cbn; [contradiction|].
  intros Hnd Ha Hb E. inversion Hnd as [|? ? Hnotin Hnd']; subst.
  destruct Ha as [->|Ha], Hb as [->|Hb]; auto.
  - elim Hnotin. rewrite E. apply in_map. exact Hb.
  - elim Hnotin. rewrite <- E. apply in_map. exact Ha.
Qed.

Lemma deactivate_only_active (f : Patient.t -> bool) l p :
  NoDup (map Patient._id l) ->
  filter f l = [p] ->
  (forall x, f (Patient.set_isActive false x) = false) ->
  filter f (updateOne (fun x => Patient._id x =? Patient._id p)
                      (Patient.set_isActive false) l) = [].
Proof.
  intros Hnd Hf Hd.
  assert (Hin : In p l).
  { assert (H : In p (filter f l)) by (rewrite Hf; left; reflexivity).
    apply filter_In in H. tauto. }
  induction l as [|a l IH]; cbn in *; [discriminate|].
  inversion Hnd as [|? ? Hnotin Hnd']; subst.
  destruct (Patient._id a =? Patient._id p) eqn:E.
  - apply Nat.eqb_eq in E.
    assert (a = p)
      by (apply (patient_ids_eq (a :: l)); cbn; auto).
    subst a. cbn. rewrite Hd.
    destruct (f p); [injection Hf as Hf; exact Hf|].
    exfalso. apply Hnotin. apply in_map.
    assert (H : In p (filter f l)) by (rewrite Hf; left; reflexivity).
    apply filter_In in H. tauto.
  - cbn. destruct (f a) eqn:Fa.
    + injection Hf as Ha _. subst a. rewrite Nat.eqb_refl in E. discriminate.
    + apply IH; auto. destruct Hin as [->|Hin]; [|exact Hin].
      rewrite Nat.eqb_refl in E. discriminate.
Qed.

Lemma findOne_filter_nil (A : Type) (f : A -> bool) l :
  filter f l = [] -> findOne f l = None.
Proof.
  unfold findOne. induction l as [|a l IH]; cbn; [reflexivity|].
  destruct (f a); [discriminate|exact IH].
Qed.

(** X12. Review closes the kiosk: in a store reached from the empty one,
    when the diagnosis that a doctor approves belongs to the patient who is
    active on a kiosk, the approval succeeds and the next upload for that
    kiosk is refused and changes nothing, also before the command is
    fetched: with 400 when the request does not pass the guard, and
    otherwise with 404 "No active patient session found for this kiosk." *)
Theorem approval_closes_kiosk
        now now' doctorId id disease st d p body :
  reachable st ->
  findOne (owned_by doctorId id) (diagnoses st) = Some d ->
  decided (Diagnosis.status d) = false ->
  Diagnosis.in_enum disease = true ->
  Patient_findById (Diagnosis.patientId d) st = Some p ->
  active_on (from_option (upload_kioskId body)) p = true ->
  exists st',
    diagnosis_approve now doctorId (mkApprove (Some id) (Some disease)) st
    = (Json 200 (mkApproved id (motorCommand_for disease)), st')
    /\ data_upload now' body st'
       = (if JS.falsy_str (upload_kioskId body)
             || JS.isNaN (bpm (upload_reading body))
             || JS.isNaN (spo2 (upload_reading body))
             || JS.isNaN (temperature (upload_reading body))
          then Error 400 "Invalid sensor data or missing kioskId"
          else Error 404 "No active patient session found for this kiosk.",
          st').
Proof.
  intros Hr Hfind Hdec He Hp Hact.
  pose proof (@in_enum_nonempty disease He) as Hne.
  assert (Hv : Diagnosis.validate d = true).
  { pose proof (reachable_valid Hr) as Hvalid. unfold stored_valid in Hvalid.
    rewrite Forall_forall in Hvalid. apply Hvalid.
    apply findOne_In in Hfind. tauto. }
  eexists. split;
    [exact (@diagnosis_approve_store now doctorId id disease st d
              Hne Hfind Hdec Hv He)|].
  unfold data_upload. destruct (_ || _); [reflexivity|].
  cbn [patients].
  set (k := from_option (upload_kioskId body)) in *.
  apply findOne_In in Hp. destruct Hp as [Hin Hid].
  apply Nat.eqb_eq in Hid. rewrite <- Hid.
  rewrite findOne_filter_nil; [reflexivity|].
  apply deactivate_only_active.
  - exact (proj1 (reachable_patient_ids Hr)).
  - pose proof (reachable_one_active Hr (Some (JS.trim k))) as Hle.
    assert (Fp : In p (filter (active_on k) (patients st)))
      by (apply filter_In; auto).
    unfold active_patients in Hle.
    change (fun p0 : Patient.t =>
              option_string_eqb (Patient.kioskId p0) (Some (JS.trim k))
              && Patient.isActive p0) with (active_on k) in Hle.
    destruct (filter (active_on k) (patients st)) as [|a [|b l]];
      cbn in *; [contradiction| |lia].
    destruct Fp as [->|[]]. reflexivity.
  - intros x. unfold active_on. cbn. apply andb_false_r.
Qed.

Lemma approval_closes_kiosk_witness :
  let st := Scenario.predicted in
  let body := mkUpload Scenario.cold Scenario.K1 in
  reachable st
  /\ fst (data_upload 3 body st) = Json 200 "Disease B"
  /\ exists st',
       diagnosis_approve 3 Scenario.doctor
         (mkApprove (Some 1) (Some "Disease A")) st
       = (Json 200 (mkApproved 1 (motorCommand_for "Disease A")), st')
       /\ data_upload 4 body st'
          = (Error 404 "No active patient session found for this kiosk.",
             st').
Proof.
  intros st body.
  assert (Hr : reachable st) by (repeat apply reachable_run; constructor).
  split; [exact Hr|]. split; [vm_compute; reflexivity|].
  apply (@approval_closes_kiosk 3 4 Scenario.doctor 1 "Disease A" st
           (Scenario.diagnosis_of 1 st) (Scenario.patient_of 0 st) body);
    solve [exact Hr | vm_compute; reflexivity].
Defined.

(** *** Start, then upload *)

Lemma findOne_app_nil (A : Type) (f : A -> bool) l1 l2 :
  filter f l1 = [] -> findOne f (l1 ++ l2) = findOne f l2.
Proof.
  unfold findOne. induction l1 as [|a l IH]; cbn; [reflexivity|].
  destruct (f a); [discriminate|exact IH].
Qed.

Lemma filter_ongoing_after_cleanup patient k l :
  filter (ongoing patient k)
         (updateMany (hanging_on k) (Diagnosis.set_status Diagnosis.completed)
                     l) = [].
Proof.
  unfold updateMany. induction l as [|a l IH]; cbn; [reflexivity|].
  unfold ongoing, hanging_on in *.
  destruct ((Diagnosis.kioskId a =? k)%string) eqn:Ek;
    destruct (Diagnosis.in_progress (Diagnosis.status a)) eqn:Ep; cbn;
    rewrite ?Ek, ?Ep, ?andb_false_r; cbn; exact IH.
Qed.

(** X13. The first upload after a successful start goes to the session
    just started: an accepted reading with a temperature below 25, sent for
    the kiosk id of the start, is answered 200 and is the only sensor datum
    of the diagnosis whose id the start returned; that diagnosis belongs to
    the patient the start returned. *)
Theorem upload_after_start now now' doctorId body st started st' r :
  patient_start now doctorId body st = (Json 201 started, st') ->
  JS.isNaN (bpm r) = false -> JS.isNaN (spo2 r) = false ->
  JS.isNaN (temperature r) = false ->
  JS.ge (temperature r) 25 = false ->
  exists st'' d,
    data_upload now' (mkUpload r (start_kioskId body)) st'
    = (Json 200 (predictDisease r), st'')
    /\ findById (started_diagnosisId started) st'' = Some d
    /\ Diagnosis.patientId d = started_patientId started
    /\ Diagnosis.sensorData d = [stored_reading now' r]
    /\ Diagnosis.predictedDisease d = predictDisease r.
Proof.
  intros Hstart Hb Hs Ht H25.
  assert (Hk : JS.falsy_str (start_kioskId body) = false).
  { unfold patient_start in Hstart.
    destruct (JS.falsy_str (start_kioskId body)); [|reflexivity].
    rewrite !orb_true_r in Hstart. discriminate. }
  apply patient_start_created in Hstart. cbv zeta in Hstart.
  destruct Hstart as (_ & Hp & Hd & (p & Hps & Hpid & Hpk & Hpa) & Hds).
  set (k := from_option (start_kioskId body)) in *.
  set (d0 := Diagnosis.new now (S (nextId st)) (nextId st) doctorId k
                           Diagnosis.collecting_data) in *.
  assert (He : Diagnosis.in_enum (predictDisease r) = true)
    by (destruct (predictDisease_below_25 r H25) as [-> | ->]; reflexivity).
  assert (Hfp : findOne (active_on k) (patients st') = Some p).
  { rewrite Hps, findOne_app_nil.
    - cbn. unfold active_on. rewrite Hpk, Hpa, option_string_eqb_refl.
      reflexivity.
    - apply filter_updateMany_nil. intros x _. unfold active_on. cbn.
      apply andb_false_r. }
  assert (Hfd : latest (filter (ongoing (Patient._id p) k) (diagnoses st'))
                = Some d0).
  { rewrite Hds, filter_app, filter_ongoing_after_cleanup. cbn.
    unfold ongoing. cbn. rewrite Hpid, Nat.eqb_refl, String.eqb_refl.
    reflexivity. }
  assert (Hv : Diagnosis.validate d0 = true).
  { unfold Diagnosis.validate. cbn. unfold JS.falsy_str in Hk. subst k.
    destruct (start_kioskId body) as [x|]; [|discriminate].
    cbn. rewrite Hk. reflexivity. }
  destruct (@data_upload_ongoing now' (mkUpload r (start_kioskId body)) st'
              p d0 Hk Hb Hs Ht Hfp Hfd Hv He) as [Hrun Hfind].
  cbn [upload_reading upload_kioskId] in Hrun, Hfind.
  eexists. exists (ingested now' r d0).
  split; [exact Hrun|]. rewrite Hd, Hp.
  split; [exact Hfind|].
  destruct (ingested_fields now' r d0) as (_ & E2 & _ & _ & E5 & E6).
  repeat split; assumption.
Qed.

Lemma upload_after_start_witness :
  exists st'' d,
    data_upload 6 (mkUpload Scenario.cold Scenario.K1)
                (snd (patient_start 5 Scenario.doctor Scenario.start_body
                                    Scenario.approved_A))
    = (Json 200 (predictDisease Scenario.cold), st'')
    /\ findById 3 st'' = Some d
    /\ Diagnosis.patientId d = 2
    /\ Diagnosis.sensorData d = [stored_reading 6 Scenario.cold]
    /\ Diagnosis.predictedDisease d = predictDisease Scenario.cold.
Proof.
  apply (@upload_after_start 5 6 Scenario.doctor Scenario.start_body
           Scenario.approved_A (mkStarted 2 3 "K1")
           (snd (patient_start 5 Scenario.doctor Scenario.start_body
                               Scenario.approved_A))
           Scenario.cold);
    vm_compute; reflexivity.
Defined.

(** *** Consecutive uploads *)

Lemma latest_filter_updateOne (f : Diagnosis.t -> bool) l d d' :
  NoDup (map Diagnosis._id l) ->
  latest (filter f l) = Some d ->
  f d' = true ->
  Diagnosis.createdAt d' = Diagnosis.createdAt d ->
  latest (filter f (updateOne (fun x => Diagnosis._id x =? Diagnosis._id d)
                              (fun _ => d') l))
  = Some d'.
Proof.
  intros Hnd Hl Hf Hc.
  pose proof (latest_filter_In _ _ Hl) as [Hin Hfd].
  induction l as [|a l IH]; cbn in *; [discriminate|].
  inversion Hnd as [|? ? Hnotin Hnd']; subst.
  destruct (Diagnosis._id a =? Diagnosis._id d) eqn:E.
  - apply Nat.eqb_eq in E.
    assert (a = d).
    { destruct Hin as [H|H]; [exact H|].
      elim Hnotin. rewrite E. apply in_map. exact H. }
    subst a. cbn. rewrite Hf. rewrite Hfd in Hl. cbn in *.
    destruct (latest (filter f l)) as [e|] eqn:He; [|reflexivity].
    rewrite Hc.
    destruct (Diagnosis.createdAt d <? Diagnosis.createdAt e)%N;
      [|reflexivity].
    injection Hl as ->. exfalso. apply Hnotin. apply in_map.
    apply latest_filter_In in He. tauto.
  - assert (Hne : a <> d) by (intros ->; rewrite Nat.eqb_refl in E;
                              discriminate).
    destruct Hin as [H|Hin]; [contradiction|].
    cbn. destruct (f a) eqn:Fa.
    + cbn in *. destruct (latest (filter f l)) as [e|] eqn:He;
        [|injection Hl as Hl; contradiction].
      destruct (Diagnosis.createdAt a <? Diagnosis.createdAt e)%N eqn:Lt;
        [|injection Hl as Hl; contradiction].
      injection Hl as ->. rewrite (IH Hnd' eq_refl Hin), Hc, Lt.
      reflexivity.
    + apply IH; auto.
Qed.

(** X14. Readings are kept in the order of their uploads: when two accepted
    readings with temperatures below 25 are uploaded one after the other
    for a kiosk whose active patient has an ongoing diagnosis, in a store of
    distinct ids, both uploads are answered 200 and the [sensorData] of
    that diagnosis is what it was, followed by the first and then the
    second reading. *)
Theorem consecutive_uploads_ordered now1 now2 kiosk r1 r2 st p d :
  let k := from_option kiosk in
  JS.falsy_str kiosk = false ->
  JS.isNaN (bpm r1) = false -> JS.isNaN (spo2 r1) = false ->
  JS.isNaN (temperature r1) = false -> JS.ge (temperature r1) 25 = false ->
  JS.isNaN (bpm r2) = false -> JS.isNaN (spo2 r2) = false ->
  JS.isNaN (temperature r2) = false -> JS.ge (temperature r2) 25 = false ->
  unique_ids st ->
  findOne (active_on k) (patients st) = Some p ->
  latest (filter (ongoing (Patient._id p) k) (diagnoses st)) = Some d ->
  Diagnosis.validate d = true ->
  exists st1 st2 d2,
    data_upload now1 (mkUpload r1 kiosk) st = (Json 200 (predictDisease r1), st1)
    /\ data_upload now2 (mkUpload r2 kiosk) st1
       = (Json 200 (predictDisease r2), st2)
    /\ findById (Diagnosis._id d) st2 = Some d2
    /\ Diagnosis.sensorData d2
       = Diagnosis.sensorData d
         ++ [stored_reading now1 r1; stored_reading now2 r2]
    /\ Diagnosis.predictedDisease d2 = predictDisease r2.
Proof.
  intros k Hk Hb1 Hs1 Ht1 H1 Hb2 Hs2 Ht2 H2 Hu Hp Hd Hv.
  assert (He1 : Diagnosis.in_enum (predictDisease r1) = true)
    by (destruct (predictDisease_below_25 r1 H1) as [-> | ->]; reflexivity).
  assert (He2 : Diagnosis.in_enum (predictDisease r2) = true)
    by (destruct (predictDisease_below_25 r2 H2) as [-> | ->]; reflexivity).
  destruct (@data_upload_ongoing now1 (mkUpload r1 kiosk) st p d
              Hk Hb1 Hs1 Ht1 Hp Hd Hv He1) as [Hrun1 _].
  cbn [upload_reading upload_kioskId] in Hrun1.
  set (d1 := ingested now1 r1 d) in *.
  set (st1 := mkStore (patients st)
                (updateOne (fun x => Diagnosis._id x =? Diagnosis._id d)
                           (fun _ => d1) (diagnoses st))
                (nextId st)) in *.
  destruct (ingested_fields now1 r1 d) as (I1 & I2 & _ & I4 & I5 & _).
  fold d1 in I1, I2, I4, I5.
  pose proof (latest_filter_In _ _ Hd) as [Hin Hon].
  assert (Hon1 : ongoing (Patient._id p) k d1 = true).
  { unfold ongoing in *. rewrite I2, I4.
    apply andb_true_iff in Hon. destruct Hon as [Hon Hpr]. rewrite Hon.
    cbn. apply ingested_in_progress. exact Hpr. }
  assert (Hd1 : latest (filter (ongoing (Patient._id p) k) (diagnoses st1))
                = Some d1).
  { unfold st1. cbn [diagnoses]. apply latest_filter_updateOne; auto.
    destruct (ingested_untouched now1 r1 d) as (_ & _ & _ & Hc). exact Hc. }
  assert (Hv1 : Diagnosis.validate d1 = true)
    by (apply validate_ingested; assumption).
  destruct (@data_upload_ongoing now2 (mkUpload r2 kiosk) st1 p d1
              Hk Hb2 Hs2 Ht2 Hp Hd1 Hv1 He2) as [Hrun2 Hfind2].
  cbn [upload_reading upload_kioskId] in Hrun2, Hfind2.
  exists st1. eexists. exists (ingested now2 r2 d1).
  split; [exact Hrun1|]. split; [exact Hrun2|].
  destruct (ingested_fields now2 r2 d1) as (_ & _ & _ & _ & J5 & J6).
  split; [|split; [|exact J6]].
  - unfold findById. cbn [diagnoses]. rewrite <- I1. exact Hfind2.
  - rewrite J5, I5, <- app_assoc. reflexivity.
Qed.

Lemma consecutive_uploads_ordered_witness :
  let st := Scenario.started in
  let d := Scenario.diagnosis_of 1 st in
  unique_ids st
  /\ exists st1 st2 d2,
       data_upload 2 (mkUpload Scenario.no_pulse Scenario.K1) st
       = (Json 200 (predictDisease Scenario.no_pulse), st1)
       /\ data_upload 3 (mkUpload Scenario.cold Scenario.K1) st1
          = (Json 200 (predictDisease Scenario.cold), st2)
       /\ findById (Diagnosis._id d) st2 = Some d2
       /\ Diagnosis.sensorData d2
          = Diagnosis.sensorData d
            ++ [stored_reading 2 Scenario.no_pulse;
                stored_reading 3 Scenario.cold]
       /\ Diagnosis.predictedDisease d2 = predictDisease Scenario.cold.
Proof.
  intros st d.
  assert (Hu : unique_ids st).
  { unfold unique_ids. vm_compute. repeat constructor. intros []. }
  split; [exact Hu|].
  apply (@consecutive_uploads_ordered 2 3 Scenario.K1 Scenario.no_pulse
           Scenario.cold st (Scenario.patient_of 0 st) d);
    solve [exact Hu | vm_compute; reflexivity].
Defined.

(** *** The live view *)

Lemma latestSensorData_ingested now r d :
  latestSensorData (ingested now r d)
  = mkLatest (Some now)
             (mkReading (castNumber (bpm r)) (castNumber (spo2 r))
                        (castNumber (temperature r))).
Proof.
  unfold latestSensorData.
  destruct (ingested_fields now r d) as (_ & _ & _ & _ & E & _).
  rewrite E, map_app. cbn [map]. rewrite last_last. reflexivity.
Qed.

(** X15. What was uploaded is what the doctor sees: after an upload that
    finds the ongoing diagnosis of the kiosk's active patient and yields a
    label of the enum, the live view of that diagnosis for its doctor is
    answered 200 and shows the reading just uploaded (as cast, with the
    time of the upload), its label, the status after the upload and the
    stored patient. *)
Theorem live_data_after_upload now body st p d :
  let r := upload_reading body in
  let k := from_option (upload_kioskId body) in
  JS.falsy_str (upload_kioskId body) = false ->
  JS.isNaN (bpm r) = false -> JS.isNaN (spo2 r) = false ->
  JS.isNaN (temperature r) = false ->
  findOne (active_on k) (patients st) = Some p ->
  latest (filter (ongoing (Patient._id p) k) (diagnoses st)) = Some d ->
  Diagnosis.validate d = true ->
  Diagnosis.in_enum (predictDisease r) = true ->
  exists st',
    data_upload now body st = (Json 200 (predictDisease r), st')
    /\ live_data (Diagnosis.doctorId d) (Diagnosis._id d) st'
       = Json 200
           (mkLive (populate (Diagnosis.patientId d) st)
                   k
                   (mkLatest (Some now)
                      (mkReading (castNumber (bpm r)) (castNumber (spo2 r))
                                 (castNumber (temperature r))))
                   (predictDisease r)
                   (Diagnosis.status (advance_status (predictDisease r) d))
                   (Diagnosis._id d)).
Proof.
  intros r k Hk Hb Hs Ht Hp Hd Hv He.
  destruct (@data_upload_ongoing now body st p d Hk Hb Hs Ht Hp Hd Hv He)
    as [Hrun _].
  fold r in Hrun.
  eexists. split; [exact Hrun|].
  pose proof (latest_filter_In _ _ Hd) as [Hin Hon].
  unfold ongoing in Hon. apply andb_true_iff in Hon.
  destruct Hon as [Hon Hpr]. apply andb_true_iff in Hon.
  destruct Hon as [_ Hkd]. apply String.eqb_eq in Hkd.
  destruct (ingested_fields now r d) as (E1 & E2 & E3 & E4 & _ & E6).
  unfold live_data. cbn [diagnoses].
  rewrite (@findOne_updateOne_sub _
             (fun x => Diagnosis._id x =? Diagnosis._id d)
             (viewable (Diagnosis.doctorId d) (Diagnosis._id d))
             (ingested now r d)).
  - rewrite latestSensorData_ingested, E1, E2, E4, E6, ingested_status, Hkd.
    reflexivity.
  - intros x Hx. unfold viewable in Hx. apply andb_true_iff in Hx.
    destruct Hx as [Hx _]. apply andb_true_iff in Hx. tauto.
  - unfold viewable. rewrite E1, E3, !Nat.eqb_refl. cbn.
    apply ingested_in_progress. exact Hpr.
  - exists d. split; [exact Hin|apply Nat.eqb_refl].
Qed.

Lemma live_data_after_upload_witness :
  let st := Scenario.started in
  let r := Scenario.cold in
  let d := Scenario.diagnosis_of 1 st in
  exists st',
    data_upload 2 (mkUpload r Scenario.K1) st
    = (Json 200 (predictDisease r), st')
    /\ live_data (Diagnosis.doctorId d) (Diagnosis._id d) st'
       = Json 200
           (mkLive (populate (Diagnosis.patientId d) st)
                   "K1"
                   (mkLatest (Some 2%N)
                      (mkReading (castNumber (bpm r)) (castNumber (spo2 r))
                                 (castNumber (temperature r))))
                   (predictDisease r)
                   (Diagnosis.status (advance_status (predictDisease r) d))
                   (Diagnosis._id d)).
Proof.
  intros st r d.
  apply (@live_data_after_upload 2 (mkUpload r Scenario.K1) st
           (Scenario.patient_of 0 st) d);
    vm_compute; reflexivity.
Defined.

Lemma find_none_all (A : Type) (g : A -> bool) l :
  (forall x, In x l -> g x = false) -> find g l = None.
Proof.
  induction l as [|a l IH]; cbn; [reflexivity|].
  intros H. rewrite (H a (or_introl eq_refl)). apply IH.
  intros x Hx. apply H. right. exact Hx.
Qed.

Lemma findOne_updateOne_none (g : Diagnosis.t -> bool) l d d' :
  NoDup (map Diagnosis._id l) -> In d l ->
  (forall x, g x = true -> Diagnosis._id x = Diagnosis._id d) ->
  g d' = false ->
  findOne g (updateOne (fun x => Diagnosis._id x =? Diagnosis._id d)
                       (fun _ => d') l) = None.
Proof.
  intros Hnd Hin Hg Hd'. unfold findOne.
  induction l as [|a l IH]; cbn; [reflexivity|].
  inversion Hnd as [|? ? Hnotin Hnd']; subst.
  destruct (Diagnosis._id a =? Diagnosis._id d) eqn:E.
  - apply Nat.eqb_eq in E. cbn. rewrite Hd'.
    apply find_none_all. intros x Hx.
    destruct (g x) eqn:G; [|reflexivity].
    elim Hnotin. rewrite E, <- (Hg x G). apply in_map. exact Hx.
  - cbn. destruct (g a) eqn:G.
    + apply Hg in G. rewrite G, Nat.eqb_refl in E. discriminate.
    + apply IH; auto. destruct Hin as [->|Hin]; [|exact Hin].
      rewrite Nat.eqb_refl in E. discriminate.
Qed.

(** X16. The live view ends with the review: in a store of distinct ids,
    after the successful approval of a diagnosis its live view is answered
    404 "Active diagnosis session not found or already completed.", for
    every doctor. *)
Theorem live_data_gone_after_approval
        now doctorId viewer id disease st d :
  unique_ids st ->
  findOne (owned_by doctorId id) (diagnoses st) = Some d ->
  decided (Diagnosis.status d) = false ->
  Diagnosis.validate d = true ->
  Diagnosis.in_enum disease = true ->
  exists st',
    diagnosis_approve now doctorId (mkApprove (Some id) (Some disease)) st
    = (Json 200 (mkApproved id (motorCommand_for disease)), st')
    /\ live_data viewer id st'
       = Error 404 "Active diagnosis session not found or already completed.".
Proof.
  intros Hu Hfind Hdec Hv He.
  pose proof (@in_enum_nonempty disease He) as Hne.
  eexists. split;
    [exact (@diagnosis_approve_store now doctorId id disease st d
              Hne Hfind Hdec Hv He)|].
  pose proof (findOne_In _ _ Hfind) as [Hin Hown].
  unfold owned_by in Hown. apply andb_true_iff in Hown.
  destruct Hown as [Hid _]. apply Nat.eqb_eq in Hid.
  unfold live_data. cbn [diagnoses].
  rewrite findOne_updateOne_none; auto.
  - intros x Hx. unfold viewable in Hx. apply andb_true_iff in Hx.
    destruct Hx as [Hx _]. apply andb_true_iff in Hx. destruct Hx as [Hx _].
    apply Nat.eqb_eq in Hx. congruence.
  - unfold viewable. cbn. apply andb_false_r.
Qed.

Lemma live_data_gone_after_approval_witness :
  let st := Scenario.predicted in
  unique_ids st
  /\ (exists view, live_data Scenario.doctor 1 st = Json 200 view)
  /\ exists st',
       diagnosis_approve 3 Scenario.doctor
         (mkApprove (Some 1) (Some "Disease A")) st
       = (Json 200 (mkApproved 1 (motorCommand_for "Disease A")), st')
       /\ live_data Scenario.doctor 1 st'
          = Error 404
              "Active diagnosis session not found or already completed.".
Proof.
  intros st.
  assert (Hu : unique_ids st).
  { unfold unique_ids. vm_compute. repeat constructor. intros []. }
  split; [exact Hu|]. split; [eexists; vm_compute; reflexivity|].
  apply (@live_data_gone_after_approval 3 Scenario.doctor Scenario.doctor
           1 "Disease A" st (Scenario.diagnosis_of 1 st));
    solve [exact Hu | vm_compute; reflexivity].
Defined.

(** *** The history *)

Lemma insert_newest_perm d l : Permutation (insert_newest d l) (d :: l).
Proof.
  induction l as [|e l IH]; cbn; [reflexivity|].
  destruct (Diagnosis.createdAt d <? Diagnosis.createdAt e)%N;
    [|reflexivity].
  rewrite IH. apply perm_swap.
Qed.

Lemma sort_newest_first_perm l : Permutation (sort_newest_first l) l.
Proof.
  induction l as [|d l IH]; cbn; [constructor|].
  rewrite insert_newest_perm. constructor. exact IH.
Qed.

Lemma insert_newest_sorted d l :
  StronglySorted newer_or_equal l ->
  StronglySorted newer_or_equal (insert_newest d l).
Proof.
  induction 1 as [|e l Hs IH Hall]; cbn; [repeat constructor|].
  destruct (Diagnosis.createdAt d <? Diagnosis.createdAt e)%N eqn:E.
  - apply N.ltb_lt in E. constructor; [exact IH|].
    apply Forall_forall. intros x Hx.
    apply (Permutation_in _ (insert_newest_perm d l)) in Hx.
    destruct Hx as [<-|Hx]; [unfold newer_or_equal; lia|].
    rewrite Forall_forall in Hall. apply Hall. exact Hx.
  - apply N.ltb_ge in E. constructor.
    + constructor; assumption.
    + constructor; [exact E|].
      eapply Forall_impl; [|exact Hall]. unfold newer_or_equal.
      intros x Hx. lia.
Qed.

Lemma sort_newest_first_sorted l :
  StronglySorted newer_or_equal (sort_newest_first l).
Proof.
  induction l as [|d l IH]; cbn; [constructor|].
  apply insert_newest_sorted. exact IH.
Qed.

(** X17. The history of a doctor, asked without a search, lists the
    diagnoses of that doctor and no other: its rows are a rearrangement of
    the doctor's diagnoses, every row is newer than or as new as the rows
    after it, and each row carries the stored patient of its diagnosis
    (nothing when the patient is not stored). *)
Theorem history_newest_first doctorId st :
  exists rows,
    history doctorId st = Json 200 rows
    /\ Permutation (map fst rows)
         (filter (fun d => Diagnosis.doctorId d =? doctorId) (diagnoses st))
    /\ StronglySorted newer_or_equal (map fst rows)
    /\ (forall d, In d (map fst rows) <->
                  In d (diagnoses st) /\ Diagnosis.doctorId d = doctorId)
    /\ (forall row, In row rows ->
          snd row = populate (Diagnosis.patientId (fst row)) st).
Proof.
  eexists. split; [reflexivity|].
  rewrite map_map. cbn [fst]. rewrite map_id.
  split; [apply sort_newest_first_perm|].
  split; [apply sort_newest_first_sorted|]. split.
  - intros d. split.
    + intros H. apply (Permutation_in _ (sort_newest_first_perm _)) in H.
      apply filter_In in H. destruct H as [H1 H2].
      apply Nat.eqb_eq in H2. auto.
    + intros [H1 H2].
      apply (Permutation_in _ (Permutation_sym (sort_newest_first_perm _))).
      apply filter_In. split; [exact H1|]. apply Nat.eqb_eq. exact H2.
  - intros row H. apply in_map_iff in H. destruct H as (d & <- & _).
    reflexivity.
Qed.

(** *** Deleting a history record *)

Lemma findOneAndDelete_spec (A : Type) (f : A -> bool) l x l' :
  findOneAndDelete f l = (Some x, l') ->
  exists l1 l2, l = l1 ++ x :: l2 /\ l' = l1 ++ l2 /\ f x = true.
Proof.
  revert l'. induction l as [|a l IH]; cbn; [discriminate|].
  intros l'. destruct (f a) eqn:E.
  - intros [= <- <-]. exists [], l. auto.
  - destruct (findOneAndDelete f l) as [r l''].
    intros [= -> <-]. destruct (IH l'' eq_refl) as (l1 & l2 & -> & -> & Hx).
    exists (a :: l1), l2. auto.
Qed.

Lemma findOneAndDelete_none (A : Type) (f : A -> bool) l :
  (forall x, In x l -> f x = false) -> findOneAndDelete f l = (None, l).
Proof.
  induction l as [|a l IH]; cbn; [reflexivity|].
  intros H. rewrite (H a (or_introl eq_refl)), IH; [reflexivity|].
  intros x Hx. apply H. right. exact Hx.
Qed.

(** X18. A deletion removes one diagnosis and nothing else: in a store of
    distinct ids, after the successful deletion of a diagnosis by its
    doctor the diagnosis is no longer found, the other diagnoses and all
    patients are as they were (the patient of the deleted diagnosis stays
    active if he was), and a second deletion of the same id is answered
    404 and changes nothing. *)
Theorem history_delete_once doctorId id st st' :
  unique_ids st ->
  history_delete doctorId id st = (Json 200 tt, st') ->
  findById id st' = None
  /\ patients st' = patients st
  /\ S (List.length (diagnoses st')) = List.length (diagnoses st)
  /\ (forall e, In e (diagnoses st) -> Diagnosis._id e <> id ->
                In e (diagnoses st'))
  /\ history_delete doctorId id st'
     = (Error 404 "Diagnosis record not found or unauthorized to delete.",
        st').
Proof.
  intros Hu Hdel. unfold history_delete in Hdel.
  destruct (findOneAndDelete _ _) as [[x|] l'] eqn:E; [|discriminate].
  injection Hdel as <-.
  apply findOneAndDelete_spec in E. destruct E as (l1 & l2 & El & -> & Hx).
  unfold owned_by in Hx. apply andb_true_iff in Hx. destruct Hx as [Hx _].
  apply Nat.eqb_eq in Hx.
  unfold unique_ids in Hu. rewrite El, map_app in Hu. cbn in Hu.
  assert (Hother : forall e, In e (l1 ++ l2) -> Diagnosis._id e <> id).
  { intros e He Heq. apply NoDup_remove_2 in Hu. apply Hu.
    rewrite <- map_app, Hx, <- Heq. apply in_map. exact He. }
  cbn [patients diagnoses].
  split; [|split; [reflexivity|split; [|split]]].
  - unfold findById, findOne. cbn [diagnoses]. apply find_none_all.
    intros e He. apply Nat.eqb_neq. auto.
  - rewrite El, !length_app. cbn. lia.
  - intros e He Hne. rewrite El in He. apply in_app_or in He.
    apply in_or_app. destruct He as [He|[->|He]]; auto. contradiction.
  - unfold history_delete. cbn [diagnoses].
    rewrite findOneAndDelete_none; [reflexivity|].
    intros e He. unfold owned_by.
    destruct (Diagnosis._id e =? id) eqn:Eid; [|reflexivity].
    apply Nat.eqb_eq in Eid. elim (Hother e He Eid).
Qed.

Lemma history_delete_once_witness :
  let st := Scenario.started in
  unique_ids st
  /\ history_delete Scenario.doctor 1 st = (Json 200 tt, Scenario.orphaned)
  /\ findById 1 Scenario.orphaned = None
  /\ patients Scenario.orphaned = patients st
  /\ history_delete Scenario.doctor 1 Scenario.orphaned
     = (Error 404 "Diagnosis record not found or unauthorized to delete.",
        Scenario.orphaned).
Proof.
  intros st.
  assert (Hu : unique_ids st).
  { unfold unique_ids. vm_compute. repeat constructor. intros []. }
  assert (Hd : history_delete Scenario.doctor 1 st
               = (Json 200 tt, Scenario.orphaned))
    by (vm_compute; reflexivity).
  split; [exact Hu|]. split; [exact Hd|].
  destruct (@history_delete_once Scenario.doctor 1 st Scenario.orphaned
              Hu Hd) as (H1 & H2 & _ & _ & H5).
  auto.
Defined.

(** *** The phone-number pattern *)

Lemma digits_app p q : digits (p ++ q)%string = digits p + digits q.
Proof. induction p as [|c p IH]; cbn; [reflexivity|]. rewrite IH. lia. Qed.

Lemma consumes_weaken m lo hi lo' hi' :
  consumes m lo hi -> lo' <= lo -> hi <= hi' -> consumes m lo' hi'.
Proof.
  intros H Hlo Hhi s r Hr. destruct (H s r Hr) as (p & E & Hp).
  exists p. split; [exact E|lia].
Qed.

Lemma consumes_eps : consumes Regex.eps 0 0.
Proof.
  intros s r [<-|[]]. exists ""%string. split; [reflexivity|cbn; lia].
Qed.

Lemma consumes_alt m1 m2 lo hi :
  consumes m1 lo hi -> consumes m2 lo hi -> consumes (Regex.alt m1 m2) lo hi.
Proof.
  intros H1 H2 s r Hr. unfold Regex.alt in Hr. apply in_app_or in Hr.
  destruct Hr; auto.
Qed.

Lemma consumes_seq m1 m2 a b c d :
  consumes m1 a b -> consumes m2 c d ->
  consumes (Regex.seq m1 m2) (a + c) (b + d).
Proof.
  intros H1 H2 s r Hr. unfold Regex.seq in Hr. apply in_flat_map in Hr.
  destruct Hr as (t & Ht & Hr).
  destruct (H1 s t Ht) as (p1 & E1 & Hp1).
  destruct (H2 t r Hr) as (p2 & E2 & Hp2).
  exists (p1 ++ p2)%string. split.
  - rewrite E1, E2. clear. induction p1 as [|x p1 IH]; cbn; congruence.
  - rewrite digits_app. lia.
Qed.

Lemma consumes_opt m : consumes m 0 0 -> consumes (Regex.opt m) 0 0.
Proof. intros H. apply consumes_alt; [exact H|exact consumes_eps]. Qed.

Lemma consumes_char (p : ascii -> bool) n :
  (forall c, p c = true ->
     (if (48 <=? nat_of_ascii c) && (nat_of_ascii c <=? 57) then 1 else 0)
     = n) ->
  consumes (Regex.char p) n n.
Proof.
  intros Hp s r Hr. destruct s as [|c s]; cbn in Hr; [contradiction|].
  destruct (p c) eqn:E; [|contradiction]. destruct Hr as [<-|[]].
  exists (String c ""). split; [reflexivity|].
  cbn [digits]. rewrite (Hp c E). lia.
Qed.

Lemma consumes_digit : consumes Regex.digit 1 1.
Proof. apply consumes_char. intros c H. cbv zeta in H. rewrite H. reflexivity. Qed.

Lemma consumes_lit a :
  (48 <=? nat_of_ascii a) && (nat_of_ascii a <=? 57) = false ->
  consumes (Regex.lit a) 0 0.
Proof.
  intros Ha. apply consumes_char. intros c H. apply Ascii.eqb_eq in H.
  subst c. rewrite Ha. reflexivity.
Qed.

Lemma drop_prefix_spec w s r :
  JS.drop_prefix w s = Some r -> s = (w ++ r)%string.
Proof.
  revert s. induction w as [|a w IH]; cbn; [congruence|].
  intros [|b s]; [discriminate|].
  destruct (Ascii.eqb a b) eqn:E; [|discriminate].
  apply Ascii.eqb_eq in E. subst b. intros H. rewrite (IH s H). reflexivity.
Qed.

Lemma first_some_spec (A B : Type) (f : A -> option B) l b :
  JS.first_some f l = Some b -> exists a, In a l /\ f a = Some b.
Proof.
  induction l as [|a l IH]; cbn; [discriminate|].
  destruct (f a) eqn:E.
  - intros [= <-]. eauto.
  - intros H. destruct (IH H) as (x & Hx & Hf). eauto.
Qed.

Lemma white_space_no_digit :
  Forall (fun w => digits w = 0) JS.white_space.
Proof. vm_compute. repeat constructor. Qed.

Lemma consumes_space : consumes Regex.space 0 0.
Proof.
  intros s r Hr. unfold Regex.space in Hr.
  destruct (JS.drop_space s) as [t|] eqn:E; [|contradiction].
  destruct Hr as [<-|[]]. unfold JS.drop_space in E.
  apply first_some_spec in E. destruct E as (w & Hw & E).
  apply drop_prefix_spec in E. exists w. split; [exact E|].
  pose proof white_space_no_digit as H. rewrite Forall_forall in H.
  rewrite (H w Hw). lia.
Qed.

Lemma consumes_separator : consumes Regex.separator 0 0.
Proof.
  unfold Regex.separator.
  repeat apply consumes_alt;
    [apply consumes_lit; reflexivity | apply consumes_lit; reflexivity
     | exact consumes_space].
Qed.

Lemma consumes_times n m a b :
  consumes m a b -> consumes (Regex.times n m) (n * a) (n * b).
Proof.
  intros H. induction n as [|n IH]; cbn [Regex.times].
  - exact consumes_eps.
  - apply (consumes_seq H IH).
Qed.

Lemma consumes_upto n : consumes (Regex.upto n Regex.digit) 0 n.
Proof.
  induction n as [|n IH]; cbn [Regex.upto]; [exact consumes_eps|].
  apply consumes_alt.
  - apply (consumes_weaken consumes_eps); lia.
  - apply (consumes_weaken (consumes_seq consumes_digit IH)); lia.
Qed.

Lemma consumes_phoneNumber : consumes Regex.phoneNumber 11 13.
Proof.
  unfold Regex.phoneNumber.
  assert (Hplus : consumes (Regex.opt (Regex.lit "+")) 0 0)
    by (apply consumes_opt, consumes_lit; reflexivity).
  assert (Hopen : consumes (Regex.opt (Regex.lit "(")) 0 0)
    by (apply consumes_opt, consumes_lit; reflexivity).
  assert (Hclose : consumes (Regex.opt (Regex.lit ")")) 0 0)
    by (apply consumes_opt, consumes_lit; reflexivity).
  pose proof (consumes_opt consumes_separator) as Hsep.
  pose proof (consumes_times 1 consumes_digit) as H1.
  pose proof (consumes_times 3 consumes_digit) as H3.
  pose proof (consumes_times 4 consumes_digit) as H4.
  pose proof (consumes_upto 2) as H2.
  exact (consumes_seq Hplus (consumes_seq H1 (consumes_seq H2
          (consumes_seq Hsep (consumes_seq Hopen (consumes_seq H3
            (consumes_seq Hclose (consumes_seq Hsep (consumes_seq H3
              (consumes_seq Hsep H4)))))))))).
Qed.

Lemma test_phoneNumber_digits s :
  Regex.test_phoneNumber s = true -> 11 <= digits s <= 13.
Proof.
  unfold Regex.test_phoneNumber, Regex.at_end. intros H.
  apply existsb_exists in H. destruct H as (r & Hr & E).
  apply String.eqb_eq in E. subst r.
  destruct (consumes_phoneNumber s "" Hr) as (p & Ep & Hp).
  assert (p ++ "" = p)%string
    by (clear; induction p as [|c p IH]; cbn; congruence).
  congruence.
Qed.

(** X19. A patient that passes the schema's validators with a non-empty
    phone number has between 11 and 13 digits in it: the pattern asks for
    one to three digits before the groups of three, three and four, so a
    number of ten digits, without a country code, is refused. *)
Theorem valid_phone_number_digits p s :
  Patient.validate p = true ->
  Patient.phoneNumber p = Some s -> s <> "" ->
  11 <= digits s <= 13.
Proof.
  unfold Patient.validate. intros Hv Hs Hne.
  apply andb_true_iff in Hv. destruct Hv as [_ Hv]. rewrite Hs in Hv.
  apply String.eqb_neq in Hne. rewrite Hne in Hv. cbn in Hv.
  apply test_phoneNumber_digits. exact Hv.
Qed.

Lemma valid_phone_number_digits_witness :
  let p := Patient.mk 0 "Asha" (JS.num (JS.Fin 30))
                      (Some "+91 (555) 123-4567") 7 (Some "K1") true 1 in
  Patient.validate p = true
  /\ 11 <= digits "+91 (555) 123-4567" <= 13
  /\ Regex.test_phoneNumber "555-123-4567" = false.
Proof.
  intros p.
  assert (Hv : Patient.validate p = true) by (vm_compute; reflexivity).
  split; [exact Hv|]. split; [|vm_compute; reflexivity].
  apply (@valid_phone_number_digits p "+91 (555) 123-4567" Hv);
    [reflexivity|discriminate].
Defined.

(** *** What a poll can return *)

(** X20. A poll never fails for a kiosk id that is present, whether the
    kiosk is known or not: in a store reached from the empty one it is
    answered 200 with "none", "activate_motor_1" or "activate_motor_2", and
    with "none" exactly when no diagnosis of the kiosk awaits execution. *)
Theorem poll_returns_a_known_command kiosk st :
  reachable st -> JS.falsy_str kiosk = false ->
  exists command,
    get_motor_command kiosk st = Json 200 command
    /\ (command = "none" \/ command = "activate_motor_1"
        \/ command = "activate_motor_2")
    /\ (command = "none" <->
        filter (awaiting_execution (from_option kiosk)) (diagnoses st) = []).
Proof.
  intros Hr Hk. unfold get_motor_command. rewrite Hk.
  destruct (pending_command (from_option kiosk) st) as [d|] eqn:Hp.
  - exists (Diagnosis.motorCommand d). split; [reflexivity|].
    pose proof (pending_command_In _ _ Hp) as (Hin & _ & _ & Hs & Hm).
    pose proof (reachable_Forall handle_command_consistent Hr) as Hc.
    rewrite Forall_forall in Hc. specialize (Hc d Hin).
    unfold command_consistent in Hc. rewrite Hs in Hc. cbn in Hc.
    destruct Hc as [Hc _]. split.
    + rewrite Hc in Hm |- *.
      destruct (@motorCommand_for_cases _ Hm) as [[_ ->] | [_ ->]]; auto.
    + split; [intros E; contradiction|].
      intros E. unfold pending_command in Hp. rewrite E in Hp. discriminate.
  - exists "none". split; [reflexivity|]. split; [auto|].
    split; [|reflexivity]. intros _. unfold pending_command in Hp.
    apply latest_None. exact Hp.
Qed.

Lemma poll_returns_a_known_command_witness :
  reachable Scenario.two_approved
  /\ exists command,
       get_motor_command (Some "K1") Scenario.two_approved = Json 200 command
       /\ (command = "none" \/ command = "activate_motor_1"
           \/ command = "activate_motor_2")
       /\ (command = "none" <->
           filter (awaiting_execution "K1") (diagnoses Scenario.two_approved)
           = []).
Proof.
  assert (Hr : reachable Scenario.two_approved)
    by (repeat apply reachable_run; constructor).
  split; [exact Hr|].
  exact (@poll_returns_a_known_command (Some "K1") Scenario.two_approved
           Hr eq_refl).
Defined.

(** *** Valid documents *)

(** X21. In a store reached from the empty one, every diagnosis has a
    non-empty kiosk id and a predicted and an approved disease among
    "Disease A", "Disease B", "Undetermined" and "N/A"; so the answer
    "health is good" of the classifier is never stored. *)
Theorem reachable_diseases_in_enum st d :
  reachable st -> In d (diagnoses st) ->
  Diagnosis.kioskId d <> ""
  /\ In (Diagnosis.predictedDisease d) Diagnosis.disease_enum
  /\ In (Diagnosis.approvedDisease d) Diagnosis.disease_enum
  /\ Diagnosis.predictedDisease d <> "health is good".
Proof.
  intros Hr Hin. pose proof (reachable_valid Hr) as Hv.
  unfold stored_valid in Hv. rewrite Forall_forall in Hv.
  specialize (Hv d Hin). unfold Diagnosis.validate in Hv.
  apply andb_true_iff in Hv. destruct Hv as [Hv Ha].
  apply andb_true_iff in Hv. destruct Hv as [Hk Hp].
  apply negb_true_iff, String.eqb_neq in Hk.
  assert (Hen : forall x, Diagnosis.in_enum x = true ->
                          In x Diagnosis.disease_enum).
  { intros x Hx. unfold Diagnosis.in_enum in Hx.
    apply existsb_exists in Hx. destruct Hx as (y & Hy & E).
    apply String.eqb_eq in E. subst y. exact Hy. }
  split; [exact Hk|]. split; [auto|]. split; [auto|].
  intros E. rewrite E in Hp. discriminate.
Qed.

Lemma reachable_diseases_in_enum_witness :
  let d := Scenario.diagnosis_of 1 Scenario.predicted in
  reachable Scenario.predicted
  /\ In d (diagnoses Scenario.predicted)
  /\ Diagnosis.kioskId d <> ""
  /\ In (Diagnosis.predictedDisease d) Diagnosis.disease_enum
  /\ In (Diagnosis.approvedDisease d) Diagnosis.disease_enum
  /\ Diagnosis.predictedDisease d <> "health is good".
Proof.
  intros d.
  assert (Hr : reachable Scenario.predicted)
    by (repeat apply reachable_run; constructor).
  assert (Hin : In d (diagnoses Scenario.predicted))
    by (vm_compute; left; reflexivity).
  split; [exact Hr|]. split; [exact Hin|].
  exact (@reachable_diseases_in_enum Scenario.predicted d Hr Hin).
Defined.

(** *** Uploads to a session that waits for approval *)

(** X22. A session that waits for approval still takes readings: an
    accepted upload for a diagnosis in pending_approval is answered 200,
    keeps the status pending_approval and replaces the predicted disease by
    the label of the new reading, also when that label is
    "Undetermined". *)
Theorem upload_while_pending_approval now body st p d :
  let r := upload_reading body in
  let k := from_option (upload_kioskId body) in
  JS.falsy_str (upload_kioskId body) = false ->
  JS.isNaN (bpm r) = false -> JS.isNaN (spo2 r) = false ->
  JS.isNaN (temperature r) = false ->
  JS.ge (temperature r) 25 = false ->
  findOne (active_on k) (patients st) = Some p ->
  latest (filter (ongoing (Patient._id p) k) (diagnoses st)) = Some d ->
  Diagnosis.status d = Diagnosis.pending_approval ->
  Diagnosis.validate d = true ->
  exists st' d',
    data_upload now body st = (Json 200 (predictDisease r), st')
    /\ findById (Diagnosis._id d) st' = Some d'
    /\ Diagnosis.status d' = Diagnosis.pending_approval
    /\ Diagnosis.predictedDisease d' = predictDisease r
    /\ Diagnosis.sensorData d'
       = Diagnosis.sensorData d ++ [stored_reading now r].
Proof.
  intros r k Hk Hb Hs Ht H25 Hp Hd Hst Hv.
  assert (He : Diagnosis.in_enum (predictDisease r) = true)
    by (destruct (predictDisease_below_25 r H25) as [-> | ->]; reflexivity).
  destruct (@data_upload_ongoing now body st p d Hk Hb Hs Ht Hp Hd Hv He)
    as [Hrun Hfind].
  fold r in Hrun, Hfind.
  eexists. exists (ingested now r d).
  split; [exact Hrun|]. split; [exact Hfind|].
  destruct (ingested_fields now r d) as (_ & _ & _ & _ & E5 & E6).
  split; [|split; assumption].
  rewrite ingested_status. unfold advance_status. rewrite Hst. cbn.
  rewrite Hst. cbn. exact Hst.
Qed.

Lemma upload_while_pending_approval_witness :
  let st := Scenario.predicted in
  let d := Scenario.diagnosis_of 1 st in
  let r := Scenario.no_pulse in
  Diagnosis.predictedDisease d = "Disease B"
  /\ predictDisease r = "Undetermined"
  /\ exists st' d',
       data_upload 3 (mkUpload r Scenario.K1) st
       = (Json 200 (predictDisease r), st')
       /\ findById (Diagnosis._id d) st' = Some d'
       /\ Diagnosis.status d' = Diagnosis.pending_approval
       /\ Diagnosis.predictedDisease d' = predictDisease r
       /\ Diagnosis.sensorData d'
          = Diagnosis.sensorData d ++ [stored_reading 3 r].
Proof.
  intros st d r.
  split; [vm_compute; reflexivity|]. split; [vm_compute; reflexivity|].
  apply (@upload_while_pending_approval 3 (mkUpload r Scenario.K1) st
           (Scenario.patient_of 0 st) d);
    vm_compute; reflexivity.
Defined.

(** *** One ongoing diagnosis for a patient on a kiosk *)

Lemma length_filter_updateMany_completed (f : Diagnosis.t -> bool) c l :
  (forall x, f (Diagnosis.set_status Diagnosis.completed x) = false) ->
  List.length
    (filter f (updateMany c (Diagnosis.set_status Diagnosis.completed) l))
  <= List.length (filter f l).
Proof.
  intros Hf. unfold updateMany. induction l as [|a l IH]; cbn; [lia|].
  destruct (c a).
  - rewrite Hf. destruct (f a); cbn; lia.
  - destruct (f a); cbn; lia.
Qed.

Lemma length_filter_updateOne_same (f : Diagnosis.t -> bool) l d d' :
  NoDup (map Diagnosis._id l) -> In d l -> f d' = f d ->
  List.length
    (filter f (updateOne (fun x => Diagnosis._id x =? Diagnosis._id d)
                         (fun _ => d') l))
  = List.length (filter f l).
Proof.
  intros Hnd Hin Hf. induction l as [|a l IH]; cbn; [reflexivity|].
  inversion Hnd as [|? ? Hnotin Hnd']; subst.
  destruct (Diagnosis._id a =? Diagnosis._id d) eqn:E.
  - apply Nat.eqb_eq in E.
    assert (a = d)
      by (apply (unique_ids_eq (a :: l)); auto; left; reflexivity).
    subst a. cbn. rewrite Hf. destruct (f d); reflexivity.
  - cbn. destruct Hin as [->|Hin];
      [rewrite Nat.eqb_refl in E; discriminate|].
    specialize (IH Hnd' Hin). destruct (f a); cbn; lia.
Qed.

Lemma length_filter_updateOne_out (f c : Diagnosis.t -> bool) l d' :
  f d' = false ->
  List.length (filter f (updateOne c (fun _ => d') l))
  <= List.length (filter f l).
Proof.
  intros Hf. induction l as [|a l IH]; cbn; [lia|].
  destruct (c a); cbn.
  - rewrite Hf. destruct (f a); cbn; lia.
  - destruct (f a); cbn; lia.
Qed.

Lemma length_filter_findOneAndDelete (f g : Diagnosis.t -> bool) l :
  List.length (filter f (snd (findOneAndDelete g l)))
  <= List.length (filter f l).
Proof.
  induction l as [|a l IH]; cbn; [lia|].
  destruct (g a); cbn.
  - destruct (f a); cbn; lia.
  - destruct (findOneAndDelete g l) as [r l'']. cbn in *.
    destruct (f a); cbn; lia.
Qed.

Lemma ongoing_completed patient k x :
  ongoing patient k (Diagnosis.set_status Diagnosis.completed x) = false.
Proof. unfold ongoing. cbn. apply andb_false_r. Qed.

Lemma ongoing_ingested patient k now r d :
  Diagnosis.in_progress (Diagnosis.status d) = true ->
  ongoing patient k (ingested now r d) = ongoing patient k d.
Proof.
  intros Hp. unfold ongoing.
  destruct (ingested_fields now r d) as (_ & -> & _ & -> & _).
  rewrite (ingested_in_progress now r d Hp), Hp. reflexivity.
Qed.

Lemma filter_none_above (f : Diagnosis.t -> bool) n l :
  Forall (fun d => Diagnosis.patientId d < n) l ->
  (forall x, f x = true -> Diagnosis.patientId x = n) ->
  filter f l = [].
Proof.
  intros Hall Hf. induction Hall as [|a l Ha Hall IH]; cbn; [reflexivity|].
  destruct (f a) eqn:E; [|exact IH]. apply Hf in E. lia.
Qed.

Lemma handle_one_ongoing r st :
  NoDup (map Diagnosis._id (diagnoses st)) ->
  patient_ids_fresh st ->
  one_ongoing st -> one_ongoing (handle r st).
Proof.
  intros Hnd [_ Hpat] [Hone Href]. unfold one_ongoing.
  destruct r; cbn [handle]; [| | |split; assumption| |].
  - (* start *)
    unfold patient_start. destruct (_ || _); [split; assumption|].
    set (k0 := from_option (start_kioskId body)).
    set (l0 := updateMany (hanging_on k0)
                 (Diagnosis.set_status Diagnosis.completed) (diagnoses st)).
    assert (Hl0 : forall patient k,
               List.length (filter (ongoing patient k) l0) <= 1).
    { intros patient k.
      pose proof (length_filter_updateMany_completed (ongoing patient k)
                    (hanging_on k0) (diagnoses st)
                    (ongoing_completed patient k)).
      specialize (Hone patient k). fold l0 in H. lia. }
    assert (Hr0 : Forall (fun d => Diagnosis.patientId d < nextId st) l0).
    { apply Forall_updateMany; [exact Href|]. intros x Hx _. exact Hx. }
    subst l0.
    unfold Patient_save. cbn [patients diagnoses nextId].
    destruct (Patient.validate _); [|split; assumption].
    unfold Diagnosis_save. cbn [patients diagnoses nextId].
    destruct (Diagnosis.validate _); cbn [snd diagnoses nextId].
    + split.
      * intros patient k. rewrite filter_app, length_app. cbn [filter].
        match goal with |- context [if ?b then _ else _] =>
          destruct b eqn:E end; cbn [List.length]; [|specialize (Hl0 patient k); lia].
        rewrite (@filter_none_above (ongoing patient k) (nextId st) _ Hr0);
          [cbn; lia|].
        unfold ongoing in E. cbn in E.
        apply andb_true_iff in E. destruct E as [E _].
        apply andb_true_iff in E. destruct E as [E _].
        apply Nat.eqb_eq in E. subst patient.
        intros x Hx. unfold ongoing in Hx.
        apply andb_true_iff in Hx. destruct Hx as [Hx _].
        apply andb_true_iff in Hx. destruct Hx as [Hx _].
        apply Nat.eqb_eq in Hx. exact Hx.
      * apply Forall_app. split.
        -- eapply Forall_impl; [|exact Hr0]. cbn. intros; lia.
        -- constructor; [cbn; lia|constructor].
    + split; [exact Hl0|].
      eapply Forall_impl; [|exact Hr0]. cbn. intros; lia.
  - (* upload *)
    unfold data_upload. destruct (_ || _); [split; assumption|].
    destruct (findOne _ _) as [p|] eqn:Hp; [|split; assumption].
    assert (Hpid : Patient._id p < nextId st).
    { apply findOne_In in Hp. destruct Hp as [Hp _].
      rewrite Forall_forall in Hpat. apply Hpat. apply in_map. exact Hp. }
    unfold Diagnosis_save.
    match goal with
    | |- context [Diagnosis.validate (Diagnosis.set_updatedAt ?n
           (advance_status _ (Diagnosis.set_predictedDisease _
              (Diagnosis.push_sensorData _ ?r0 ?d0))))] =>
        change (Diagnosis.set_updatedAt n
                  (advance_status (predictDisease r0)
                     (Diagnosis.set_predictedDisease (predictDisease r0)
                        (Diagnosis.push_sensorData n r0 d0))))
          with (ingested n r0 d0);
        destruct (Diagnosis.validate (ingested n r0 d0));
        [|split; assumption]
    end.
    set (k0 := from_option (upload_kioskId body)) in *.
    destruct (latest _) as [d|] eqn:Hl; cbn [snd diagnoses nextId].
    + pose proof (latest_filter_In _ _ Hl) as [Hin Hon].
      unfold ongoing in Hon. apply andb_true_iff in Hon.
      destruct Hon as [_ Hpr].
      destruct (ingested_fields now (upload_reading body) d)
        as (Hid & Hpt & _).
      rewrite Hid. split.
      * intros patient k.
        rewrite length_filter_updateOne_same; auto.
        apply ongoing_ingested. exact Hpr.
      * apply Forall_updateOne; [exact Href|]. intros x _ Hx.
        apply Nat.eqb_eq in Hx. rewrite Hpt.
        rewrite Forall_forall in Href. apply Href. exact Hin.
    + apply latest_None in Hl. split.
      * intros patient k. rewrite filter_app, length_app. cbn [filter].
        match goal with |- context [if ?b then _ else _] =>
          destruct b eqn:E end; cbn [List.length];
          [|specialize (Hone patient k); lia].
        rewrite ongoing_ingested in E by reflexivity.
        unfold ongoing in E. cbn in E.
        apply andb_true_iff in E. destruct E as [E _].
        apply andb_true_iff in E. destruct E as [E1 E2].
        apply Nat.eqb_eq in E1. apply String.eqb_eq in E2. subst patient k.
        rewrite Hl. cbn. lia.
      * apply Forall_app. split.
        -- eapply Forall_impl; [|exact Href]. cbn. intros; lia.
        -- constructor; [|constructor].
           destruct (ingested_fields now (upload_reading body)
                       (Diagnosis.new now (nextId st) (Patient._id p)
                          (Patient.doctorId p) k0 Diagnosis.collecting_data))
             as (_ & -> & _). cbn. lia.
  - (* approve *)
    destruct (diagnosis_approve_shape now doctorId body st)
      as [E | (d & disease & Hin & _ & E)].
    + assert (En : nextId (snd (diagnosis_approve now doctorId body st))
                   = nextId st).
      { unfold diagnosis_approve.
        destruct (approve_diagnosisId body); [|reflexivity].
        destruct (JS.falsy_str _); [reflexivity|].
        destruct (findOne _ _); [|reflexivity].
        destruct (_ || _); [reflexivity|].
        destruct (Diagnosis_save _ _ _ _) as [s|] eqn:Hs; [|reflexivity].
        unfold Diagnosis_save in Hs.
        destruct (Diagnosis.validate _); [|discriminate].
        injection Hs as <-. reflexivity. }
      rewrite E, En. split; assumption.
    + assert (En : nextId (snd (diagnosis_approve now doctorId body st))
                   = nextId st).
      { unfold diagnosis_approve.
        destruct (approve_diagnosisId body); [|reflexivity].
        destruct (JS.falsy_str _); [reflexivity|].
        destruct (findOne _ _); [|reflexivity].
        destruct (_ || _); [reflexivity|].
        destruct (Diagnosis_save _ _ _ _) as [s|] eqn:Hs; [|reflexivity].
        unfold Diagnosis_save in Hs.
        destruct (Diagnosis.validate _); [|discriminate].
        injection Hs as <-. reflexivity. }
      rewrite E, En. split.
      * intros patient k.
        pose proof (length_filter_updateOne_out (ongoing patient k)
                      (fun x => Diagnosis._id x =? Diagnosis._id d)
                      (diagnoses st) (approved_by now disease d)) as H.
        specialize (Hone patient k).
        assert (ongoing patient k (approved_by now disease d) = false)
          by (unfold ongoing; cbn; apply andb_false_r).
        specialize (H H0). lia.
      * apply Forall_updateOne; [exact Href|]. intros x _ Hx. cbn.
        rewrite Forall_forall in Href. apply Href. exact Hin.
  - (* acknowledge *)
    assert (En : nextId (snd (command_executed now body st)) = nextId st).
    { unfold command_executed. destruct (_ || _); [reflexivity|].
      destruct (pending_command _ _); [|reflexivity].
      unfold Diagnosis_save. destruct (Diagnosis.validate _); reflexivity. }
    destruct (command_executed_shape now body st)
      as [E | (d & Hin & _ & E)]; rewrite E, En; [split; assumption|].
    split.
    + intros patient k.
      pose proof (length_filter_updateOne_out (ongoing patient k)
                    (fun x => Diagnosis._id x =? Diagnosis._id d)
                    (diagnoses st) (dispensed_at now d)) as H.
      specialize (Hone patient k).
      assert (ongoing patient k (dispensed_at now d) = false)
        by (unfold ongoing; cbn; apply andb_false_r).
      specialize (H H0). lia.
    + apply Forall_updateOne; [exact Href|]. intros x _ Hx. cbn.
      rewrite Forall_forall in Href. apply Href. exact Hin.
  - (* delete *)
    unfold history_delete.
    pose proof (fun patient k =>
                  length_filter_findOneAndDelete (ongoing patient k)
                    (owned_by doctorId id) (diagnoses st)) as Hlen.
    pose proof (Forall_findOneAndDelete (owned_by doctorId id) Href) as Hf.
    destruct (findOneAndDelete _ _) as [[x|] l]; cbn in *;
      [|split; assumption].
    split; [|exact Hf]. intros patient k.
    specialize (Hlen patient k). specialize (Hone patient k). lia.
Qed.

Lemma reachable_one_ongoing st : reachable st -> one_ongoing st.
Proof.
  intros Hr.
  assert (H : (NoDup (map Diagnosis._id (diagnoses st))
               /\ Forall (fun i => i < nextId st)
                         (map Diagnosis._id (diagnoses st)))
              /\ patient_ids_fresh st /\ one_ongoing st).
  { induction Hr as [|st r _ (Hids & Hpat & Hone)].
    - repeat split; try constructor. intros; cbn; lia.
    - split; [apply handle_ids; exact Hids|].
      split; [apply handle_patient_ids; exact Hpat|].
      apply handle_one_ongoing; tauto. }
  tauto.
Qed.

(** X23. In a store reached from the empty one, a patient has at most one
    ongoing diagnosis on a kiosk id, so the sort by which an upload takes
    the latest of several never has more than one to choose from: two
    diagnoses of the same patient and kiosk id that are both in
    collecting_data, prediction_made or pending_approval are the same
    diagnosis. *)
Theorem at_most_one_ongoing_diagnosis st a b :
  reachable st ->
  In a (diagnoses st) -> In b (diagnoses st) ->
  Diagnosis.patientId a = Diagnosis.patientId b ->
  Diagnosis.kioskId a = Diagnosis.kioskId b ->
  Diagnosis.in_progress (Diagnosis.status a) = true ->
  Diagnosis.in_progress (Diagnosis.status b) = true ->
  a = b.
Proof.
  intros Hr Ha Hb Hp Hk Sa Sb.
  destruct (reachable_one_ongoing Hr) as [Hone _].
  specialize (Hone (Diagnosis.patientId a) (Diagnosis.kioskId a)).
  assert (Fa : In a (filter (ongoing (Diagnosis.patientId a)
                                     (Diagnosis.kioskId a)) (diagnoses st))).
  { apply filter_In. split; [exact Ha|]. unfold ongoing.
    rewrite Nat.eqb_refl, String.eqb_refl, Sa. reflexivity. }
  assert (Fb : In b (filter (ongoing (Diagnosis.patientId a)
                                     (Diagnosis.kioskId a)) (diagnoses st))).
  { apply filter_In. split; [exact Hb|]. unfold ongoing.
    rewrite Hp, Hk, Nat.eqb_refl, String.eqb_refl, Sb. reflexivity. }
  destruct (filter _ _) as [|x [|y l]]; cbn in *; [contradiction| |lia].
  destruct Fa as [<-|[]], Fb as [<-|[]]. reflexivity.
Qed.

Lemma at_most_one_ongoing_diagnosis_witness :
  let st := Scenario.predicted in
  let d := Scenario.diagnosis_of 1 st in
  reachable st
  /\ In d (diagnoses st)
  /\ Diagnosis.in_progress (Diagnosis.status d) = true
  /\ d = d.
Proof.
  intros st d.
  assert (Hr : reachable st) by (repeat apply reachable_run; constructor).
  assert (Hin : In d (diagnoses st)) by (vm_compute; left; reflexivity).
  assert (Hs : Diagnosis.in_progress (Diagnosis.status d) = true)
    by (vm_compute; reflexivity).
  split; [exact Hr|]. split; [exact Hin|]. split; [exact Hs|].
  exact (@at_most_one_ongoing_diagnosis st d d Hr Hin Hin
           eq_refl eq_refl Hs Hs).
Defined.
